(** * Keyword popularity consumer (consumers/consumer_webb.py)

    A shallow embedding of the consumer: the live data file is read line by
    line, each line is decoded with [json.loads], [process_message] derives
    an (hour, keyword) pair from it and [update_keyword_count] counts the pair
    in the SQLite table [keyword_popularity].

    Conventions of the embedding.
    - Text is a Rocq [string]; the embedding is exact for ASCII data, where a
      character is a byte and a file offset counts both.
    - The process runs in a [World]: the live data file, the database
      location, the clock and the log.  Python exceptions, [sys.exit] and
      the bound on loop iterations are results of a computation ([res]).
    - The world holds the one live data file and the one database location
      the process is configured with; the path arguments of the source
      select them and are not repeated in the definitions.
    - Only warnings and errors are kept in the log; [logger.info] lines
      carry no decision and are left out. *)

From Stdlib Require Import String Ascii List ZArith NArith Bool Lia Permutation.
From Stdlib Require Import DecimalString.
Import ListNotations.

Local Open Scope string_scope.
Local Open Scope Z_scope.
Local Open Scope list_scope.

(* ================================================================== *)
(** * Text                                                             *)
(* ================================================================== *)

Module Text.

Definition code (c : ascii) : N := N_of_ascii c.

(** [str.isspace] on ASCII: TAB..CR, FS..US and the space. *)
Definition isspace (c : ascii) : bool :=
  let n := code c in
  (((9 <=? n) && (n <=? 13)) || ((28 <=? n) && (n <=? 32)))%N.

Definition isdigit (c : ascii) : bool :=
  let n := code c in ((48 <=? n) && (n <=? 57))%N.

Definition digit_value (c : ascii) : Z := Z.of_N (code c) - 48.

(** The double quote. *)
Definition quote : ascii := ascii_of_N 34.

Definition is_quote (c : ascii) : bool := (code c =? 34)%N.

Fixpoint lstrip (s : string) : string :=
  match s with
  | EmptyString => EmptyString
  | String c s' => if isspace c then lstrip s' else s
  end.

Fixpoint rstrip (s : string) : string :=
  match s with
  | EmptyString => EmptyString
  | String c s' =>
      match rstrip s' with
      | EmptyString => if isspace c then EmptyString else String c EmptyString
      | r => String c r
      end
  end.

(** [str.strip()] with no argument. *)
Definition strip (s : string) : string := rstrip (lstrip s).

Definition is_empty (s : string) : bool :=
  match s with EmptyString => true | _ => false end.

Fixpoint drop (n : nat) (s : string) : string :=
  match n, s with
  | O, _ => s
  | S n', String _ s' => drop n' s'
  | S _, EmptyString => EmptyString
  end.

Definition LF : ascii := ascii_of_N 10.

Definition finish_line (cur : list ascii) : string :=
  string_of_list_ascii (rev (LF :: cur)).

(** Iterating a file opened in text mode with the default
    [newline=None]: a line ends at LF, CR or CR LF, each delivered as
    a single LF; the text after the last terminator, when there is
    any, is delivered as a last line without a terminator. *)
Fixpoint readlines_from (cur : list ascii) (s : string) : list string :=
  match s with
  | EmptyString =>
      match cur with
      | [] => []
      | _ => [string_of_list_ascii (rev cur)]
      end
  | String c s' =>
      if (code c =? 10)%N then finish_line cur :: readlines_from [] s'
      else if (code c =? 13)%N then
        match s' with
        | String c' s'' =>
            if (code c' =? 10)%N
            then finish_line cur :: readlines_from [] s''
            else finish_line cur :: readlines_from [] s'
        | EmptyString => finish_line cur :: readlines_from [] s'
        end
      else readlines_from (c :: cur) s'
  end.

Definition readlines (s : string) : list string := readlines_from [] s.

(** Decimal text of an integer, as [str(int)] and SQLite print it. *)
Definition decimal (z : Z) : string :=
  NilZero.string_of_int (Z.to_int z).

End Text.

(* ================================================================== *)
(** * Python values                                                    *)
(* ================================================================== *)

(** A float is kept as what its literal denotes, [m * 10^e] before
    rounding to a double, or as one of the three constants [json]
    accepts. *)
Inductive pyfloat : Type :=
| FDec (m e : Z)
| FNaN
| FInf (neg : bool).

(** The values [json.loads] builds.  A [dict] keeps its keys in
    insertion order.  A [str] is kept as its UTF-8 text; a [str] that
    holds a surrogate on its own has no UTF-8 text and is a
    [PStrLone], kept as the bytes UTF-8 would have for it were
    surrogates allowed. *)
#[local] Set Warnings "-register-all".
Inductive pyval : Type :=
| PNone
| PBool (b : bool)
| PInt (z : Z)
| PFloat (f : pyfloat)
| PStr (s : string)
| PStrLone (s : string)
| PList (l : list pyval)
| PDict (d : list (string * pyval)).

Definition pydict : Type := list (string * pyval).

(** [float(...) != 0.0]: the literal rounds to zero exactly when its
    magnitude is at most half the smallest subnormal, [2^-1075]. *)
Definition float_nonzero (f : pyfloat) : bool :=
  match f with
  | FDec m e =>
      negb (m =? 0) &&
      ((0 <=? e) || (10 ^ (- e) <? Z.abs m * 2 ^ 1075))
  | FNaN => true
  | FInf _ => true
  end.

(** Truth value of an object, as [if x:] and [not x] test it. *)
Definition truthy (v : pyval) : bool :=
  match v with
  | PNone => false
  | PBool b => b
  | PInt z => negb (z =? 0)
  | PFloat f => float_nonzero f
  | PStr s => negb (Text.is_empty s)
  | PStrLone _ => true
  | PList l => match l with [] => false | _ => true end
  | PDict d => match d with [] => false | _ => true end
  end.

Fixpoint dict_lookup (d : pydict) (k : string) : option pyval :=
  match d with
  | [] => None
  | (k', v) :: d' => if String.eqb k' k then Some v else dict_lookup d' k
  end.

(** [d[k] = v]: an existing key keeps its place. *)
Fixpoint dict_set (d : pydict) (k : string) (v : pyval) : pydict :=
  match d with
  | [] => [(k, v)]
  | (k', v') :: d' =>
      if String.eqb k' k then (k', v) :: d' else (k', v') :: dict_set d' k v
  end.

(* ================================================================== *)
(** * json.loads                                                       *)
(* ================================================================== *)

(** The decoder of the standard library, for the default
    [json.loads(s)]: a scanner that cuts the text into tokens and a
    pushdown parser over the tokens.  White space (space, TAB, LF, CR)
    is allowed between any two tokens and nowhere else.  A result of
    [None] stands for [json.JSONDecodeError].  The limits of the
    interpreter (its recursion limit for deeply nested values, its
    bound on the digits of an integer literal) are left out. *)
Module Json.

Inductive token : Type :=
| TLBrace | TRBrace | TLBracket | TRBracket | TColon | TComma
| TScalar (v : pyval).

(** Where the scanner is inside a number: an optional minus sign, an
    integer part (a lone 0, or digits not starting with 0), an
    optional fraction (a dot and digits) and an optional exponent
    (e or E, an optional sign and digits). *)
Inductive phase : Type :=
| NMinus | NZero | NInt | NDot | NFrac | NE | NESign | NExp.

Record numeral : Type := mkNumeral {
  neg : bool;        (* a leading minus sign *)
  mant : Z;          (* the digits of the integer and fraction parts *)
  scale : Z;         (* how many of them are fraction digits *)
  is_float : bool;   (* a fraction or an exponent is present *)
  eneg : bool;       (* the sign of the exponent *)
  expo : Z           (* the digits of the exponent *)
}.

Inductive state : Type :=
| Idle
| InString (acc : list ascii)
| InEscape (acc : list ascii)
| InUnicode (acc : list ascii) (todo : nat) (cp : N)
| InHigh (acc : list ascii) (hi : N)
| InHighEscape (acc : list ascii) (hi : N)
| InHighUnicode (acc : list ascii) (hi : N) (todo : nat) (cp : N)
| InWord (rest : string) (v : pyval)
| InNumber (p : phase) (n : numeral).

Definition numeral_value (n : numeral) : pyval :=
  let m := if neg n then - mant n else mant n in
  if is_float n
  then PFloat (FDec m ((if eneg n then - expo n else expo n) - scale n))
  else PInt m.

Definition hex_value (c : ascii) : option N :=
  let n := Text.code c in
  if ((48 <=? n) && (n <=? 57))%N then Some (n - 48)%N
  else if ((65 <=? n) && (n <=? 70))%N then Some (n - 55)%N
  else if ((97 <=? n) && (n <=? 102))%N then Some (n - 87)%N
  else None.

(** The escapes D800..DBFF and DC00..DFFF are the two halves of a
    surrogate pair, which stands for one code point above U+FFFF. *)
Definition is_high_surrogate (cp : N) : bool :=
  ((55296 <=? cp) && (cp <=? 56319))%N.

Definition is_low_surrogate (cp : N) : bool :=
  ((56320 <=? cp) && (cp <=? 57343))%N.

Definition join_surrogates (hi lo : N) : N :=
  (65536 + (hi - 55296) * 1024 + (lo - 56320))%N.

(** The UTF-8 bytes of a code point, pushed on [acc], the last byte
    first. *)
Definition push_code_point (cp : N) (acc : list ascii) : list ascii :=
  if (cp <? 128)%N then ascii_of_N cp :: acc
  else if (cp <? 2048)%N then
    ascii_of_N (128 + cp mod 64) :: ascii_of_N (192 + cp / 64) :: acc
  else if (cp <? 65536)%N then
    ascii_of_N (128 + cp mod 64) :: ascii_of_N (128 + (cp / 64) mod 64)
      :: ascii_of_N (224 + cp / 4096) :: acc
  else
    ascii_of_N (128 + cp mod 64) :: ascii_of_N (128 + (cp / 64) mod 64)
      :: ascii_of_N (128 + (cp / 4096) mod 64)
      :: ascii_of_N (240 + cp / 262144) :: acc.

(** The text holds a surrogate on its own: the byte ED followed by a
    byte from A0 to BF, which UTF-8 has for nothing else. *)
Fixpoint has_surrogate (s : string) : bool :=
  match s with
  | String c (String c' _ as s') =>
      ((Text.code c =? 237) && (160 <=? Text.code c') && (Text.code c' <=? 191))%N
      || has_surrogate s'
  | _ => false
  end.

(** The [str] of a string literal that ends. *)
Definition string_value (acc : list ascii) : pyval :=
  let s := string_of_list_ascii (rev acc) in
  if has_surrogate s then PStrLone s else PStr s.

Definition start_number (p : phase) (sign : bool) (d : Z) : state :=
  InNumber p (mkNumeral sign d 0 false false 0).

(** One character read between tokens. *)
Definition idle_step (c : ascii) : option (list token * state) :=
  if Text.is_quote c then Some ([], InString []) else
  match c with
  | "{"%char => Some ([TLBrace], Idle)
  | "}"%char => Some ([TRBrace], Idle)
  | "["%char => Some ([TLBracket], Idle)
  | "]"%char => Some ([TRBracket], Idle)
  | ":"%char => Some ([TColon], Idle)
  | ","%char => Some ([TComma], Idle)
  | "n"%char => Some ([], InWord "ull" PNone)
  | "t"%char => Some ([], InWord "rue" (PBool true))
  | "f"%char => Some ([], InWord "alse" (PBool false))
  | "N"%char => Some ([], InWord "aN" (PFloat FNaN))
  | "I"%char => Some ([], InWord "nfinity" (PFloat (FInf false)))
  | "-"%char => Some ([], start_number NMinus true 0)
  | "0"%char => Some ([], start_number NZero false 0)
  | _ =>
      if Text.isdigit c then Some ([], start_number NInt false (Text.digit_value c))
      else
        let n := Text.code c in
        if ((n =? 32) || (n =? 9) || (n =? 10) || (n =? 13))%N
        then Some ([], Idle)
        else None
  end.

Definition add_digit (n : numeral) (c : ascii) : numeral :=
  mkNumeral (neg n) (10 * mant n + Text.digit_value c) (scale n)
            (is_float n) (eneg n) (expo n).

Definition add_fraction_digit (n : numeral) (c : ascii) : numeral :=
  mkNumeral (neg n) (10 * mant n + Text.digit_value c) (scale n + 1)
            true (eneg n) (expo n).

Definition add_exponent_digit (n : numeral) (c : ascii) : numeral :=
  mkNumeral (neg n) (mant n) (scale n) true (eneg n)
            (10 * expo n + Text.digit_value c).

Definition set_exponent_sign (n : numeral) (s : bool) : numeral :=
  mkNumeral (neg n) (mant n) (scale n) true s (expo n).

(** The token a number ends with when the next character does not
    belong to it, and then that character read between tokens. *)
Definition end_number (n : numeral) (c : ascii) : option (list token * state) :=
  match idle_step c with
  | Some (ts, st) => Some (TScalar (numeral_value n) :: ts, st)
  | None => None
  end.

Definition is_e (c : ascii) : bool :=
  match c with "e"%char | "E"%char => true | _ => false end.

Definition number_step (p : phase) (n : numeral) (c : ascii)
  : option (list token * state) :=
  match p with
  | NMinus =>
      match c with
      | "0"%char => Some ([], InNumber NZero n)
      | "I"%char => Some ([], InWord "nfinity" (PFloat (FInf true)))
      | _ => if Text.isdigit c then Some ([], InNumber NInt (add_digit n c)) else None
      end
  | NZero =>
      match c with
      | "."%char => Some ([], InNumber NDot n)
      | _ => if is_e c then Some ([], InNumber NE n) else end_number n c
      end
  | NInt =>
      match c with
      | "."%char => Some ([], InNumber NDot n)
      | _ =>
          if Text.isdigit c then Some ([], InNumber NInt (add_digit n c))
          else if is_e c then Some ([], InNumber NE n)
          else end_number n c
      end
  | NDot =>
      if Text.isdigit c then Some ([], InNumber NFrac (add_fraction_digit n c)) else None
  | NFrac =>
      if Text.isdigit c then Some ([], InNumber NFrac (add_fraction_digit n c))
      else if is_e c then Some ([], InNumber NE n)
      else end_number n c
  | NE =>
      match c with
      | "+"%char => Some ([], InNumber NESign (set_exponent_sign n false))
      | "-"%char => Some ([], InNumber NESign (set_exponent_sign n true))
      | _ => if Text.isdigit c then Some ([], InNumber NExp (add_exponent_digit n c)) else None
      end
  | NESign =>
      if Text.isdigit c then Some ([], InNumber NExp (add_exponent_digit n c)) else None
  | NExp =>
      if Text.isdigit c then Some ([], InNumber NExp (add_exponent_digit n c))
      else end_number n c
  end.

Definition escape_step (acc : list ascii) (c : ascii) : option (list token * state) :=
  if Text.is_quote c then Some ([], InString (c :: acc)) else
  match c with
  | "\"%char | "/"%char => Some ([], InString (c :: acc))
  | "b"%char => Some ([], InString (ascii_of_N 8 :: acc))
  | "f"%char => Some ([], InString (ascii_of_N 12 :: acc))
  | "n"%char => Some ([], InString (ascii_of_N 10 :: acc))
  | "r"%char => Some ([], InString (ascii_of_N 13 :: acc))
  | "t"%char => Some ([], InString (ascii_of_N 9 :: acc))
  | "u"%char => Some ([], InUnicode acc 4 0%N)
  | _ => None
  end.

(** One character read inside a string literal. *)
Definition string_step (acc : list ascii) (c : ascii) : option (list token * state) :=
  if Text.is_quote c
  then Some ([TScalar (string_value acc)], Idle)
  else
    match c with
    | "\"%char => Some ([], InEscape acc)
    | _ => if (Text.code c <? 32)%N then None else Some ([], InString (c :: acc))
    end.

(** A [\u] escape read to its end.  The first half of a pair waits
    for the second. *)
Definition end_escape (acc : list ascii) (cp : N) : state :=
  if is_high_surrogate cp then InHigh acc cp
  else InString (push_code_point cp acc).

Definition step (st : state) (c : ascii) : option (list token * state) :=
  match st with
  | Idle => idle_step c
  | InString acc => string_step acc c
  | InEscape acc => escape_step acc c
  | InUnicode acc todo cp =>
      match hex_value c, todo with
      | Some h, 1%nat => Some ([], end_escape acc (16 * cp + h))
      | Some h, S todo' => Some ([], InUnicode acc todo' (16 * cp + h)%N)
      | _, _ => None
      end
  | InHigh acc hi =>
      match c with
      | "\"%char => Some ([], InHighEscape acc hi)
      | _ => string_step (push_code_point hi acc) c
      end
  | InHighEscape acc hi =>
      match c with
      | "u"%char => Some ([], InHighUnicode acc hi 4 0%N)
      | _ => escape_step (push_code_point hi acc) c
      end
  | InHighUnicode acc hi todo cp =>
      match hex_value c, todo with
      | Some h, 1%nat =>
          let lo := (16 * cp + h)%N in
          if is_low_surrogate lo
          then Some ([], InString (push_code_point (join_surrogates hi lo) acc))
          else Some ([], end_escape (push_code_point hi acc) lo)
      | Some h, S todo' => Some ([], InHighUnicode acc hi todo' (16 * cp + h)%N)
      | _, _ => None
      end
  | InWord rest v =>
      match rest with
      | String c' EmptyString => if Ascii.eqb c c' then Some ([TScalar v], Idle) else None
      | String c' rest' => if Ascii.eqb c c' then Some ([], InWord rest' v) else None
      | EmptyString => None
      end
  | InNumber p n => number_step p n c
  end.

Definition finish (st : state) : option (list token) :=
  match st with
  | Idle => Some []
  | InNumber (NZero | NInt | NFrac | NExp) n => Some [TScalar (numeral_value n)]
  | _ => None
  end.

Fixpoint scan (st : state) (s : string) : option (list token) :=
  match s with
  | EmptyString => finish st
  | String c s' =>
      match step st c with
      | Some (ts, st') =>
          match scan st' s' with
          | Some ts' => Some (ts ++ ts')
          | None => None
          end
      | None => None
      end
  end.

(** The container being filled: a list with its items so far, last
    first, or a dict with the key whose value is awaited. *)
Inductive frame : Type :=
| InList (items : list pyval)
| InDict (d : pydict) (key : string).

(** What the parser expects next. *)
Inductive mode : Type :=
| Value (may_close : bool)  (* a value; "]" too just after "[" *)
| Key (may_close : bool)    (* a key; "}" too just after "{" *)
| Colon
| After                     (* "," or the closing bracket *)
| Done (v : pyval).

Definition complete (v : pyval) (stack : list frame) : mode * list frame :=
  match stack with
  | [] => (Done v, [])
  | InList items :: st => (After, InList (v :: items) :: st)
  | InDict d k :: st => (After, InDict (dict_set d k v) k :: st)
  end.

Definition parse_step (m : mode) (stack : list frame) (t : token)
  : option (mode * list frame) :=
  match m, t with
  | Value _, TScalar v => Some (complete v stack)
  | Value _, TLBracket => Some (Value true, InList [] :: stack)
  | Value _, TLBrace => Some (Key true, InDict [] "" :: stack)
  | Value true, TRBracket =>
      match stack with
      | InList items :: st => Some (complete (PList (rev items)) st)
      | _ => None
      end
  | Key _, TScalar (PStr k | PStrLone k) =>
      match stack with
      | InDict d _ :: st => Some (Colon, InDict d k :: st)
      | _ => None
      end
  | Key true, TRBrace =>
      match stack with
      | InDict d _ :: st => Some (complete (PDict d) st)
      | _ => None
      end
  | Colon, TColon => Some (Value false, stack)
  | After, TComma =>
      match stack with
      | InList _ :: _ => Some (Value false, stack)
      | InDict _ _ :: _ => Some (Key false, stack)
      | [] => None
      end
  | After, TRBracket =>
      match stack with
      | InList items :: st => Some (complete (PList (rev items)) st)
      | _ => None
      end
  | After, TRBrace =>
      match stack with
      | InDict d _ :: st => Some (complete (PDict d) st)
      | _ => None
      end
  | _, _ => None
  end.

Fixpoint parse (m : mode) (stack : list frame) (ts : list token) : option pyval :=
  match ts with
  | [] => match m with Done v => Some v | _ => None end
  | t :: ts' =>
      match parse_step m stack t with
      | Some (m', stack') => parse m' stack' ts'
      | None => None
      end
  end.

Definition loads (s : string) : option pyval :=
  match scan Idle s with
  | Some ts => parse (Value false) [] ts
  | None => None
  end.

End Json.

(* ================================================================== *)
(** * datetime.strptime                                                *)
(* ================================================================== *)

(** [datetime.strptime(s, "%Y-%m-%d %H:%M:%S")].  The library turns the
    format into a regular expression, one group per directive, matches
    it at the start of the text with backtracking and refuses text
    left over after the match.  A matcher below lists the ways a
    pattern matches a prefix, in the order the engine tries them. *)
Module Strptime.

Definition rx (A : Type) : Type := string -> list (A * string).

Definition pure {A} (a : A) : rx A := fun s => [(a, s)].

Definition bind {A B} (p : rx A) (f : A -> rx B) : rx B :=
  fun s => flat_map (fun '(a, rest) => f a rest) (p s).

(** Alternatives [p|q]: the matches of [p] come first. *)
Definition alt {A} (p q : rx A) : rx A := fun s => p s ++ q s.

(** One digit between [lo] and [hi]. *)
Definition digit_in (lo hi : Z) : rx Z :=
  fun s =>
    match s with
    | String c rest =>
        let d := Text.digit_value c in
        if Text.isdigit c && (lo <=? d) && (d <=? hi) then [(d, rest)] else []
    | EmptyString => []
    end.

Definition digit : rx Z := digit_in 0 9.

Definition lit (c : ascii) : rx unit :=
  fun s =>
    match s with
    | String c' rest => if Ascii.eqb c c' then [(tt, rest)] else []
    | EmptyString => []
    end.

(** White space, once or more, the longest run first. *)
Fixpoint spaces (s : string) : list (unit * string) :=
  match s with
  | String c rest => if Text.isspace c then spaces rest ++ [(tt, rest)] else []
  | EmptyString => []
  end.

Notation "x <- p ;; q" := (bind p (fun x => q))
  (at level 61, p at next level, right associativity).

Definition two (lo1 hi1 lo2 hi2 : Z) : rx Z :=
  a <- digit_in lo1 hi1 ;; b <- digit_in lo2 hi2 ;; pure (10 * a + b).

(** %Y: four digits. *)
Definition rx_Y : rx Z :=
  a <- digit ;; b <- digit ;; c <- digit ;; d <- digit ;;
  pure (1000 * a + 100 * b + 10 * c + d).

(** %m: 1[0-2], 0[1-9] or [1-9]. *)
Definition rx_m : rx Z :=
  alt (two 1 1 0 2) (alt (two 0 0 1 9) (digit_in 1 9)).

(** %d: 3[0-1], [1-2]\d, 0[1-9], [1-9] or a space and [1-9]. *)
Definition rx_d : rx Z :=
  alt (two 3 3 0 1)
    (alt (two 1 2 0 9)
       (alt (two 0 0 1 9)
          (alt (digit_in 1 9)
             (_ <- lit " " ;; digit_in 1 9)))).

(** %H: 2[0-3], [0-1]\d or \d. *)
Definition rx_H : rx Z :=
  alt (two 2 2 0 3) (alt (two 0 1 0 9) digit).

(** %M: [0-5]\d or \d. *)
Definition rx_M : rx Z :=
  alt (two 0 5 0 9) digit.

(** %S: 6[0-1], [0-5]\d or \d. *)
Definition rx_S : rx Z :=
  alt (two 6 6 0 1) (alt (two 0 5 0 9) digit).

Record datetime : Type := mkDatetime {
  year : Z; month : Z; day : Z; hour : Z; minute : Z; second : Z
}.

(** The whole format; the space of the format matches any run of
    white space. *)
Definition rx_format : rx datetime :=
  Y <- rx_Y ;; _ <- lit "-" ;; m <- rx_m ;; _ <- lit "-" ;; d <- rx_d ;;
  _ <- spaces ;;
  H <- rx_H ;; _ <- lit ":" ;; M <- rx_M ;; _ <- lit ":" ;; S <- rx_S ;;
  pure (mkDatetime Y m d H M S).

Definition is_leap (y : Z) : bool :=
  (y mod 4 =? 0) && (negb (y mod 100 =? 0) || (y mod 400 =? 0)).

Definition days_in_month (y m : Z) : Z :=
  if m =? 2 then (if is_leap y then 29 else 28)
  else if (m =? 4) || (m =? 6) || (m =? 9) || (m =? 11) then 30
  else 31.

(** What the [date] and [datetime] constructors accept. *)
Definition valid (t : datetime) : bool :=
  (1 <=? year t) && (day t <=? days_in_month (year t) (month t))
  && (second t <=? 59).

(** [None] stands for [ValueError]: no match, text left over, or
    fields that are not a date and time. *)
Definition strptime (s : string) : option datetime :=
  match rx_format s with
  | (t, rest) :: _ =>
      if Text.is_empty rest && valid t then Some t else None
  | [] => None
  end.

End Strptime.

(* ================================================================== *)
(** * The world of the process                                         *)
(* ================================================================== *)

(** The exceptions the program can meet; all are subclasses of
    [Exception]. *)
Inductive exn : Type :=
| FileNotFoundError
| PermissionError      (* any other OSError of the file system *)
| JSONDecodeError
| AttributeError
| TypeError
| ValueError
| OverflowError
| UnicodeEncodeError   (* sqlite3: a str that has no UTF-8 text *)
| OperationalError     (* sqlite3: cannot open, no such table *)
| ProgrammingError.    (* sqlite3: a parameter of an unsupported type *)

(** A row of [keyword_popularity].  [keyword] has TEXT affinity and
    holds text or NULL ([None]).  [count] is exact as long as it stays
    below [2^63 - 1], where SQLite leaves integer arithmetic. *)
Record row : Type := mkRow {
  rowid : Z;
  hour_of_day : Z;
  keyword : option string;
  count : Z;
  last_updated : string
}.

Definition table : Type := list row.

(** The database file: absent, or present with or without the table. *)
Inductive db_file : Type :=
| NoFile
| File (t : option table).

(** The database location: the file and what the file system allows. *)
Record db_loc : Type := mkDb {
  file : db_file;
  unlink_ok : bool;   (* the file can be deleted *)
  mkdir_ok : bool;    (* its directory exists or can be created *)
  open_ok : bool      (* sqlite3.connect succeeds *)
}.

Inductive live_file : Type :=
| LiveMissing
| LiveUnreadable
| LiveText (content : string).

(** The warnings and errors of the program, one per call site. *)
Inductive message : Type :=
| InitFailed (e : exn)       (* Failed to initialize keyword database *)
| UpdateFailed (e : exn)     (* Failed to update keyword count *)
| MissingField               (* Message missing timestamp or keyword, skipping *)
| ProcessingError (e : exn)  (* Error processing message *)
| LiveNotFound               (* Live data file not found *)
| LiveReadError (e : exn)    (* Error reading from live data file *)
| EnvFailed (e : exn)        (* Failed to read environment variables *)
| DeleteFailed (e : exn)     (* Failed to delete DB file *)
| CreateFailed (e : exn)     (* Failed to create keyword db table *)
| Unexpected (e : exn).      (* Unexpected error *)

Inductive event : Type :=
| Warning (m : message)
| Error (m : message)
| Slept (secs : Z).

Record World : Type := mkWorld {
  config : option Z;        (* the interval the configuration gives; None when reading it raises *)
  live : live_file;
  db : db_loc;
  time_at : nat -> string;  (* the text of the n-th reading of the clock *)
  clock : nat;              (* readings of the clock so far *)
  log : list event          (* oldest first *)
}.

Definition contents (f : db_file) : option table :=
  match f with NoFile => None | File t => t end.

(** The table as a reader of the database sees it. *)
Definition stored (w : World) : option table := contents (file (db w)).

Definition set_file (w : World) (f : db_file) : World :=
  mkWorld (config w) (live w)
          (mkDb f (unlink_ok (db w)) (mkdir_ok (db w)) (open_ok (db w)))
          (time_at w) (clock w) (log w).

Definition add_event (w : World) (e : event) : World :=
  mkWorld (config w) (live w) (db w) (time_at w) (clock w) (log w ++ [e]).

Definition tick (w : World) : World :=
  mkWorld (config w) (live w) (db w) (time_at w) (S (clock w)) (log w).

(* ================================================================== *)
(** * Computations                                                     *)
(* ================================================================== *)

(** How a computation ends: with a value, with an exception, with
    [sys.exit(code)], or cut off by the bound on loop iterations. *)
Inductive res (A : Type) : Type :=
| Ok (a : A)
| Raise (e : exn)
| SysExit (code : Z)
| OutOfFuel.

Arguments Ok {A} a.
Arguments Raise {A} e.
Arguments SysExit {A} code.
Arguments OutOfFuel {A}.

Definition M (A : Type) : Type := World -> res A * World.

Definition ret {A} (a : A) : M A := fun w => (Ok a, w).

Definition bind {A B} (m : M A) (f : A -> M B) : M B :=
  fun w =>
    match m w with
    | (Ok a, w') => f a w'
    | (Raise e, w') => (Raise e, w')
    | (SysExit c, w') => (SysExit c, w')
    | (OutOfFuel, w') => (OutOfFuel, w')
    end.

Declare Scope py_scope.
Delimit Scope py_scope with py.
Notation "x <- m ;; k" := (bind m (fun x => k))
  (at level 61, m at next level, right associativity) : py_scope.
Notation "m ;; k" := (bind m (fun _ => k))
  (at level 61, right associativity) : py_scope.
Local Open Scope py_scope.

Definition raise {A} (e : exn) : M A := fun w => (Raise e, w).

Definition sys_exit {A} (code : Z) : M A := fun w => (SysExit code, w).

(** [try: body except Exception as e: handler e]. *)
Definition try_except {A} (body : M A) (handler : exn -> M A) : M A :=
  fun w =>
    match body w with
    | (Raise e, w') => handler e w'
    | r => r
    end.

Definition log_warning (m : message) : M unit :=
  fun w => (Ok tt, add_event w (Warning m)).

Definition log_error (m : message) : M unit :=
  fun w => (Ok tt, add_event w (Error m)).

(** [time.sleep(secs)]. *)
Definition sleep (secs : Z) : M unit :=
  fun w => (Ok tt, add_event w (Slept secs)).

(** [datetime.now().strftime("%Y-%m-%d %H:%M:%S")]. *)
Definition now : M string :=
  fun w => (Ok (time_at w (clock w)), tick w).

(* ================================================================== *)
(** * Storage: the sqlite3 statements of the program                   *)
(* ================================================================== *)

Module Sql.

(** The outcome of a statement. *)
Inductive result (A : Type) : Type :=
| Done (a : A)
| Failed (e : exn).

Arguments Done {A} a.
Arguments Failed {A} e.

Definition min_int64 : Z := - 2 ^ 63.
Definition max_int64 : Z := 2 ^ 63 - 1.

(** Binding a Python [int]: SQLite integers have 64 bits. *)
Definition bind_int (z : Z) : result Z :=
  if (min_int64 <=? z) && (z <=? max_int64) then Done z else Failed OverflowError.

(** SQLite's text for a REAL stored under TEXT affinity comes from
    its own printing of the double, which this embedding does not
    reproduce.  The stand-in keeps the mantissa and the exponent of
    the literal, so that it tells apart two literals of one number
    (15e-1 and 1.50), which SQLite stores as one text (1.5).  It is
    good for what does not read the text: that a row is stored, its
    id, its count.  The statements about the count stored for a
    keyword text take files without float keywords.  NaN is stored as
    NULL. *)
Definition real_text (f : pyfloat) : option string :=
  match f with
  | FDec m e => Some (Text.decimal m ++ "e" ++ Text.decimal e)%string
  | FNaN => None
  | FInf false => Some "Inf"
  | FInf true => Some "-Inf"
  end.

(** Binding the keyword parameter and giving it the TEXT affinity of
    the [keyword] column: sqlite3 takes [None], [int] (and [bool]),
    [float] and [str]; any other type is refused. *)
Definition bind_text (v : pyval) : result (option string) :=
  match v with
  | PNone => Done None
  | PBool b => Done (Some (if b then "1" else "0"))
  | PInt z =>
      match bind_int z with
      | Done z' => Done (Some (Text.decimal z'))
      | Failed e => Failed e
      end
  | PFloat f => Done (real_text f)
  | PStr s => Done (Some s)
  | PStrLone _ => Failed UnicodeEncodeError
  | PList _ | PDict _ => Failed ProgrammingError
  end.

(** [WHERE hour_of_day = ? AND keyword = ?]; a comparison with NULL
    is never true. *)
Definition matches (hour : Z) (kw : option string) (r : row) : bool :=
  (hour_of_day r =? hour)
  && match keyword r, kw with
     | Some a, Some b => String.eqb a b
     | _, _ => false
     end.

(** [SET count = count + 1, last_updated = ?] on the matching rows.
    The sum is the one SQLite stores as long as the count is below
    [max_int64]; there SQLite leaves integer arithmetic (the sum is
    kept as a REAL and later increments are lost), which the integer
    of this embedding does not follow.  A table filled from the empty
    one gets there after [2^63] updates of one row; a statement about
    an update of any table bounds the count it adds to. *)
Definition touch (current_time : string) (r : row) : row :=
  mkRow (rowid r) (hour_of_day r) (keyword r) (count r + 1) current_time.

Definition update_rows (current_time : string) (hour : Z) (kw : option string)
           (t : table) : table :=
  map (fun r => if matches hour kw r then touch current_time r else r) t.

(** [cursor.rowcount] after the UPDATE. *)
Definition rowcount (hour : Z) (kw : option string) (t : table) : nat :=
  length (filter (matches hour kw) t).

(** [id INTEGER PRIMARY KEY AUTOINCREMENT]: one more than the largest
    id in use; no row is ever deleted from a table. *)
Definition next_rowid (t : table) : Z :=
  1 + fold_right (fun r m => Z.max (rowid r) m) 0 t.

(** [UPDATE keyword_popularity SET count = count + 1, last_updated = ?
     WHERE hour_of_day = ? AND keyword = ?], with the parameters
    [(current_time, hour, keyword)]. *)
Definition execute_update (current_time : string) (hour : Z) (keyword : pyval)
           (c : option table) : result (nat * option table) :=
  match c with
  | None => Failed OperationalError
  | Some t =>
      match bind_int hour with
      | Failed e => Failed e
      | Done h =>
          match bind_text keyword with
          | Failed e => Failed e
          | Done k => Done (rowcount h k t, Some (update_rows current_time h k t))
          end
      end
  end.

(** [INSERT INTO keyword_popularity (hour_of_day, keyword, count,
     last_updated) VALUES (?, ?, 1, ?)], with the parameters
    [(hour, keyword, current_time)]. *)
Definition execute_insert (hour : Z) (keyword : pyval) (current_time : string)
           (c : option table) : result (option table) :=
  match c with
  | None => Failed OperationalError
  | Some t =>
      match bind_int hour with
      | Failed e => Failed e
      | Done h =>
          match bind_text keyword with
          | Failed e => Failed e
          | Done k => Done (Some (t ++ [mkRow (next_rowid t) h k 1 current_time]))
          end
      end
  end.

(** [DROP TABLE IF EXISTS keyword_popularity]. *)
Definition drop_table (c : option table) : option table := None.

(** [CREATE TABLE IF NOT EXISTS keyword_popularity (...)]. *)
Definition create_table (c : option table) : option table :=
  match c with
  | None => Some []
  | Some t => Some t
  end.

(** [with sqlite3.connect(path) as conn: body]: the body works on
    the contents of the file; they are written back when the body
    ends normally and left as they were when it raises.  Connecting
    creates the file when it is absent. *)
Definition connect (body : option table -> result (option table)) : M unit :=
  fun w =>
    if open_ok (db w) then
      match body (stored w) with
      | Done c' => (Ok tt, set_file w (File c'))
      | Failed e => (Raise e, set_file w (File (stored w)))
      end
    else (Raise OperationalError, w).

End Sql.

(** [os.makedirs(os.path.dirname(db_path), exist_ok=True)]. *)
Definition makedirs : M unit :=
  fun w => if mkdir_ok (db w) then (Ok tt, w) else (Raise PermissionError, w).

(* ================================================================== *)
(** * Database functions                                               *)
(* ================================================================== *)

Definition init_keyword_db : M unit :=
  try_except
    (makedirs ;;
     Sql.connect (fun c => Sql.Done (Sql.create_table (Sql.drop_table c))))
    (fun e => log_error (InitFailed e)).

(** The body of the [with] block of [update_keyword_count]. *)
Definition upsert (hour : Z) (keyword : pyval) (current_time : string)
           (c : option table) : Sql.result (option table) :=
  match Sql.execute_update current_time hour keyword c with
  | Sql.Failed e => Sql.Failed e
  | Sql.Done (rowcount, c1) =>
      if (rowcount =? 0)%nat
      then Sql.execute_insert hour keyword current_time c1
      else Sql.Done c1
  end.

Definition update_keyword_count (hour : Z) (keyword : pyval) : M unit :=
  current_time <- now ;;
  try_except
    (Sql.connect (upsert hour keyword current_time))
    (fun e => log_error (UpdateFailed e)).

(* ================================================================== *)
(** * Processing a single message                                      *)
(* ================================================================== *)

(** The dict [process_message] returns. *)
Record processed : Type := mkProcessed {
  pd_hour_of_day : Z;
  pd_keyword : pyval
}.

(** [d.get(key)] on a dict: [None] for a key that is absent. *)
Definition field (d : pydict) (key : string) : pyval :=
  match dict_lookup d key with
  | Some v => v
  | None => PNone
  end.

(** [message.get(key)]: only a dict has the method. *)
Definition get (message : pyval) (key : string) : M pyval :=
  match message with
  | PDict d => ret (field d key)
  | _ => raise AttributeError
  end.

(** [datetime.strptime(timestamp_str, "%Y-%m-%d %H:%M:%S")]. *)
Definition strptime (timestamp_str : pyval) : M Strptime.datetime :=
  match timestamp_str with
  | PStr s =>
      match Strptime.strptime s with
      | Some t => ret t
      | None => raise ValueError
      end
  | PStrLone _ => raise ValueError
  | _ => raise TypeError
  end.

Definition process_message (message : pyval) : M (option processed) :=
  try_except
    (timestamp_str <- get message "timestamp" ;;
     keyword <- get message "keyword_mentioned" ;;
     if negb (truthy timestamp_str) || negb (truthy keyword) then
       log_warning MissingField ;;
       ret None
     else
       timestamp <- strptime timestamp_str ;;
       let hour_of_day := Strptime.hour timestamp in
       ret (Some (mkProcessed hour_of_day keyword)))
    (fun e => log_error (ProcessingError e) ;; ret None).

(* ================================================================== *)
(** * Consuming the live data file                                     *)
(* ================================================================== *)

Definition json_loads (s : string) : M pyval :=
  match Json.loads s with
  | Some v => ret v
  | None => raise JSONDecodeError
  end.

(** [open(live_data_path, "r")]; the text is what the file holds when
    it is opened. *)
Definition open_live : M string :=
  fun w =>
    match live w with
    | LiveMissing => (Raise FileNotFoundError, w)
    | LiveUnreadable => (Raise PermissionError, w)
    | LiveText s => (Ok s, w)
    end.

(** The body of [for line in file]. *)
Definition consume_line (line : string) : M unit :=
  if negb (Text.is_empty (Text.strip line)) then
    message <- json_loads (Text.strip line) ;;
    processed_data <- process_message message ;;
    match processed_data with
    | Some pd => update_keyword_count (pd_hour_of_day pd) (pd_keyword pd)
    | None => ret tt
    end
  else ret tt.

Fixpoint for_lines (lines : list string) : M unit :=
  match lines with
  | [] => ret tt
  | line :: rest => consume_line line ;; for_lines rest
  end.

(** How the [try] block of the loop ends: by [return], or by reaching
    its end with the position it assigned. *)
Inductive flow : Type :=
| Return (v : nat)
| Next (last_position : nat).

(** The [try] block: one pass over the file from [last_position];
    [file.tell()] after the loop is the end of the file. *)
Definition read_pass (last_position : nat) : M flow :=
  content <- open_live ;;
  for_lines (Text.readlines (Text.drop last_position content)) ;;
  let last_position := Nat.max last_position (String.length content) in
  ret (Return last_position).

(** [while True: try: ... except FileNotFoundError: ... except
    Exception: ...; time.sleep(interval_secs)], for at most [fuel]
    iterations. *)
Fixpoint while_true (fuel : nat) (interval_secs : Z) (last_position : nat) : M nat :=
  match fuel with
  | O => fun w => (OutOfFuel, w)
  | S fuel' =>
      r <- try_except (read_pass last_position)
             (fun e =>
                match e with
                | FileNotFoundError => log_error LiveNotFound ;; sys_exit 10
                | _ => log_error (LiveReadError e) ;; sys_exit 11
                end) ;;
      match r with
      | Return v => ret v
      | Next last_position' =>
          sleep interval_secs ;;
          while_true fuel' interval_secs last_position'
      end
  end.

Definition consume_messages_from_file (fuel : nat) (interval_secs : Z)
           (last_position : nat) : M nat :=
  init_keyword_db ;;
  let last_position := 0%nat in
  while_true fuel interval_secs last_position.

(* ================================================================== *)
(** * Main                                                             *)
(* ================================================================== *)

(** Modelled from the spec: the functions of [utils.utils_config],
    which read the polling interval and the two paths from the
    environment ("process configuration ... supplied as
    already-validated values") and may raise. *)
Definition read_config : M Z :=
  fun w =>
    match config w with
    | Some interval_secs => (Ok interval_secs, w)
    | None => (Raise ValueError, w)
    end.

(** [keyword_db_path.exists()], for a path that can be examined: the
    answer is whether the file is there.  The call stands outside
    every [try] of [main]; on a path the process may not examine it
    raises [PermissionError] and ends the process, a start the world
    does not describe. *)
Definition db_exists : M bool :=
  fun w => (Ok (match file (db w) with NoFile => false | File _ => true end), w).

(** [keyword_db_path.unlink()]. *)
Definition unlink : M unit :=
  fun w =>
    if unlink_ok (db w) then (Ok tt, set_file w NoFile)
    else (Raise PermissionError, w).

Definition main (fuel : nat) : M unit :=
  interval_secs <- try_except read_config
                     (fun e => log_error (EnvFailed e) ;; sys_exit 1) ;;
  present <- db_exists ;;
  (if present : bool
   then try_except unlink (fun e => log_error (DeleteFailed e) ;; sys_exit 2)
   else ret tt) ;;
  try_except init_keyword_db
    (fun e => log_error (CreateFailed e) ;; sys_exit 3) ;;
  try_except
    (consume_messages_from_file fuel interval_secs 0 ;; ret tt)
    (fun e => log_error (Unexpected e)).

(** The exit status of the process that runs [main]: 0 when [main]
    returns, the code of [sys.exit], 1 for an exception nobody
    caught. *)
Definition exit_status (r : res unit) : option Z :=
  match r with
  | Ok _ => Some 0
  | SysExit code => Some code
  | Raise _ => Some 1
  | OutOfFuel => None
  end.

(* ================================================================== *)
(** * Reading the table                                                *)
(* ================================================================== *)

Module Table.

(** The rows after a successful call for the text keyword [k]; this is
    what [upsert] computes (lemma [upsert_text]). *)
Definition upserted (current_time : string) (hour : Z) (k : string) (t : table)
  : table :=
  if (Sql.rowcount hour (Some k) t =? 0)%nat
  then t ++ [mkRow (Sql.next_rowid t) hour (Some k) 1 current_time]
  else Sql.update_rows current_time hour (Some k) t.

(** [SELECT count ... WHERE hour_of_day = ? AND keyword = ?], 0 when
    no row answers. *)
Definition stored_count (t : table) (hour : Z) (k : string) : Z :=
  match find (Sql.matches hour (Some k)) t with
  | Some r => count r
  | None => 0
  end.

(** The row is the one for the hour [hour] and the keyword text [k]. *)
Definition has_key (hour : Z) (k : string) (r : row) : Prop :=
  hour_of_day r = hour /\ keyword r = Some k.

(** The pairs the UNIQUE constraint keeps apart: those of the rows
    that hold a keyword text, in row order.  A row whose keyword is
    NULL has none: SQLite takes every NULL to be different from every
    other. *)
Definition text_keys (t : table) : list (Z * string) :=
  flat_map (fun r => match keyword r with
                     | Some k => [(hour_of_day r, k)]
                     | None => []
                     end) t.

Definition in_int64 (z : Z) : Prop := Sql.min_int64 <= z <= Sql.max_int64.

End Table.

(** The invariant of the table, kept by every update: the rows that
    hold a keyword text have different pairs, and every count is at
    least 1. *)
Definition well_formed (t : table) : Prop :=
  NoDup (Table.text_keys t) /\ Forall (fun r => 1 <= count r) t.

(* ================================================================== *)
(** * Sequences of observations                                        *)
(* ================================================================== *)

(** An observation as the consumer makes it: an hour of the day and a
    keyword that is not empty. *)
Definition valid_observation (o : Z * string) : Prop :=
  0 <= fst o <= 23 /\ snd o <> "".

Definition observation_eq_dec (a b : Z * string) : {a = b} + {a <> b}.
Proof. decide equality; [apply string_dec|apply Z.eq_dec]. Defined.

(** [update_keyword_count] called for each observation in turn. *)
Fixpoint observe (obs : list (Z * string)) : M unit :=
  match obs with
  | [] => ret tt
  | (hour, k) :: rest => update_keyword_count hour (PStr k) ;; observe rest
  end.

(** The states of the world a run can be in after the table has been
    initialized: any number of calls of [update_keyword_count] later. *)
Inductive reachable : World -> Prop :=
| reach_init (w : World) :
    mkdir_ok (db w) = true -> open_ok (db w) = true ->
    reachable (snd (init_keyword_db w))
| reach_update (w : World) (hour : Z) (k : string) :
    reachable w ->
    reachable (snd (update_keyword_count hour (PStr k) w)).

(** The same with any value as keyword: what JSON puts in the field
    is what [consume_messages_from_file] passes on. *)
Inductive reached : World -> Prop :=
| reached_init (w : World) :
    mkdir_ok (db w) = true -> open_ok (db w) = true ->
    reached (snd (init_keyword_db w))
| reached_update (w : World) (hour : Z) (keyword : pyval) :
    reached w ->
    reached (snd (update_keyword_count hour keyword w)).

(* ================================================================== *)
(** * Observing a run                                                  *)
(* ================================================================== *)

(** How many times the process has slept, by its log. *)
Definition sleeps (l : list event) : nat :=
  length (filter (fun e => match e with Slept _ => true | _ => false end) l).

(** The world with more events in its log and nothing else changed. *)
Definition logging (w : World) (es : list event) : World :=
  mkWorld (config w) (live w) (db w) (time_at w) (clock w) (log w ++ es).

(** Between [w] and [w'] the configuration, the live data file, the
    clock face and the permissions of the database location are the
    same, and the process has not slept. *)
Definition steady (w w' : World) : Prop :=
  config w' = config w /\ live w' = live w /\ time_at w' = time_at w /\
  unlink_ok (db w') = unlink_ok (db w) /\
  mkdir_ok (db w') = mkdir_ok (db w) /\
  open_ok (db w') = open_ok (db w) /\
  sleeps (log w') = sleeps (log w).

Definition Steady {A} (m : M A) : Prop := forall w, steady w (snd (m w)).

(** A line terminator. *)
Definition is_newline (c : ascii) : bool :=
  (Text.code c =? 10)%N || (Text.code c =? 13)%N.

(** Text without a line terminator. *)
Fixpoint no_newline (s : string) : bool :=
  match s with
  | EmptyString => true
  | String c s' => negb (is_newline c) && no_newline s'
  end.

(** Text that is empty or ends with a line terminator: every line of
    it is complete. *)
Fixpoint terminated (s : string) : bool :=
  match s with
  | EmptyString => true
  | String c EmptyString => is_newline c
  | String _ s' => terminated s'
  end.

(** Text whose line terminators are all LF: it holds no CR. *)
Fixpoint no_cr (s : string) : bool :=
  match s with
  | EmptyString => true
  | String c s' => negb (Text.code c =? 13)%N && no_cr s'
  end.

(** The lines put one after the other. *)
Definition join (lines : list string) : string :=
  fold_right String.append EmptyString lines.

(** A line of a file: not empty, and with LF at its end or nowhere. *)
Fixpoint is_line (s : string) : bool :=
  match s with
  | EmptyString => false
  | String c EmptyString => true
  | String c rest => negb (Text.code c =? 10)%N && is_line rest
  end.

(** Sample data for the closed statements below. *)
Module Sample.

Definition LF : string := String Text.LF EmptyString.

(** [s] between double quotes. *)
Definition q (s : string) : string :=
  (String Text.quote s ++ String Text.quote EmptyString)%string.

(** A message with the two fields the consumer reads. *)
Definition message_line (timestamp keyword_mentioned : string) : string :=
  ("{" ++ q "timestamp" ++ ": " ++ timestamp ++ ", "
       ++ q "keyword_mentioned" ++ ": " ++ keyword_mentioned ++ "}")%string.

(** {"timestamp": "2025-01-29 14:35:20", "keyword_mentioned": "meme"} *)
Definition meme : string :=
  message_line (q "2025-01-29 14:35:20") (q "meme").

Definition time (n : nat) : string :=
  ("2025-02-01 09:00:" ++ Text.decimal (Z.of_nat (10 + n)))%string.

(** A usable database location holding nothing yet. *)
Definition empty_db : db_loc := mkDb NoFile true true true.

(** A database location that cannot be written. *)
Definition unwritable_db : db_loc := mkDb NoFile true false false.

Definition world (content : string) : World :=
  mkWorld (Some 5) (LiveText content) empty_db time 0 [].

(** Two good lines, one before and one after a message without
    fields and an empty line; the last line has no terminator. *)
Definition mixed_file : string :=
  (meme ++ LF ++ "{}" ++ LF ++ LF ++ meme)%string.

(** A line that is not JSON, then a good line. *)
Definition bad_file : string := ("oops" ++ LF ++ meme ++ LF)%string.

(** A good line, then the same text without a line terminator. *)
Definition unterminated_file : string := (meme ++ LF ++ meme)%string.

(** A message whose keyword is a list. *)
Definition list_keyword : string :=
  message_line (q "2025-01-29 14:35:20") ("[" ++ q "meme" ++ "]").

(** A message whose keyword is the float NaN. *)
Definition nan_keyword : string :=
  message_line (q "2025-01-29 14:35:20") "NaN".

(** A world whose database location cannot be written. *)
Definition unwritable_world : World :=
  mkWorld (Some 5) (LiveText (meme ++ LF)) unwritable_db time 0 [].

(** A world without the live data file. *)
Definition missing_world : World :=
  mkWorld (Some 5) LiveMissing empty_db time 0 [].

Definition meme_row (n : Z) : row :=
  mkRow 1 14 (Some "meme") n "2025-02-01 08:00:00".

Definition with_table (t : table) : World :=
  mkWorld (Some 5) (LiveText "") (mkDb (File (Some t)) true true true) time 0 [].

End Sample.

(* ================================================================== *)
(** * What a line contributes                                          *)
(* ================================================================== *)

(** What [process_message] returns for a message.  The world it runs
    in has no part in the result (lemma [process_message_result_of]),
    so any world serves to compute it. *)
Definition result_of (message : pyval) : option processed :=
  match fst (process_message message (Sample.world "")) with
  | Ok r => r
  | _ => None
  end.

(** What a line of the file gives to count: the result of
    [process_message] on the message it holds; nothing for a blank
    line or one that is not JSON. *)
Definition line_result (line : string) : option processed :=
  if Text.is_empty (Text.strip line) then None
  else
    match Json.loads (Text.strip line) with
    | Some message => result_of message
    | None => None
    end.

(** A line with a result: [update_keyword_count] is called for it. *)
Definition is_counted (line : string) : bool :=
  match line_result line with Some _ => true | None => false end.

(** A line that is not blank and has no result. *)
Definition is_skipped (line : string) : bool :=
  negb (Text.is_empty (Text.strip line)) && negb (is_counted line).

(** How many messages [process_message] has refused, by the log: its
    warning and its error. *)
Definition skips (l : list event) : nat :=
  length (filter (fun e => match e with
                           | Warning MissingField => true
                           | Error (ProcessingError _) => true
                           | _ => false
                           end) l).

(** The keyword of the line's result is a float SQLite prints itself
    (see [Sql.real_text]). *)
Definition float_keyword (line : string) : bool :=
  match line_result line with
  | Some pd =>
      match pd_keyword pd with
      | PFloat (FDec _ _) | PFloat (FInf _) => true
      | _ => false
      end
  | None => false
  end.



(** The values that stand for nothing: [None], [False], a zero, and
    the empty text, list and dict. *)
Definition empty_value (v : pyval) : Prop :=
  match v with
  | PNone | PBool false | PInt 0 | PStr EmptyString | PList [] | PDict [] => True
  | PFloat f => float_nonzero f = false
  | _ => False
  end.

(** The field [key] of the message is absent or empty. *)
Definition missing (d : pydict) (key : string) : Prop :=
  dict_lookup d key = None \/
  exists v, dict_lookup d key = Some v /\ empty_value v.

(** The hour and the keyword, as SQLite binds it, that a line has
    [update_keyword_count] store: nothing for a line that is blank, is
    not JSON, gives no result, or has a keyword sqlite3 refuses. *)
Definition line_key (line : string) : option (Z * option string) :=
  if Text.is_empty (Text.strip line) then None
  else
    match Json.loads (Text.strip line) with
    | Some message =>
        match result_of message with
        | Some pd =>
            match Sql.bind_text (pd_keyword pd) with
            | Sql.Done k => Some (pd_hour_of_day pd, k)
            | Sql.Failed _ => None
            end
        | None => None
        end
    | None => None
    end.

(** The line counts for the hour [hour] and the keyword text [k]. *)
Definition observes (hour : Z) (k : string) (line : string) : bool :=
  match line_key line with
  | Some (h, Some k') => (h =? hour) && String.eqb k' k
  | _ => false
  end.

(** A line a pass gets past: blank, or JSON. *)
Definition decodable (line : string) : bool :=
  Text.is_empty (Text.strip line)
  || match Json.loads (Text.strip line) with Some _ => true | None => false end.

(** A row without its [last_updated]. *)
Definition counted (r : row) : Z * Z * option string * Z :=
  (rowid r, hour_of_day r, keyword r, count r).

(** Two database locations that differ in the times of their rows at
    most. *)
Definition same_counts (w w' : World) : Prop :=
  open_ok (db w') = open_ok (db w) /\
  option_map (map counted) (stored w') = option_map (map counted) (stored w).

(** [t'] holds the rows of [t], in their places and with their ids
    and keys, none counted less, and maybe more rows after them. *)
Definition grows (t t' : table) : Prop :=
  exists kept added,
    t' = kept ++ added /\
    Forall2 (fun r r' =>
               rowid r' = rowid r /\ hour_of_day r' = hour_of_day r /\
               keyword r' = keyword r /\ count r <= count r') t kept.

(* ================================================================== *)
(** * datetime.strftime                                                *)
(* ================================================================== *)

(** [t.strftime("%Y-%m-%d %H:%M:%S")], the text [update_keyword_count]
    makes of the current time, for a year of four digits: every field
    in decimal, padded with zeros to its width. *)
Module Strftime.

Definition digit_char (d : Z) : ascii := ascii_of_N (Z.to_N (48 + d)).

Definition pad2 (n : Z) : string :=
  String (digit_char (n / 10)) (String (digit_char (n mod 10)) EmptyString).

Definition pad4 (n : Z) : string :=
  (pad2 (n / 100) ++ pad2 (n mod 100))%string.

Definition strftime (t : Strptime.datetime) : string :=
  (pad4 (Strptime.year t) ++ "-" ++ pad2 (Strptime.month t) ++ "-"
   ++ pad2 (Strptime.day t) ++ " " ++ pad2 (Strptime.hour t) ++ ":"
   ++ pad2 (Strptime.minute t) ++ ":" ++ pad2 (Strptime.second t))%string.

(** A date and time of a year of four digits. *)
Definition is_datetime (t : Strptime.datetime) : Prop :=
  1000 <= Strptime.year t <= 9999 /\
  1 <= Strptime.month t <= 12 /\
  1 <= Strptime.day t <= Strptime.days_in_month (Strptime.year t) (Strptime.month t) /\
  0 <= Strptime.hour t <= 23 /\
  0 <= Strptime.minute t <= 59 /\
  0 <= Strptime.second t <= 59.

End Strftime.

(* ================================================================== *)
(** * How the database functions run                                   *)
(* ================================================================== *)

Section Runs.

Variable w : World.

Lemma init_keyword_db_run :
  init_keyword_db w =
  if mkdir_ok (db w) then
    if open_ok (db w)
    then (Ok tt, set_file w (File (Some [])))
    else (Ok tt, add_event w (Error (InitFailed OperationalError)))
  else (Ok tt, add_event w (Error (InitFailed PermissionError))).
Proof.
  unfold init_keyword_db, try_except, bind, makedirs, Sql.connect, log_error.
  destruct (mkdir_ok (db w)); [destruct (open_ok (db w))|]; reflexivity.
Qed.

Lemma update_keyword_count_run (hour : Z) (keyword : pyval) :
  update_keyword_count hour keyword w =
  if open_ok (db w) then
    match upsert hour keyword (time_at w (clock w)) (stored w) with
    | Sql.Done c' => (Ok tt, set_file (tick w) (File c'))
    | Sql.Failed e =>
        (Ok tt, add_event (set_file (tick w) (File (stored w)))
                          (Error (UpdateFailed e)))
    end
  else (Ok tt, add_event (tick w) (Error (UpdateFailed OperationalError))).
Proof.
  unfold update_keyword_count, try_except, bind, now, Sql.connect, log_error.
  cbn [db tick open_ok].
  destruct (open_ok (db w)); [|reflexivity].
  change (stored (tick w)) with (stored w).
  destruct (upsert hour keyword (time_at w (clock w)) (stored w)); reflexivity.
Qed.

End Runs.

(** [update_keyword_count] always returns. *)
Lemma update_keyword_count_returns (hour : Z) (keyword : pyval) (w : World) :
  fst (update_keyword_count hour keyword w) = Ok tt.
Proof.
  rewrite update_keyword_count_run.
  destruct (open_ok (db w)); [|reflexivity].
  destruct (upsert _ _ _ _); reflexivity.
Qed.

(** ** The rows under an update *)

Lemma bind_int_ok z : Table.in_int64 z -> Sql.bind_int z = Sql.Done z.
Proof.
  unfold Table.in_int64, Sql.bind_int. intros [H1 H2].
  apply Z.leb_le in H1, H2. rewrite H1, H2. reflexivity.
Qed.

Lemma bind_int_overflow z : ~ Table.in_int64 z -> Sql.bind_int z = Sql.Failed OverflowError.
Proof.
  unfold Table.in_int64, Sql.bind_int. intros H.
  destruct (Sql.min_int64 <=? z) eqn:E1; [|reflexivity].
  destruct (z <=? Sql.max_int64) eqn:E2; [|reflexivity].
  apply Z.leb_le in E1, E2. exfalso. apply H. split; assumption.
Qed.

Lemma in_int64_dec z : {Table.in_int64 z} + {~ Table.in_int64 z}.
Proof.
  unfold Table.in_int64.
  destruct (Z_le_dec Sql.min_int64 z); [|right; tauto].
  destruct (Z_le_dec z Sql.max_int64); [left|right]; tauto.
Qed.

Lemma rowcount_0_update now hour kw t :
  Sql.rowcount hour kw t = 0%nat -> Sql.update_rows now hour kw t = t.
Proof.
  unfold Sql.rowcount, Sql.update_rows.
  induction t as [|r t IH]; cbn; [reflexivity|].
  destruct (Sql.matches hour kw r); cbn; [discriminate|].
  intros H. rewrite IH by assumption. reflexivity.
Qed.

Lemma upsert_text now hour k t :
  Table.in_int64 hour ->
  upsert hour (PStr k) now (Some t) = Sql.Done (Some (Table.upserted now hour k t)).
Proof.
  intros Hh. unfold upsert, Sql.execute_update, Sql.execute_insert, Table.upserted.
  rewrite (bind_int_ok _ Hh). cbn [Sql.bind_text].
  destruct (Sql.rowcount hour (Some k) t =? 0)%nat eqn:E; [|reflexivity].
  apply Nat.eqb_eq in E.
  rewrite (rowcount_0_update _ _ _ _ E). reflexivity.
Qed.

Lemma upsert_overflow now hour kw c :
  ~ Table.in_int64 hour -> exists e, upsert hour kw now c = Sql.Failed e.
Proof.
  intros Hh. unfold upsert, Sql.execute_update.
  destruct c; [|eauto]. rewrite (bind_int_overflow _ Hh). eauto.
Qed.

Lemma rowcount_0_iff hour kw t :
  Sql.rowcount hour kw t = 0%nat <-> existsb (Sql.matches hour kw) t = false.
Proof.
  unfold Sql.rowcount.
  induction t as [|r t IH]; cbn; [tauto|].
  destruct (Sql.matches hour kw r); cbn; [split; discriminate|exact IH].
Qed.

Lemma matches_touch now hour kw r :
  Sql.matches hour kw (Sql.touch now r) = Sql.matches hour kw r.
Proof. reflexivity. Qed.

Lemma matches_text_eqb hour k hour' k' r :
  Sql.matches hour (Some k) r = true ->
  Sql.matches hour' (Some k') r = (hour =? hour') && String.eqb k k'.
Proof.
  unfold Sql.matches. destruct (keyword r) as [a|]; [|rewrite andb_false_r; discriminate].
  intros H. apply andb_true_iff in H. destruct H as [H1 H2].
  apply Z.eqb_eq in H1. apply String.eqb_eq in H2. subst. reflexivity.
Qed.

Lemma find_app_one (f : row -> bool) t x :
  find f (t ++ [x]) =
  match find f t with
  | Some r => Some r
  | None => if f x then Some x else None
  end.
Proof.
  induction t as [|r t IH]; cbn; [reflexivity|].
  destruct (f r); [reflexivity|exact IH].
Qed.

Lemma find_update_rows now hour kw hour' kw' t :
  find (Sql.matches hour' kw') (Sql.update_rows now hour kw t) =
  option_map (fun r => if Sql.matches hour kw r then Sql.touch now r else r)
             (find (Sql.matches hour' kw') t).
Proof.
  unfold Sql.update_rows.
  induction t as [|r t IH]; cbn; [reflexivity|].
  destruct (Sql.matches hour kw r) eqn:E; [rewrite matches_touch|];
    destruct (Sql.matches hour' kw' r); cbn; try rewrite E; auto.
Qed.

Lemma existsb_false_matches (f : row -> bool) t r :
  existsb f t = false -> In r t -> f r = false.
Proof.
  intros H Hin. destruct (f r) eqn:E; [|reflexivity].
  assert (X : existsb f t = true) by (apply existsb_exists; eauto).
  congruence.
Qed.

(** One observation adds one to the count of its own key and leaves
    the count of every other key as it was. *)
Lemma stored_count_upserted now hour k t hour' k' :
  Table.stored_count (Table.upserted now hour k t) hour' k' =
  Table.stored_count t hour' k'
  + (if (hour =? hour') && String.eqb k k' then 1 else 0).
Proof.
  unfold Table.upserted, Table.stored_count.
  destruct (Sql.rowcount hour (Some k) t =? 0)%nat eqn:E.
  - apply Nat.eqb_eq, rowcount_0_iff in E.
    rewrite find_app_one.
    destruct (find (Sql.matches hour' (Some k')) t) as [r|] eqn:F.
    + apply find_some in F. destruct F as [Hin Hm].
      pose proof (existsb_false_matches _ _ _ E Hin) as Hn.
      rewrite (matches_text_eqb _ _ hour k _ Hm) in Hn.
      rewrite Z.eqb_sym, String.eqb_sym in Hn. rewrite Hn. lia.
    + unfold Sql.matches at 1. cbn. rewrite (Z.eqb_sym hour hour').
      destruct ((hour' =? hour) && String.eqb k k'); reflexivity.
  - rewrite find_update_rows.
    destruct (find (Sql.matches hour' (Some k')) t) as [r|] eqn:F; cbn.
    + apply find_some in F. destruct F as [_ Hm].
      rewrite (matches_text_eqb _ _ hour k _ Hm).
      rewrite (Z.eqb_sym hour' hour), (String.eqb_sym k' k).
      destruct ((hour =? hour') && String.eqb k k'); cbn; lia.
    + apply Nat.eqb_neq in E.
      destruct (existsb (Sql.matches hour (Some k)) t) eqn:X;
        [|apply rowcount_0_iff in X; contradiction].
      apply existsb_exists in X. destruct X as [r [Hin Hm]].
      pose proof (find_none _ _ F _ Hin) as Hn.
      rewrite (matches_text_eqb _ _ hour' k' _ Hm) in Hn.
      rewrite Hn. lia.
Qed.

(** ** Sequences of updates *)

Lemma valid_in_int64 o : valid_observation o -> Table.in_int64 (fst o).
Proof.
  unfold valid_observation, Table.in_int64, Sql.min_int64, Sql.max_int64.
  intros [H _]. lia.
Qed.

Lemma init_fresh (w : World) :
  mkdir_ok (db w) = true -> open_ok (db w) = true ->
  init_keyword_db w = (Ok tt, set_file w (File (Some []))).
Proof. intros H1 H2. rewrite init_keyword_db_run, H1, H2. reflexivity. Qed.

Lemma update_text_run (w : World) (hour : Z) (k : string) (t : table) :
  open_ok (db w) = true -> stored w = Some t -> Table.in_int64 hour ->
  update_keyword_count hour (PStr k) w =
  (Ok tt, set_file (tick w)
            (File (Some (Table.upserted (time_at w (clock w)) hour k t)))).
Proof.
  intros Ho Hs Hh.
  rewrite update_keyword_count_run, Ho, Hs, (upsert_text _ _ _ _ Hh).
  reflexivity.
Qed.

Lemma observe_counts (obs : list (Z * string)) :
  forall (w : World) (t : table),
    open_ok (db w) = true -> stored w = Some t ->
    Forall valid_observation obs ->
    exists w' t',
      observe obs w = (Ok tt, w') /\ stored w' = Some t' /\
      forall hour k,
        Table.stored_count t' hour k =
        Table.stored_count t hour k
        + Z.of_nat (count_occ observation_eq_dec obs (hour, k)).
Proof.
  induction obs as [|[h k0] obs IH]; intros w t Ho Hs Hv.
  - exists w, t. cbn. repeat split; auto. intros; lia.
  - inversion Hv as [|o l Hv1 Hv2]; subst.
    pose proof (update_text_run w h k0 t Ho Hs (valid_in_int64 _ Hv1)) as Hrun.
    set (w1 := set_file (tick w)
                 (File (Some (Table.upserted (time_at w (clock w)) h k0 t)))) in *.
    destruct (IH w1 (Table.upserted (time_at w (clock w)) h k0 t)) as [w' [t' [R [S C]]]];
      [exact Ho|reflexivity|exact Hv2|].
    exists w', t'. split; [|split; [exact S|]].
    + cbn [observe]. unfold bind. rewrite Hrun. exact R.
    + intros hour k. rewrite C, stored_count_upserted.
      cbn [count_occ].
      destruct (observation_eq_dec (h, k0) (hour, k)) as [E|N].
      * inversion E; subst. rewrite Z.eqb_refl, String.eqb_refl. cbn [andb]. lia.
      * destruct ((h =? hour) && String.eqb k0 k) eqn:X; [|lia].
        apply andb_true_iff in X. destruct X as [X1 X2].
        apply Z.eqb_eq in X1. apply String.eqb_eq in X2. subst. contradiction.
Qed.

Lemma update_rows_shape now hour kw t :
  Forall2 (fun r r' => r' = if Sql.matches hour kw r then Sql.touch now r else r)
          t (Sql.update_rows now hour kw t).
Proof.
  unfold Sql.update_rows. induction t; cbn; constructor; auto.
Qed.

Lemma text_keys_update_rows now hour kw t :
  Table.text_keys (Sql.update_rows now hour kw t) = Table.text_keys t.
Proof.
  unfold Sql.update_rows, Table.text_keys.
  induction t as [|r t IH]; cbn [map flat_map]; [reflexivity|].
  rewrite IH. destruct (Sql.matches hour kw r); reflexivity.
Qed.

Lemma update_rows_counts now hour kw t :
  Forall (fun r => 1 <= count r) t ->
  Forall (fun r => 1 <= count r) (Sql.update_rows now hour kw t).
Proof.
  unfold Sql.update_rows. induction 1 as [|r t H1 H2 IH]; cbn; constructor; auto.
  destruct (Sql.matches hour kw r); cbn; lia.
Qed.

Lemma no_match_no_text_key hour k t :
  existsb (Sql.matches hour (Some k)) t = false ->
  ~ In (hour, k) (Table.text_keys t).
Proof.
  intros H Hin. unfold Table.text_keys in Hin. apply in_flat_map in Hin.
  destruct Hin as [r [Hin Hk]].
  pose proof (existsb_false_matches _ _ _ H Hin) as Hn.
  unfold Sql.matches in Hn. destruct (keyword r) as [k'|]; [|contradiction].
  destruct Hk as [Hk|[]]. inversion Hk; subst.
  rewrite Z.eqb_refl, String.eqb_refl in Hn. discriminate.
Qed.

Lemma text_keys_app (t t' : table) :
  Table.text_keys (t ++ t') = Table.text_keys t ++ Table.text_keys t'.
Proof. apply flat_map_app. Qed.

Lemma upserted_well_formed now hour k t :
  well_formed t -> well_formed (Table.upserted now hour k t).
Proof.
  unfold well_formed, Table.upserted. intros [Hn Hc].
  destruct (Sql.rowcount hour (Some k) t =? 0)%nat eqn:E.
  - apply Nat.eqb_eq, rowcount_0_iff in E. split.
    + rewrite text_keys_app. cbn.
      apply Permutation_NoDup with (l := (hour, k) :: Table.text_keys t).
      * apply Permutation_cons_append.
      * constructor; [apply no_match_no_text_key; exact E|exact Hn].
    + apply Forall_app. split; [exact Hc|]. constructor; [cbn; lia|constructor].
  - split; [rewrite text_keys_update_rows; exact Hn|apply update_rows_counts; exact Hc].
Qed.

(** A row without a keyword text adds no pair. *)
Lemma null_row_well_formed z hour now t :
  well_formed t -> well_formed (t ++ [mkRow z hour None 1 now]).
Proof.
  unfold well_formed. intros [Hn Hc]. split.
  - rewrite text_keys_app. cbn. rewrite app_nil_r. exact Hn.
  - apply Forall_app. split; [exact Hc|]. constructor; [cbn; lia|constructor].
Qed.

(* ================================================================== *)
(** * The upsert                                                       *)
(* ================================================================== *)

Lemma matches_has_key hour k r :
  Sql.matches hour (Some k) r = true <-> Table.has_key hour k r.
Proof.
  unfold Sql.matches, Table.has_key. split.
  - intros H. apply andb_true_iff in H. destruct H as [H1 H2].
    apply Z.eqb_eq in H1. destruct (keyword r) as [a|]; [|discriminate].
    apply String.eqb_eq in H2. subst. auto.
  - intros [H1 H2]. rewrite H1, H2, Z.eqb_refl, String.eqb_refl. reflexivity.
Qed.

Lemma has_key_dec hour k r : {Table.has_key hour k r} + {~ Table.has_key hour k r}.
Proof.
  destruct (Sql.matches hour (Some k) r) eqn:E.
  - left. apply matches_has_key. exact E.
  - right. intros H. apply matches_has_key in H. congruence.
Qed.

Lemma existsb_matches_has_key hour k t :
  existsb (Sql.matches hour (Some k)) t = true <->
  exists r, In r t /\ Table.has_key hour k r.
Proof.
  rewrite existsb_exists. split; intros [r [H1 H2]]; exists r;
    (split; [exact H1|apply matches_has_key; exact H2]).
Qed.

Lemma next_rowid_above (t : table) : Forall (fun r => rowid r < Sql.next_rowid t) t.
Proof.
  unfold Sql.next_rowid. induction t as [|r t IH]; constructor; cbn [fold_right].
  - lia.
  - eapply Forall_impl; [|exact IH]. cbn beta. intros r' H. lia.
Qed.

(** C2.  A call [update_keyword_count(hour, keyword)] on a table
    whose counts and ids SQLite can still add to: when a row for
    (hour, keyword) exists its count becomes count + 1 and its
    last_updated the current time, and every other row stays as it is;
    when none exists a row (hour, keyword, 1, now) with a new id is
    added after the rows of the table, which stay as they are. *)
Theorem update_keyword_count_upsert (w : World) (hour : Z) (k : string) (t : table) :
  open_ok (db w) = true ->
  stored w = Some t ->
  Table.in_int64 hour ->
  Forall (fun r => Table.has_key hour k r -> count r < Sql.max_int64) t ->
  Forall (fun r => rowid r < Sql.max_int64) t ->
  fst (update_keyword_count hour (PStr k) w) = Ok tt /\
  exists t',
    stored (snd (update_keyword_count hour (PStr k) w)) = Some t' /\
    ((exists r, In r t /\ Table.has_key hour k r) ->
     Forall2 (fun r r' =>
                (Table.has_key hour k r ->
                 r' = mkRow (rowid r) hour (Some k) (count r + 1)
                            (time_at w (clock w))) /\
                (~ Table.has_key hour k r -> r' = r)) t t') /\
    ((forall r, In r t -> ~ Table.has_key hour k r) ->
     exists new,
       t' = t ++ [new] /\ hour_of_day new = hour /\ keyword new = Some k /\
       count new = 1 /\ last_updated new = time_at w (clock w) /\
       Forall (fun r => rowid r < rowid new) t).
Proof.
  intros Ho Hs Hh _ _.
  rewrite (update_text_run w hour k t Ho Hs Hh). cbn [fst snd].
  split; [reflexivity|].
  exists (Table.upserted (time_at w (clock w)) hour k t).
  split; [reflexivity|]. unfold Table.upserted. split; intros E.
  - apply existsb_matches_has_key in E.
    destruct (Sql.rowcount hour (Some k) t =? 0)%nat eqn:R.
    { apply Nat.eqb_eq, rowcount_0_iff in R. congruence. }
    eapply Forall2_impl; [|apply update_rows_shape].
    cbn beta. intros r r' ->. split.
    + intros K. rewrite (proj2 (matches_has_key hour k r) K).
      destruct K as [K1 K2]. unfold Sql.touch. rewrite K1, K2. reflexivity.
    + intros K. destruct (Sql.matches hour (Some k) r) eqn:M; [|reflexivity].
      exfalso. apply K, matches_has_key. exact M.
  - assert (X : existsb (Sql.matches hour (Some k)) t = false).
    { destruct (existsb (Sql.matches hour (Some k)) t) eqn:X; [|reflexivity].
      apply existsb_matches_has_key in X. destruct X as [r [Hin K]].
      exfalso. exact (E r Hin K). }
    apply rowcount_0_iff in X. rewrite X. cbn [Nat.eqb].
    eexists. split; [reflexivity|]. cbn [hour_of_day keyword count last_updated rowid].
    repeat split. apply next_rowid_above.
Qed.

Lemma update_keyword_count_upsert_witness :
  let t := [Sample.meme_row 4; mkRow 2 9 (Some "meme") 1 "x"] in
  let w := Sample.with_table t in
  (open_ok (db w) = true /\ stored w = Some t /\ Table.in_int64 14 /\
   Forall (fun r => Table.has_key 14 "meme" r -> count r < Sql.max_int64) t /\
   Forall (fun r => rowid r < Sql.max_int64) t /\
   (exists r, In r t /\ Table.has_key 14 "meme" r) /\
   (forall r, In r t -> ~ Table.has_key 14 "Python" r)) /\
  stored (snd (update_keyword_count 14 (PStr "meme") w)) =
  Some [mkRow 1 14 (Some "meme") 5 "2025-02-01 09:00:10";
        mkRow 2 9 (Some "meme") 1 "x"] /\
  exists new,
    stored (snd (update_keyword_count 14 (PStr "Python") w)) = Some (t ++ [new]) /\
    hour_of_day new = 14 /\ keyword new = Some "Python" /\ count new = 1.
Proof.
  intros t w.
  assert (H3 : Table.in_int64 14)
    by (unfold Table.in_int64, Sql.min_int64, Sql.max_int64; lia).
  assert (Hc : forall k, Forall (fun r => Table.has_key 14 k r ->
                                          count r < Sql.max_int64) t)
    by (intros k; repeat constructor; intros _; reflexivity).
  assert (Hi : Forall (fun r => rowid r < Sql.max_int64) t)
    by (repeat constructor).
  assert (He : exists r, In r t /\ Table.has_key 14 "meme" r)
    by (exists (Sample.meme_row 4); split; [left; reflexivity|split; reflexivity]).
  assert (Hn : forall r, In r t -> ~ Table.has_key 14 "Python" r).
  { intros r [<-|[<-|[]]] [K1 K2]; discriminate. }
  split; [repeat split; try reflexivity; auto; apply H3|]. split.
  - destruct (update_keyword_count_upsert w 14 "meme" t eq_refl eq_refl H3 (Hc _) Hi)
      as [_ [t' [Hs [Hu _]]]].
    rewrite Hs. specialize (Hu He).
    inversion Hu as [|r1 r1' l1 l1' [E1 _] T1]; subst.
    inversion T1 as [|r2 r2' l2 l2' [_ E2] T2]; subst.
    inversion T2; subst.
    rewrite (E1 (conj eq_refl eq_refl)).
    rewrite E2 by (intros [K _]; discriminate). reflexivity.
  - destruct (update_keyword_count_upsert w 14 "Python" t eq_refl eq_refl H3 (Hc _) Hi)
      as [_ [t' [Hs [_ Ha]]]].
    destruct (Ha Hn) as [new [E [N1 [N2 [N3 _]]]]].
    exists new. rewrite Hs, E. auto.
Defined.

(* ================================================================== *)
(** * Counting                                                         *)
(* ================================================================== *)

(** C3.  Valid observations applied to the freshly initialized table:
    the count stored for a key is the number of observations of that
    key, and it is the same for every permutation of the sequence. *)
Theorem counts_equal_observations (w : World) (obs : list (Z * string)) :
  mkdir_ok (db w) = true ->
  open_ok (db w) = true ->
  Forall valid_observation obs ->
  stored (snd (init_keyword_db w)) = Some [] /\
  forall obs', Permutation obs obs' ->
    exists t t',
      stored (snd (observe obs (snd (init_keyword_db w)))) = Some t /\
      stored (snd (observe obs' (snd (init_keyword_db w)))) = Some t' /\
      forall hour k,
        Table.stored_count t hour k =
        Z.of_nat (count_occ observation_eq_dec obs (hour, k)) /\
        Table.stored_count t' hour k = Table.stored_count t hour k.
Proof.
  intros Hm Ho Hv. rewrite (init_fresh w Hm Ho). cbn [snd].
  split; [reflexivity|]. intros obs' Hp.
  set (w0 := set_file w (File (Some []))).
  destruct (observe_counts obs w0 [] Ho eq_refl Hv) as [w1 [t [R [S C]]]].
  assert (Hv' : Forall valid_observation obs')
    by (eapply Permutation_Forall; eassumption).
  destruct (observe_counts obs' w0 [] Ho eq_refl Hv') as [w1' [t' [R' [S' C']]]].
  exists t, t'. rewrite R, R'. cbn [snd].
  split; [exact S|]. split; [exact S'|]. intros hour k. split.
  - rewrite C. reflexivity.
  - rewrite C, C'. f_equal. f_equal. symmetry.
    apply Permutation_count_occ. exact Hp.
Qed.

Lemma counts_equal_observations_witness :
  let obs := [(14, "meme"); (9, "Python"); (14, "meme")] in
  let obs' := [(9, "Python"); (14, "meme"); (14, "meme")] in
  (mkdir_ok (db (Sample.world "")) = true /\
   open_ok (db (Sample.world "")) = true /\
   Forall valid_observation obs /\ Permutation obs obs') /\
  exists t t',
    stored (snd (observe obs (snd (init_keyword_db (Sample.world ""))))) = Some t /\
    stored (snd (observe obs' (snd (init_keyword_db (Sample.world ""))))) = Some t' /\
    forall hour k,
      Table.stored_count t hour k =
      Z.of_nat (count_occ observation_eq_dec obs (hour, k)) /\
      Table.stored_count t' hour k = Table.stored_count t hour k.
Proof.
  intros obs obs'.
  assert (Hv : Forall valid_observation obs)
    by (repeat constructor; cbn; try lia; discriminate).
  assert (Hp : Permutation obs obs')
    by (exact (Permutation_cons_append [(9, "Python"); (14, "meme")] (14, "meme"))).
  split; [repeat split; try reflexivity; assumption|].
  exact (proj2 (counts_equal_observations (Sample.world "") obs eq_refl eq_refl Hv)
               obs' Hp).
Defined.

(* ================================================================== *)
(** * Processing a message                                             *)
(* ================================================================== *)

Lemma logging_nil (w : World) : logging w [] = w.
Proof. destruct w. unfold logging. cbn. rewrite app_nil_r. reflexivity. Qed.

Lemma logging_one (w : World) (e : event) : logging w [e] = add_event w e.
Proof. reflexivity. Qed.

Lemma process_message_dict (d : pydict) (w : World) :
  process_message (PDict d) w =
  if negb (truthy (field d "timestamp")) || negb (truthy (field d "keyword_mentioned"))
  then (Ok None, add_event w (Warning MissingField))
  else
    match field d "timestamp" with
    | PStr s =>
        match Strptime.strptime s with
        | Some t =>
            (Ok (Some (mkProcessed (Strptime.hour t) (field d "keyword_mentioned"))), w)
        | None => (Ok None, add_event w (Error (ProcessingError ValueError)))
        end
    | PStrLone _ => (Ok None, add_event w (Error (ProcessingError ValueError)))
    | _ => (Ok None, add_event w (Error (ProcessingError TypeError)))
    end.
Proof.
  unfold process_message, try_except, bind, get, ret.
  destruct (negb (truthy (field d "timestamp"))
            || negb (truthy (field d "keyword_mentioned"))); [reflexivity|].
  unfold strptime.
  destruct (field d "timestamp"); try reflexivity.
  destruct (Strptime.strptime s); reflexivity.
Qed.

Lemma process_message_not_dict (message : pyval) (w : World) :
  (forall d, message <> PDict d) ->
  process_message message w =
  (Ok None, add_event w (Error (ProcessingError AttributeError))).
Proof.
  intros H. destruct message; try reflexivity. exfalso. exact (H d eq_refl).
Qed.

(** [process_message] always returns, and all it does to the world is
    to log one warning or error at most. *)
Lemma process_message_logs (message : pyval) (w : World) :
  exists r es,
    process_message message w = (Ok r, logging w es) /\ sleeps es = 0%nat /\
    (r = None \/ es = []).
Proof.
  destruct message;
    try solve [exists None; eexists; rewrite process_message_not_dict by discriminate;
               rewrite <- logging_one; repeat split; auto].
  rewrite process_message_dict.
  destruct (negb (truthy (field d "timestamp"))
            || negb (truthy (field d "keyword_mentioned"))).
  { exists None; eexists; rewrite <- logging_one; repeat split; auto. }
  destruct (field d "timestamp");
    try solve [exists None; eexists; rewrite <- logging_one; repeat split; auto].
  destruct (Strptime.strptime s).
  - eexists; exists []. rewrite logging_nil. repeat split; auto.
  - exists None; eexists; rewrite <- logging_one; repeat split; auto.
Qed.

(** ** The hour of a timestamp that parses *)

Lemma in_rx_bind {A B} (p : Strptime.rx A) (f : A -> Strptime.rx B)
      (s : string) (b : B) (rest : string) :
  In (b, rest) (Strptime.bind p f s) ->
  exists a r, In (a, r) (p s) /\ In (b, rest) (f a r).
Proof.
  unfold Strptime.bind. intros H. apply in_flat_map in H.
  destruct H as [[a r] [H1 H2]]. eauto.
Qed.

Lemma digit_in_range (lo hi : Z) (s : string) (d : Z) (rest : string) :
  In (d, rest) (Strptime.digit_in lo hi s) -> lo <= d <= hi.
Proof.
  unfold Strptime.digit_in. destruct s as [|c s']; [contradiction|].
  destruct (Text.isdigit c && (lo <=? Text.digit_value c)
            && (Text.digit_value c <=? hi)) eqn:E; [|contradiction].
  intros [H|[]]. inversion H; subst.
  apply andb_true_iff in E. destruct E as [E E2].
  apply andb_true_iff in E. destruct E as [_ E1].
  apply Z.leb_le in E1, E2. lia.
Qed.

Lemma two_range (lo1 hi1 lo2 hi2 : Z) (s : string) (v : Z) (rest : string) :
  In (v, rest) (Strptime.two lo1 hi1 lo2 hi2 s) ->
  10 * lo1 + lo2 <= v <= 10 * hi1 + hi2.
Proof.
  unfold Strptime.two. intros H.
  apply in_rx_bind in H. destruct H as [a [r [Ha H]]].
  apply in_rx_bind in H. destruct H as [b [r' [Hb H]]].
  destruct H as [H|[]].
  assert (E : 10 * a + b = v) by exact (f_equal fst H).
  apply digit_in_range in Ha, Hb. lia.
Qed.

Lemma rx_H_range (s : string) (h : Z) (rest : string) :
  In (h, rest) (Strptime.rx_H s) -> 0 <= h <= 23.
Proof.
  unfold Strptime.rx_H, Strptime.alt, Strptime.digit. intros H.
  apply in_app_or in H. destruct H as [H|H]; [apply two_range in H; lia|].
  apply in_app_or in H. destruct H as [H|H]; [apply two_range in H; lia|].
  apply digit_in_range in H. lia.
Qed.

(** The hour [strptime] reads is an hour of the day. *)
Lemma strptime_hour_range (s : string) (t : Strptime.datetime) :
  Strptime.strptime s = Some t -> 0 <= Strptime.hour t <= 23.
Proof.
  unfold Strptime.strptime.
  destruct (Strptime.rx_format s) as [|[t0 rest] l] eqn:E; [discriminate|].
  destruct (Text.is_empty rest && Strptime.valid t0); [|discriminate].
  intros H. inversion H; subst t0. clear H.
  assert (Hin : In (t, rest) (Strptime.rx_format s)) by (rewrite E; left; reflexivity).
  clear E. unfold Strptime.rx_format in Hin.
  repeat (apply in_rx_bind in Hin; destruct Hin as [? [? [? Hin]]]).
  destruct Hin as [Hin|[]]. inversion Hin; subst. cbn [Strptime.hour].
  eapply rx_H_range. eassumption.
Qed.

(** What [process_message] returns carries an hour of the day and a
    keyword that is true. *)
Lemma process_message_valid (message : pyval) (w w' : World) (pd : processed) :
  process_message message w = (Ok (Some pd), w') ->
  0 <= pd_hour_of_day pd <= 23 /\ truthy (pd_keyword pd) = true.
Proof.
  destruct message; try (rewrite process_message_not_dict by discriminate; discriminate).
  rewrite process_message_dict.
  destruct (truthy (field d "timestamp")); [|discriminate].
  destruct (truthy (field d "keyword_mentioned")) eqn:K; [|discriminate].
  cbn [negb orb].
  destruct (field d "timestamp"); try discriminate.
  destruct (Strptime.strptime s) as [t|] eqn:P; [|discriminate].
  intros H. inversion H; subst. cbn [pd_hour_of_day pd_keyword].
  split; [apply (strptime_hour_range s t P)|exact K].
Qed.

Lemma consume_line_blank (line : string) (w : World) :
  Text.is_empty (Text.strip line) = true -> consume_line line w = (Ok tt, w).
Proof. intros H. unfold consume_line. rewrite H. reflexivity. Qed.

Lemma consume_line_undecodable (line : string) (w : World) :
  Text.is_empty (Text.strip line) = false ->
  Json.loads (Text.strip line) = None ->
  consume_line line w = (Raise JSONDecodeError, w).
Proof.
  intros H1 H2. unfold consume_line, bind, json_loads. rewrite H1, H2. reflexivity.
Qed.

Lemma consume_line_decoded (line : string) (message : pyval) (w : World) :
  Text.is_empty (Text.strip line) = false ->
  Json.loads (Text.strip line) = Some message ->
  consume_line line w =
  match process_message message w with
  | (Ok (Some pd), w') => update_keyword_count (pd_hour_of_day pd) (pd_keyword pd) w'
  | (Ok None, w') => (Ok tt, w')
  | (Raise e, w') => (Raise e, w')
  | (SysExit c, w') => (SysExit c, w')
  | (OutOfFuel, w') => (OutOfFuel, w')
  end.
Proof.
  intros H1 H2. unfold consume_line, bind, json_loads, ret. rewrite H1, H2. cbn.
  destruct (process_message message w) as [[[pd|]| | |] w']; reflexivity.
Qed.

Lemma strptime_empty : Strptime.strptime "" = None.
Proof. reflexivity. Qed.

(** The result of [process_message] does not depend on the world. *)
Lemma process_message_result_of (message : pyval) (w : World) :
  fst (process_message message w) = Ok (result_of message).
Proof.
  unfold result_of.
  destruct message;
    try (rewrite !process_message_not_dict by discriminate; reflexivity).
  rewrite !process_message_dict.
  destruct (negb (truthy (field d "timestamp"))
            || negb (truthy (field d "keyword_mentioned"))); [reflexivity|].
  destruct (field d "timestamp"); try reflexivity.
  destruct (Strptime.strptime s); reflexivity.
Qed.

Lemma process_message_run (message : pyval) (w : World) :
  exists es,
    process_message message w = (Ok (result_of message), logging w es) /\
    sleeps es = 0%nat.
Proof.
  destruct (process_message_logs message w) as [r [es [R [S _]]]].
  exists es. split; [|exact S].
  pose proof (process_message_result_of message w) as H.
  rewrite R in H. cbn in H. inversion H; subst. exact R.
Qed.

Lemma result_of_valid (message : pyval) (pd : processed) :
  result_of message = Some pd ->
  0 <= pd_hour_of_day pd <= 23 /\ truthy (pd_keyword pd) = true.
Proof.
  intros H. destruct (process_message_run message (Sample.world "")) as [es [R _]].
  rewrite H in R. exact (process_message_valid _ _ _ _ R).
Qed.

(** The upsert for any keyword sqlite3 binds to a text. *)
Lemma upsert_bound_text now hour keyword k t :
  Table.in_int64 hour -> Sql.bind_text keyword = Sql.Done (Some k) ->
  upsert hour keyword now (Some t) = Sql.Done (Some (Table.upserted now hour k t)).
Proof.
  intros Hh Hk. unfold upsert, Sql.execute_update, Sql.execute_insert, Table.upserted.
  rewrite (bind_int_ok _ Hh), Hk.
  destruct (Sql.rowcount hour (Some k) t =? 0)%nat eqn:E; [|reflexivity].
  apply Nat.eqb_eq in E.
  rewrite (rowcount_0_update _ _ _ _ E). reflexivity.
Qed.

Lemma rowcount_null hour t : Sql.rowcount hour None t = 0%nat.
Proof.
  unfold Sql.rowcount. induction t as [|r t IH]; cbn; [reflexivity|].
  unfold Sql.matches at 1. destruct (keyword r); rewrite andb_false_r; exact IH.
Qed.

(** The upsert for a keyword sqlite3 binds to NULL: a new row each
    time. *)
Lemma upsert_bound_null now hour keyword t :
  Table.in_int64 hour -> Sql.bind_text keyword = Sql.Done None ->
  upsert hour keyword now (Some t) =
  Sql.Done (Some (t ++ [mkRow (Sql.next_rowid t) hour None 1 now])).
Proof.
  intros Hh Hk. unfold upsert, Sql.execute_update, Sql.execute_insert.
  rewrite (bind_int_ok _ Hh), Hk, rowcount_null. cbn [Nat.eqb].
  rewrite (rowcount_0_update _ _ _ _ (rowcount_null hour t)). reflexivity.
Qed.

Lemma upsert_unbound now hour keyword e c :
  Sql.bind_text keyword = Sql.Failed e ->
  exists e', upsert hour keyword now c = Sql.Failed e'.
Proof.
  intros Hk. unfold upsert, Sql.execute_update.
  destruct c; [|eauto]. destruct (Sql.bind_int hour); [|eauto].
  rewrite Hk. eauto.
Qed.


(* ================================================================== *)
(** * The invariant of the table                                       *)
(* ================================================================== *)

Lemma reached_invariant (w : World) :
  reached w ->
  open_ok (db w) = true /\ exists t, stored w = Some t /\ well_formed t.
Proof.
  induction 1 as [w Hm Ho|w hour kw Hr [Ho [t [Hs Hw]]]].
  - rewrite (init_fresh w Hm Ho). cbn. split; [exact Ho|].
    exists []. repeat split; constructor.
  - rewrite update_keyword_count_run, Ho, Hs.
    assert (Same : forall e,
               upsert hour kw (time_at w (clock w)) (Some t) = Sql.Failed e ->
               open_ok (db (snd (match upsert hour kw (time_at w (clock w)) (Some t) with
                                 | Sql.Done c' => (Ok tt, set_file (tick w) (File c'))
                                 | Sql.Failed e =>
                                     (Ok tt, add_event (set_file (tick w) (File (Some t)))
                                                       (Error (UpdateFailed e)))
                                 end))) = true /\
               exists t',
                 stored (snd (match upsert hour kw (time_at w (clock w)) (Some t) with
                              | Sql.Done c' => (Ok tt, set_file (tick w) (File c'))
                              | Sql.Failed e =>
                                  (Ok tt, add_event (set_file (tick w) (File (Some t)))
                                                    (Error (UpdateFailed e)))
                              end)) = Some t' /\ well_formed t').
    { intros e He. rewrite He. cbn [snd]. split; [exact Ho|].
      exists t. split; [reflexivity|exact Hw]. }
    destruct (in_int64_dec hour) as [Hh|Hh].
    2:{ destruct (upsert_overflow (time_at w (clock w)) hour kw (Some t) Hh) as [e He].
        exact (Same e He). }
    destruct (Sql.bind_text kw) as [[k|]|e] eqn:B.
    + rewrite (upsert_bound_text _ _ _ k t Hh B). cbn [snd].
      split; [exact Ho|]. eexists. split; [reflexivity|].
      apply upserted_well_formed. exact Hw.
    + rewrite (upsert_bound_null _ _ _ t Hh B). cbn [snd].
      split; [exact Ho|]. eexists. split; [reflexivity|].
      apply null_row_well_formed. exact Hw.
    + destruct (upsert_unbound (time_at w (clock w)) hour kw e (Some t) B) as [e' He].
      exact (Same e' He).
Qed.

(** C7.  In every state reached from the freshly initialized table by
    calls of [update_keyword_count], with any hour and any value as
    keyword, there is a table, no two of its rows that hold a keyword
    text have the same (hour_of_day, keyword) pair, and every count is
    at least 1.  Rows whose keyword is NULL are not bound by this:
    each call with such a keyword adds one. *)
Theorem reached_rows_unique_and_counted (w : World) :
  reached w ->
  exists t,
    stored w = Some t /\
    NoDup (Table.text_keys t) /\
    Forall (fun r => 1 <= count r) t.
Proof.
  intros H. destruct (reached_invariant w H) as [_ [t [Hs [Hn Hc]]]].
  exists t. repeat split; assumption.
Qed.

Lemma reached_rows_unique_and_counted_witness :
  reached (snd (update_keyword_count 14 (PStr "meme")
            (snd (update_keyword_count 14 (PFloat FNaN)
              (snd (update_keyword_count 9 (PInt 7)
                (snd (update_keyword_count 14 (PStr "meme")
                  (snd (init_keyword_db (Sample.world ""))))))))))) /\
  exists t,
    stored (snd (update_keyword_count 14 (PStr "meme")
             (snd (update_keyword_count 14 (PFloat FNaN)
               (snd (update_keyword_count 9 (PInt 7)
                 (snd (update_keyword_count 14 (PStr "meme")
                   (snd (init_keyword_db (Sample.world "")))))))))))
    = Some t /\
    NoDup (Table.text_keys t) /\
    Forall (fun r => 1 <= count r) t.
Proof.
  assert (R : reached
                (snd (update_keyword_count 14 (PStr "meme")
                  (snd (update_keyword_count 14 (PFloat FNaN)
                    (snd (update_keyword_count 9 (PInt 7)
                      (snd (update_keyword_count 14 (PStr "meme")
                        (snd (init_keyword_db (Sample.world "")))))))))))).
  { do 4 apply reached_update. apply reached_init; reflexivity. }
  split; [exact R|]. exact (reached_rows_unique_and_counted _ R).
Defined.

(** Two messages with the keyword NaN, which SQLite stores as NULL:
    two rows with the same pair. *)
Lemma null_keyword_rows_repeat :
  Json.loads Sample.nan_keyword =
  Some (PDict [("timestamp", PStr "2025-01-29 14:35:20");
               ("keyword_mentioned", PFloat FNaN)]) /\
  stored (snd (update_keyword_count 14 (PFloat FNaN)
            (snd (update_keyword_count 14 (PFloat FNaN)
              (snd (init_keyword_db (Sample.world "")))))))
  = Some [mkRow 1 14 None 1 (Sample.time 0); mkRow 2 14 None 1 (Sample.time 1)] /\
  stored (snd (consume_messages_from_file 1 5 0
                 (Sample.world (Sample.nan_keyword ++ Sample.LF
                                ++ Sample.nan_keyword ++ Sample.LF))))
  = Some [mkRow 1 14 None 1 (Sample.time 0); mkRow 2 14 None 1 (Sample.time 1)] /\
  ~ NoDup (map (fun r => (hour_of_day r, keyword r))
               [mkRow 1 14 None 1 (Sample.time 0); mkRow 2 14 None 1 (Sample.time 1)]).
Proof.
  split; [vm_compute; reflexivity|].
  split; [vm_compute; reflexivity|].
  split; [vm_compute; reflexivity|].
  cbn [map hour_of_day keyword]. intros H.
  inversion H as [|x l Hn _]. apply Hn. left. reflexivity.
Qed.

(* ================================================================== *)
(** * What a pass leaves alone                                         *)
(* ================================================================== *)

Lemma steady_refl w : steady w w.
Proof. repeat split. Qed.

Lemma steady_trans w1 w2 w3 : steady w1 w2 -> steady w2 w3 -> steady w1 w3.
Proof.
  unfold steady. intros [A1 [A2 [A3 [A4 [A5 [A6 A7]]]]]] [B1 [B2 [B3 [B4 [B5 [B6 B7]]]]]].
  repeat split; congruence.
Qed.

Lemma sleeps_app l l' : sleeps (l ++ l') = (sleeps l + sleeps l')%nat.
Proof. unfold sleeps. rewrite filter_app, length_app. reflexivity. Qed.

Lemma steady_logging w es : sleeps es = 0%nat -> steady w (logging w es).
Proof.
  intros H. unfold steady, logging. cbn [config live db time_at log].
  repeat split. rewrite sleeps_app, H. apply Nat.add_0_r.
Qed.

Lemma Steady_ret {A} (a : A) : Steady (ret a).
Proof. intros w. apply steady_refl. Qed.

Lemma Steady_raise {A} (e : exn) : Steady (@raise A e).
Proof. intros w. apply steady_refl. Qed.

Lemma Steady_sys_exit {A} (c : Z) : Steady (@sys_exit A c).
Proof. intros w. apply steady_refl. Qed.

Lemma Steady_bind {A B} (m : M A) (f : A -> M B) :
  Steady m -> (forall a, Steady (f a)) -> Steady (bind m f).
Proof.
  intros Hm Hf w. unfold bind. specialize (Hm w).
  destruct (m w) as [[a|e|c|] w']; cbn in *; try exact Hm.
  eapply steady_trans; [exact Hm|apply Hf].
Qed.

Lemma Steady_try_except {A} (m : M A) (h : exn -> M A) :
  Steady m -> (forall e, Steady (h e)) -> Steady (try_except m h).
Proof.
  intros Hm Hh w. unfold try_except. specialize (Hm w).
  destruct (m w) as [[a|e|c|] w']; cbn in *; try exact Hm.
  eapply steady_trans; [exact Hm|apply Hh].
Qed.

Lemma Steady_log_error m : Steady (log_error m).
Proof. intros w. apply (steady_logging w [Error m]). reflexivity. Qed.

Lemma Steady_log_warning m : Steady (log_warning m).
Proof. intros w. apply (steady_logging w [Warning m]). reflexivity. Qed.

Lemma Steady_now : Steady now.
Proof. intros w. repeat split. Qed.

Lemma Steady_makedirs : Steady makedirs.
Proof. intros w. unfold makedirs. destruct (mkdir_ok (db w)); apply steady_refl. Qed.

Lemma Steady_connect body : Steady (Sql.connect body).
Proof.
  intros w. unfold Sql.connect.
  destruct (open_ok (db w)); [|apply steady_refl].
  destruct (body (stored w)); repeat split.
Qed.

Lemma Steady_open_live : Steady open_live.
Proof. intros w. unfold open_live. destruct (live w); apply steady_refl. Qed.

Lemma Steady_json_loads s : Steady (json_loads s).
Proof. unfold json_loads. destruct (Json.loads s); [apply Steady_ret|apply Steady_raise]. Qed.

Create HintDb steady.
#[local] Hint Resolve Steady_ret Steady_raise Steady_sys_exit Steady_log_error
  Steady_log_warning Steady_now Steady_makedirs Steady_connect Steady_open_live
  Steady_json_loads : steady.

Ltac steady_step :=
  first [ apply Steady_bind; [|intros ?]
        | apply Steady_try_except; [|intros ?]
        | solve [auto with steady] ].

Lemma Steady_init_keyword_db : Steady init_keyword_db.
Proof. unfold init_keyword_db. repeat steady_step. Qed.

Lemma Steady_update_keyword_count hour keyword :
  Steady (update_keyword_count hour keyword).
Proof. unfold update_keyword_count. repeat steady_step. Qed.

Lemma Steady_process_message message : Steady (process_message message).
Proof.
  intros w. destruct (process_message_logs message w) as [r [es [R [S _]]]].
  rewrite R. apply steady_logging. exact S.
Qed.

#[local] Hint Resolve Steady_init_keyword_db Steady_update_keyword_count
  Steady_process_message : steady.

Lemma Steady_consume_line line : Steady (consume_line line).
Proof.
  unfold consume_line.
  destruct (negb (Text.is_empty (Text.strip line))); [|auto with steady].
  apply Steady_bind; [auto with steady|intros message].
  apply Steady_bind; [auto with steady|intros [pd|]]; auto with steady.
Qed.

#[local] Hint Resolve Steady_consume_line : steady.

Lemma Steady_for_lines lines : Steady (for_lines lines).
Proof.
  induction lines as [|line rest IH]; cbn [for_lines]; [auto with steady|].
  apply Steady_bind; [auto with steady|intros _; exact IH].
Qed.

(* ================================================================== *)
(** * How a pass over the file runs                                    *)
(* ================================================================== *)

Lemma init_keyword_db_returns (w : World) :
  init_keyword_db w = (Ok tt, snd (init_keyword_db w)).
Proof.
  rewrite init_keyword_db_run.
  destruct (mkdir_ok (db w)); [destruct (open_ok (db w))|]; reflexivity.
Qed.

Lemma update_keyword_count_eta (hour : Z) (keyword : pyval) (w : World) :
  update_keyword_count hour keyword w =
  (Ok tt, snd (update_keyword_count hour keyword w)).
Proof.
  pose proof (update_keyword_count_returns hour keyword w) as H.
  destruct (update_keyword_count hour keyword w) as [r w']. cbn in *.
  rewrite H. reflexivity.
Qed.

(** A line either is dealt with or is not JSON. *)
Lemma consume_line_outcome (line : string) (w : World) :
  (fst (consume_line line w) = Ok tt /\
   (Text.is_empty (Text.strip line) = true \/ Json.loads (Text.strip line) <> None))
  \/
  (consume_line line w = (Raise JSONDecodeError, w) /\
   Text.is_empty (Text.strip line) = false /\ Json.loads (Text.strip line) = None).
Proof.
  destruct (Text.is_empty (Text.strip line)) eqn:B.
  - left. rewrite consume_line_blank by assumption. auto.
  - destruct (Json.loads (Text.strip line)) as [message|] eqn:L.
    + left. split; [|right; discriminate].
      rewrite (consume_line_decoded line message w B L).
      destruct (process_message_logs message w) as [r [es [R _]]]. rewrite R.
      destruct r as [pd|]; [apply update_keyword_count_returns|reflexivity].
    + right. rewrite consume_line_undecodable by assumption. auto.
Qed.

Lemma for_lines_app (a b : list string) (w : World) :
  for_lines (a ++ b) w = (for_lines a ;; for_lines b) w.
Proof.
  revert w. induction a as [|line a IH]; intros w; cbn [for_lines app].
  - reflexivity.
  - unfold bind. unfold bind in IH.
    destruct (consume_line line w) as [[[]|e|c|] w']; try reflexivity.
    apply IH.
Qed.

(** Lines that are blank or JSON are all dealt with. *)
Lemma for_lines_decodable (lines : list string) :
  Forall (fun l => Text.is_empty (Text.strip l) = true \/
                   Json.loads (Text.strip l) <> None) lines ->
  forall w, fst (for_lines lines w) = Ok tt.
Proof.
  induction 1 as [|line rest H1 H2 IH]; intros w; cbn [for_lines]; [reflexivity|].
  unfold bind.
  destruct (consume_line_outcome line w) as [[O _]|[_ [B L]]].
  - destruct (consume_line line w) as [r w']. cbn in O. subst r. apply IH.
  - destruct H1 as [H1|H1]; congruence.
Qed.

(** A pass ends normally or at a line that is not JSON. *)
Lemma for_lines_outcome (lines : list string) (w : World) :
  fst (for_lines lines w) = Ok tt \/ fst (for_lines lines w) = Raise JSONDecodeError.
Proof.
  revert w. induction lines as [|line rest IH]; intros w; cbn [for_lines];
    [left; reflexivity|].
  unfold bind.
  destruct (consume_line_outcome line w) as [[O _]|[R _]].
  - destruct (consume_line line w) as [r w']. cbn in O. subst r. apply IH.
  - rewrite R. right. reflexivity.
Qed.

Lemma bind_ok {A B} (m : M A) (f : A -> M B) (w w' : World) (a : A) :
  m w = (Ok a, w') -> bind m f w = f a w'.
Proof. intros H. unfold bind. rewrite H. reflexivity. Qed.

Lemma read_pass_run (last_position : nat) (w : World) :
  read_pass last_position w =
  match live w with
  | LiveMissing => (Raise FileNotFoundError, w)
  | LiveUnreadable => (Raise PermissionError, w)
  | LiveText content =>
      match for_lines (Text.readlines (Text.drop last_position content)) w with
      | (Ok _, w') =>
          (Ok (Return (Nat.max last_position (String.length content))), w')
      | (Raise e, w') => (Raise e, w')
      | (SysExit c, w') => (SysExit c, w')
      | (OutOfFuel, w') => (OutOfFuel, w')
      end
  end.
Proof.
  unfold read_pass, bind, open_live, ret.
  destruct (live w) as [| |content]; reflexivity.
Qed.

Lemma consume_messages_from_file_run (fuel : nat) (interval_secs : Z)
      (last_position : nat) (w : World) :
  consume_messages_from_file (S fuel) interval_secs last_position w =
  match live w with
  | LiveMissing =>
      (SysExit 10, add_event (snd (init_keyword_db w)) (Error LiveNotFound))
  | LiveUnreadable =>
      (SysExit 11, add_event (snd (init_keyword_db w))
                             (Error (LiveReadError PermissionError)))
  | LiveText content =>
      match for_lines (Text.readlines content) (snd (init_keyword_db w)) with
      | (Ok _, w') => (Ok (String.length content), w')
      | (_, w') => (SysExit 11, add_event w' (Error (LiveReadError JSONDecodeError)))
      end
  end.
Proof.
  unfold consume_messages_from_file.
  rewrite (bind_ok _ _ _ _ _ (init_keyword_db_returns w)).
  destruct (Steady_init_keyword_db w) as [_ [Hl _]].
  cbn [while_true]. unfold bind at 1, try_except.
  rewrite read_pass_run, Hl.
  destruct (live w) as [| |content]; try reflexivity.
  cbn [Text.drop].
  destruct (for_lines_outcome (Text.readlines content) (snd (init_keyword_db w)))
    as [O|O];
    destruct (for_lines (Text.readlines content) (snd (init_keyword_db w)))
    as [r w']; cbn in O; subst r; reflexivity.
Qed.

(** The ways [consume_messages_from_file] ends. *)
Lemma consume_outcome (fuel : nat) (interval_secs : Z) (last_position : nat)
      (w : World) :
  match fst (consume_messages_from_file fuel interval_secs last_position w) with
  | Ok _ => True
  | Raise _ => False
  | SysExit c => (c = 10 /\ live w = LiveMissing) \/ (c = 11 /\ live w <> LiveMissing)
  | OutOfFuel => fuel = 0%nat
  end.
Proof.
  destruct fuel as [|fuel].
  - unfold consume_messages_from_file.
    rewrite (bind_ok _ _ _ _ _ (init_keyword_db_returns w)). reflexivity.
  - rewrite consume_messages_from_file_run.
    destruct (live w) as [| |content]; cbn [fst].
    + left. auto.
    + right. split; [reflexivity|discriminate].
    + destruct (for_lines _ _) as [[[]|e|c|] w']; cbn [fst];
        try exact I; right; split; try reflexivity; discriminate.
Qed.

(** What a cycle that returns has done. *)
Lemma consume_returned
      (fuel : nat) (interval_secs : Z) (last_position : nat) (w : World) (v : nat) :
  fst (consume_messages_from_file (S fuel) interval_secs last_position w) = Ok v ->
  exists content,
    live w = LiveText content /\ v = String.length content /\
    for_lines (Text.readlines content) (snd (init_keyword_db w)) =
    (Ok tt, snd (consume_messages_from_file
                   (S fuel) interval_secs last_position w)).
Proof.
  rewrite consume_messages_from_file_run.
  destruct (live w) as [| |content]; cbn [fst]; try discriminate.
  destruct (for_lines (Text.readlines content) (snd (init_keyword_db w)))
    as [[[]|e|c|] w'] eqn:F; cbn [fst snd]; try discriminate.
  intros H. inversion H; subst. exists content. repeat split. exact F.
Qed.

(* ================================================================== *)
(** * The lines of a file                                              *)
(* ================================================================== *)

Lemma string_append_nil (s : string) : (s ++ "")%string = s.
Proof. induction s as [|c s IH]; cbn; [reflexivity|rewrite IH; reflexivity]. Qed.

Lemma string_of_rev_cons (l : list ascii) (c : ascii) (t : string) :
  (string_of_list_ascii (l ++ [c]) ++ t)%string =
  (string_of_list_ascii l ++ String c t)%string.
Proof. induction l as [|a l IH]; cbn; [reflexivity|rewrite IH; reflexivity]. Qed.

(** Text without a terminator is one line, whatever was read before
    it on the same line. *)
Lemma readlines_from_no_newline (tail : string) :
  forall cur,
    no_newline tail = true -> (cur <> [] \/ tail <> "") ->
    Text.readlines_from cur tail =
    [(string_of_list_ascii (rev cur) ++ tail)%string].
Proof.
  induction tail as [|c t IH]; intros cur Hn Hne.
  - cbn. destruct cur; [destruct Hne; congruence|].
    rewrite string_append_nil. reflexivity.
  - cbn in Hn. apply andb_true_iff in Hn. destruct Hn as [Hc Hn].
    unfold is_newline in Hc. apply negb_true_iff, orb_false_iff in Hc.
    destruct Hc as [H10 H13].
    cbn [Text.readlines_from]. rewrite H10, H13.
    rewrite IH; [|exact Hn|left; discriminate].
    cbn [rev]. rewrite string_of_rev_cons. reflexivity.
Qed.

Lemma terminated_tail (c : ascii) (s : string) :
  terminated (String c s) = true -> terminated s = true.
Proof. destruct s; [reflexivity|intros H; exact H]. Qed.

Lemma readlines_from_terminated (tail : string) :
  tail <> "" -> no_newline tail = true ->
  forall n head,
    (String.length head <= n)%nat ->
    forall cur,
      terminated head = true -> (head = "" -> cur = []) ->
      Text.readlines_from cur (head ++ tail) =
      Text.readlines_from cur head ++ [tail].
Proof.
  intros Ht Hn.
  assert (Htail : Text.readlines_from [] tail = [tail])
    by (rewrite readlines_from_no_newline; auto).
  induction n as [|n IH]; intros head Hlen cur Hterm Hcur.
  - destruct head; [|simpl in Hlen; inversion Hlen].
    rewrite (Hcur eq_refl). exact Htail.
  - destruct head as [|c h]; [rewrite (Hcur eq_refl); exact Htail|].
    cbn in Hlen. apply le_S_n in Hlen.
    pose proof (terminated_tail c h Hterm) as Hh.
    change (String c h ++ tail)%string with (String c (h ++ tail)%string).
    cbn [Text.readlines_from].
    destruct (Text.code c =? 10)%N eqn:E10.
    { rewrite IH; auto. }
    destruct (Text.code c =? 13)%N eqn:E13.
    + destruct h as [|c' h'].
      * cbn [append]. destruct tail as [|t0 t']; [congruence|].
        cbn in Hn. apply andb_true_iff in Hn. destruct Hn as [Hc _].
        unfold is_newline in Hc. apply negb_true_iff, orb_false_iff in Hc.
        destruct Hc as [H10 _]. rewrite H10, Htail. reflexivity.
      * change (String c' h' ++ tail)%string with (String c' (h' ++ tail)%string).
        cbv beta iota.
        destruct (Text.code c' =? 10)%N eqn:E'.
        -- cbn in Hlen.
           rewrite IH; auto; [lia|apply (terminated_tail c'); exact Hh].
        -- change (String c' (h' ++ tail)%string) with (String c' h' ++ tail)%string.
           rewrite IH; auto.
    + rewrite IH; auto.
      intros ->. cbn in Hterm. unfold is_newline in Hterm.
      rewrite E10, E13 in Hterm. discriminate.
Qed.

(** The text after the last terminator is delivered as a line. *)
Lemma readlines_partial (head tail : string) :
  terminated head = true -> tail <> "" -> no_newline tail = true ->
  Text.readlines (head ++ tail) = Text.readlines head ++ [tail].
Proof.
  intros Hterm Ht Hn. unfold Text.readlines.
  apply (readlines_from_terminated tail Ht Hn (String.length head)); auto.
Qed.

Lemma string_length_append (a b : string) :
  String.length (a ++ b) = (String.length a + String.length b)%nat.
Proof. induction a as [|c a IH]; cbn; [reflexivity|rewrite IH; reflexivity]. Qed.

(* ================================================================== *)
(** * A line that is not JSON                                          *)
(* ================================================================== *)

(** C1, as the code has it.  In a cycle over a file with a line that
    is not JSON, the lines before the first such line are processed;
    at that line the error is logged and the process exits with code
    11, and no later line is processed. *)
Theorem undecodable_line_ends_the_process
        (fuel : nat) (interval_secs : Z) (last_position : nat) (w : World)
        (content : string) (before after : list string) (bad : string) :
  live w = LiveText content ->
  Text.readlines content = before ++ bad :: after ->
  Forall (fun l => Text.is_empty (Text.strip l) = true \/
                   Json.loads (Text.strip l) <> None) before ->
  Text.is_empty (Text.strip bad) = false ->
  Json.loads (Text.strip bad) = None ->
  fst (for_lines before (snd (init_keyword_db w))) = Ok tt /\
  consume_messages_from_file (S fuel) interval_secs last_position w =
  (SysExit 11,
   add_event (snd (for_lines before (snd (init_keyword_db w))))
             (Error (LiveReadError JSONDecodeError))).
Proof.
  intros Hl Hr Hb Hn Hj.
  pose proof (for_lines_decodable before Hb (snd (init_keyword_db w))) as Ho.
  split; [exact Ho|].
  rewrite consume_messages_from_file_run, Hl, Hr, for_lines_app.
  unfold bind at 1.
  destruct (for_lines before (snd (init_keyword_db w))) as [r w1].
  cbn in Ho. subst r. cbn [for_lines snd]. unfold bind at 1.
  rewrite (consume_line_undecodable bad w1 Hn Hj). reflexivity.
Qed.

Lemma undecodable_line_ends_the_process_witness :
  (live (Sample.world Sample.bad_file) = LiveText Sample.bad_file /\
   Text.readlines Sample.bad_file =
   [] ++ ("oops" ++ Sample.LF)%string :: [(Sample.meme ++ Sample.LF)%string] /\
   Text.is_empty (Text.strip ("oops" ++ Sample.LF)) = false /\
   Json.loads (Text.strip ("oops" ++ Sample.LF)) = None) /\
  consume_messages_from_file 1 5 0 (Sample.world Sample.bad_file) =
  (SysExit 11,
   add_event (snd (init_keyword_db (Sample.world Sample.bad_file)))
             (Error (LiveReadError JSONDecodeError))).
Proof.
  split; [repeat split; reflexivity|].
  exact (proj2 (undecodable_line_ends_the_process
                  0 5 0 (Sample.world Sample.bad_file) Sample.bad_file
                  [] [(Sample.meme ++ Sample.LF)%string] ("oops" ++ Sample.LF)%string
                  eq_refl eq_refl (Forall_nil _) eq_refl eq_refl)).
Defined.

(** The claim fails on a file whose first line is not JSON: the
    process exits with code 11 and the good line after it is never
    counted, while the same good line alone is. *)
Lemma undecodable_line_is_fatal :
  Json.loads (Text.strip ("oops" ++ Sample.LF)) = None /\
  fst (consume_messages_from_file 1 5 0 (Sample.world Sample.bad_file)) = SysExit 11 /\
  stored (snd (consume_messages_from_file 1 5 0 (Sample.world Sample.bad_file)))
  = Some [] /\
  exit_status (fst (main 1 (Sample.world Sample.bad_file))) = Some 11 /\
  stored (snd (consume_messages_from_file 1 5 0
                 (Sample.world (Sample.meme ++ Sample.LF))))
  = Some [mkRow 1 14 (Some "meme") 1 (Sample.time 0)].
Proof. repeat split; vm_compute; reflexivity. Qed.

(* ================================================================== *)
(** * One pass                                                         *)
(* ================================================================== *)

Lemma skips_app (l l' : list event) : skips (l ++ l') = (skips l + skips l')%nat.
Proof. unfold skips. rewrite filter_app, length_app. reflexivity. Qed.

(** What [process_message] adds to the log: one refusal when it has
    no result, nothing when it has one. *)
Lemma process_message_skips (message : pyval) (w : World) :
  exists es,
    process_message message w = (Ok (result_of message), logging w es) /\
    skips es = match result_of message with Some _ => 0%nat | None => 1%nat end.
Proof.
  destruct message;
    try solve [exists [Error (ProcessingError AttributeError)]; split; reflexivity].
  unfold result_of. rewrite !process_message_dict.
  destruct (negb (truthy (field d "timestamp"))
            || negb (truthy (field d "keyword_mentioned"))).
  { exists [Warning MissingField]. split; reflexivity. }
  destruct (field d "timestamp");
    try solve [exists [Error (ProcessingError TypeError)]; split; reflexivity].
  - destruct (Strptime.strptime s).
    + exists []. rewrite logging_nil. split; reflexivity.
    + exists [Error (ProcessingError ValueError)]. split; reflexivity.
  - exists [Error (ProcessingError ValueError)]. split; reflexivity.
Qed.

(** A call of [update_keyword_count] reads the clock once and is no
    refusal of a message. *)
Lemma update_keyword_count_accounts (hour : Z) (keyword : pyval) (w : World) :
  clock (snd (update_keyword_count hour keyword w)) = S (clock w) /\
  skips (log (snd (update_keyword_count hour keyword w))) = skips (log w).
Proof.
  rewrite update_keyword_count_run.
  destruct (open_ok (db w)).
  - destruct (upsert hour keyword (time_at w (clock w)) (stored w));
      cbn [snd clock log set_file tick add_event]; rewrite ?skips_app;
      cbn; split; lia.
  - cbn [snd clock log set_file tick add_event]. rewrite skips_app. cbn. split; lia.
Qed.

Lemma consume_line_accounts (line : string) (w : World) :
  fst (consume_line line w) = Ok tt ->
  clock (snd (consume_line line w))
  = (clock w + if is_counted line then 1 else 0)%nat /\
  skips (log (snd (consume_line line w)))
  = (skips (log w) + if is_skipped line then 1 else 0)%nat.
Proof.
  intros Hr. unfold is_skipped, is_counted, line_result.
  destruct (Text.is_empty (Text.strip line)) eqn:B.
  { rewrite consume_line_blank by assumption. cbn. split; lia. }
  destruct (Json.loads (Text.strip line)) as [message|] eqn:L.
  2:{ rewrite consume_line_undecodable in Hr by assumption. discriminate. }
  rewrite (consume_line_decoded line message w B L).
  destruct (process_message_skips message w) as [es [R S]]. rewrite R.
  destruct (result_of message) as [pd|].
  - destruct (update_keyword_count_accounts (pd_hour_of_day pd) (pd_keyword pd)
                (logging w es)) as [C K].
    rewrite C, K. cbn [clock log logging negb andb]. rewrite skips_app, S.
    split; lia.
  - cbn [snd clock log logging negb andb]. rewrite skips_app, S. split; lia.
Qed.

(** A pass that ends normally has read the clock once for each line
    with a result and logged one refusal for each other line that is
    not blank. *)
Lemma for_lines_accounts (lines : list string) :
  forall w : World,
    fst (for_lines lines w) = Ok tt ->
    clock (snd (for_lines lines w))
    = (clock w + length (filter is_counted lines))%nat /\
    skips (log (snd (for_lines lines w)))
    = (skips (log w) + length (filter is_skipped lines))%nat.
Proof.
  induction lines as [|line rest IH]; intros w Hr.
  - cbn. split; lia.
  - cbn [for_lines] in *. unfold bind in *.
    destruct (consume_line_outcome line w) as [[O _]|[R _]].
    2:{ rewrite R in Hr. discriminate. }
    destruct (consume_line_accounts line w O) as [C K].
    destruct (consume_line line w) as [r w1]. cbn [fst snd] in *. subst r.
    destruct (IH w1 Hr) as [C' K']. rewrite C', K', C, K. cbn [filter].
    destruct (is_counted line); destruct (is_skipped line); cbn [length]; split; lia.
Qed.

Lemma init_keyword_db_accounts (w : World) :
  clock (snd (init_keyword_db w)) = clock w /\
  skips (log (snd (init_keyword_db w))) = skips (log w).
Proof.
  rewrite init_keyword_db_run.
  destruct (mkdir_ok (db w)); [destruct (open_ok (db w))|];
    cbn [snd clock log set_file add_event]; rewrite ?skips_app; cbn; split; lia.
Qed.

Lemma is_line_app_one (l : list ascii) (c : ascii) :
  Forall (fun a => (Text.code a =? 10)%N = false) l ->
  is_line (string_of_list_ascii (l ++ [c])) = true.
Proof.
  induction 1 as [|a l Ha Hl IH]; [reflexivity|].
  cbn [app string_of_list_ascii is_line]. rewrite Ha, IH.
  destruct (string_of_list_ascii (l ++ [c])) eqn:E; [|reflexivity].
  destruct l; discriminate E.
Qed.

Lemma is_line_rev (cur : list ascii) :
  cur <> [] -> Forall (fun a => (Text.code a =? 10)%N = false) cur ->
  is_line (string_of_list_ascii (rev cur)) = true.
Proof.
  destruct cur as [|c cur]; [congruence|]. intros _ H.
  inversion H as [|a l Hc Hl]; subst. cbn [rev].
  apply is_line_app_one. apply Forall_rev. exact Hl.
Qed.

(** The lines of a text without CR are the text, cut after each LF. *)
Lemma readlines_from_join (s : string) :
  forall cur,
    no_cr s = true ->
    Forall (fun a => (Text.code a =? 10)%N = false) cur ->
    join (Text.readlines_from cur s) = (string_of_list_ascii (rev cur) ++ s)%string /\
    forallb is_line (Text.readlines_from cur s) = true.
Proof.
  unfold join. induction s as [|c s IH]; intros cur Hs Hcur.
  - cbn [Text.readlines_from]. destruct cur as [|a cur]; [split; reflexivity|].
    cbn [fold_right forallb]. rewrite !string_append_nil.
    split; [reflexivity|]. rewrite is_line_rev; [reflexivity|discriminate|exact Hcur].
  - cbn [no_cr] in Hs. apply andb_true_iff in Hs. destruct Hs as [Hc Hs].
    apply negb_true_iff in Hc.
    cbn [Text.readlines_from]. rewrite Hc.
    destruct (Text.code c =? 10)%N eqn:E10.
    + destruct (IH [] Hs (Forall_nil _)) as [J L].
      cbn [fold_right forallb]. rewrite J, L.
      unfold Text.finish_line. cbn [rev string_of_list_ascii append].
      assert (Ec : c = Text.LF).
      { apply N.eqb_eq in E10. unfold Text.code in E10.
        rewrite <- (ascii_N_embedding c), E10. reflexivity. }
      subst c. rewrite string_of_rev_cons.
      split; [reflexivity|].
      rewrite is_line_app_one; [reflexivity|apply Forall_rev; exact Hcur].
    + destruct (IH (c :: cur) Hs) as [J L]; [constructor; assumption|].
      rewrite J, L. cbn [rev]. rewrite string_of_rev_cons. split; reflexivity.
Qed.

(** C4.  [consume_messages_from_file] does not use its
    [last_position]: it starts at 0, passes over the file once and
    returns the offset of the end of the file; one iteration of the
    loop is all it runs, whatever the bound on iterations, and the
    process never sleeps.  The one pass is over every line of the
    file, each once: when the cycle returns, [update_keyword_count]
    has read the clock once for each line with a result, and
    [process_message] has logged one refusal for each other line that
    is not blank; and the lines are the whole file: in a file whose
    line terminators are LF, they are its text cut after each LF. *)
Theorem consume_single_pass
        (fuel : nat) (interval_secs : Z) (last_position : nat) (w : World) :
  consume_messages_from_file (S fuel) interval_secs last_position w =
  consume_messages_from_file 1 interval_secs 0 w /\
  sleeps (log (snd (consume_messages_from_file
                      (S fuel) interval_secs last_position w))) = sleeps (log w) /\
  (forall v,
     fst (consume_messages_from_file (S fuel) interval_secs last_position w) = Ok v ->
     exists content,
       live w = LiveText content /\ v = String.length content /\
       for_lines (Text.readlines content) (snd (init_keyword_db w)) =
       (Ok tt, snd (consume_messages_from_file
                      (S fuel) interval_secs last_position w)) /\
       clock (snd (consume_messages_from_file
                     (S fuel) interval_secs last_position w))
       = (clock w + length (filter is_counted (Text.readlines content)))%nat /\
       skips (log (snd (consume_messages_from_file
                          (S fuel) interval_secs last_position w)))
       = (skips (log w) + length (filter is_skipped (Text.readlines content)))%nat /\
       (no_cr content = true ->
        join (Text.readlines content) = content /\
        forallb is_line (Text.readlines content) = true)) /\
  fst (consume_messages_from_file (S fuel) interval_secs last_position w)
  <> OutOfFuel.
Proof.
  split; [|split; [|split]].
  - rewrite !consume_messages_from_file_run. reflexivity.
  - rewrite consume_messages_from_file_run.
    destruct (Steady_init_keyword_db w) as [_ [_ [_ [_ [_ [_ Hs]]]]]].
    destruct (live w) as [| |content]; cbn [snd add_event log];
      try (rewrite sleeps_app, Hs; cbn; lia).
    destruct (Steady_for_lines (Text.readlines content) (snd (init_keyword_db w)))
      as [_ [_ [_ [_ [_ [_ Hs']]]]]].
    destruct (for_lines (Text.readlines content) (snd (init_keyword_db w)))
      as [[[]|e|c|] w']; cbn [snd add_event log] in *;
      rewrite ?sleeps_app, Hs', Hs; cbn; lia.
  - intros v Hv.
    destruct (consume_returned fuel interval_secs last_position w v Hv)
      as [content [Hl [Hlen F]]].
    exists content. split; [exact Hl|]. split; [exact Hlen|]. split; [exact F|].
    destruct (for_lines_accounts (Text.readlines content) (snd (init_keyword_db w)))
      as [C K]; [rewrite F; reflexivity|].
    rewrite F in C, K. cbn [snd] in C, K.
    destruct (init_keyword_db_accounts w) as [C0 K0].
    rewrite C, K, C0, K0. split; [reflexivity|]. split; [reflexivity|].
    intros Hcr. exact (readlines_from_join content [] Hcr (Forall_nil _)).
  - pose proof (consume_outcome (S fuel) interval_secs last_position w) as O.
    intros E. rewrite E in O. discriminate O.
Qed.

Lemma consume_single_pass_witness :
  fst (consume_messages_from_file 3 5 77 (Sample.world Sample.mixed_file))
  = Ok 135%nat /\
  (exists content,
     live (Sample.world Sample.mixed_file) = LiveText content /\
     135%nat = String.length content /\
     for_lines (Text.readlines content)
               (snd (init_keyword_db (Sample.world Sample.mixed_file))) =
     (Ok tt, snd (consume_messages_from_file 3 5 77 (Sample.world Sample.mixed_file))) /\
     clock (snd (consume_messages_from_file 3 5 77 (Sample.world Sample.mixed_file)))
     = (0 + length (filter is_counted (Text.readlines content)))%nat /\
     skips (log (snd (consume_messages_from_file
                        3 5 77 (Sample.world Sample.mixed_file))))
     = (0 + length (filter is_skipped (Text.readlines content)))%nat /\
     (no_cr content = true ->
      join (Text.readlines content) = content /\
      forallb is_line (Text.readlines content) = true)) /\
  no_cr Sample.mixed_file = true /\
  Text.readlines Sample.mixed_file =
  [(Sample.meme ++ Sample.LF)%string; ("{}" ++ Sample.LF)%string; Sample.LF; Sample.meme] /\
  length (filter is_counted (Text.readlines Sample.mixed_file)) = 2%nat /\
  length (filter is_skipped (Text.readlines Sample.mixed_file)) = 1%nat /\
  stored (snd (consume_messages_from_file 3 5 77 (Sample.world Sample.mixed_file)))
  = Some [mkRow 1 14 (Some "meme") 2 (Sample.time 1)].
Proof.
  split; [reflexivity|]. split.
  - exact (proj1 (proj2 (proj2 (consume_single_pass
                                  2 5 77 (Sample.world Sample.mixed_file))))
                 135%nat eq_refl).
  - repeat split; vm_compute; reflexivity.
Defined.

(* ================================================================== *)
(** * A partial last line                                              *)
(* ================================================================== *)

(** C6, as the code has it.  When the file ends in text without a
    line terminator, that text is delivered as the last line of the
    cycle and dealt with like any other line, and the offset a cycle
    returns is the end of the file, the length of the partial line
    past the end of the last terminated line. *)
Theorem partial_line_is_consumed
        (fuel : nat) (interval_secs : Z) (last_position : nat) (w : World)
        (head tail : string) :
  live w = LiveText (head ++ tail) ->
  terminated head = true -> tail <> "" -> no_newline tail = true ->
  Text.readlines (head ++ tail) = Text.readlines head ++ [tail] /\
  (forall w0,
     for_lines (Text.readlines (head ++ tail)) w0 =
     (for_lines (Text.readlines head) ;; consume_line tail) w0) /\
  (forall v,
     fst (consume_messages_from_file (S fuel) interval_secs last_position w) = Ok v ->
     v = (String.length head + String.length tail)%nat).
Proof.
  intros Hl Hterm Ht Hn.
  pose proof (readlines_partial head tail Hterm Ht Hn) as Hr.
  split; [exact Hr|split].
  - intros w0. rewrite Hr, for_lines_app. unfold bind.
    destruct (for_lines (Text.readlines head) w0) as [[[]|e|c|] w1]; try reflexivity.
    cbn [for_lines]. unfold bind, ret.
    destruct (consume_line tail w1) as [[[]|e|c|] w2]; reflexivity.
  - intros v Hv.
    destruct (consume_returned fuel interval_secs last_position w v Hv)
      as [content [Hc [Hlen _]]].
    rewrite Hl in Hc. inversion Hc; subst.
    apply string_length_append.
Qed.

Lemma partial_line_is_consumed_witness :
  (live (Sample.world Sample.unterminated_file) =
   LiveText ((Sample.meme ++ Sample.LF) ++ Sample.meme) /\
   terminated (Sample.meme ++ Sample.LF) = true /\
   Sample.meme <> "" /\ no_newline Sample.meme = true) /\
  Text.readlines ((Sample.meme ++ Sample.LF) ++ Sample.meme) =
  Text.readlines (Sample.meme ++ Sample.LF) ++ [Sample.meme].
Proof.
  assert (Hne : Sample.meme <> "") by discriminate.
  split; [repeat split; try reflexivity; exact Hne|].
  exact (proj1 (partial_line_is_consumed
                  0 5 0 (Sample.world Sample.unterminated_file)
                  (Sample.meme ++ Sample.LF) Sample.meme
                  eq_refl eq_refl Hne eq_refl)).
Defined.

(** The claim fails on a file of one terminated line followed by the
    same text without a terminator: the last terminated line ends at
    offset 66, the cycle returns 131, and the partial line has been
    counted. *)
Lemma partial_line_counterexample :
  Sample.unterminated_file = ((Sample.meme ++ Sample.LF) ++ Sample.meme)%string /\
  String.length (Sample.meme ++ Sample.LF) = 66%nat /\
  fst (consume_messages_from_file 1 5 0 (Sample.world Sample.unterminated_file))
  = Ok 131%nat /\
  stored (snd (consume_messages_from_file 1 5 0 (Sample.world Sample.unterminated_file)))
  = Some [mkRow 1 14 (Some "meme") 2 (Sample.time 1)].
Proof. repeat split; vm_compute; reflexivity. Qed.

(* ================================================================== *)
(** * Exit codes                                                       *)
(* ================================================================== *)

Lemma main_run (fuel : nat) (w : World) :
  main fuel w =
  match config w with
  | None => (SysExit 1, add_event w (Error (EnvFailed ValueError)))
  | Some interval_secs =>
      match file (db w), unlink_ok (db w) with
      | File _, false =>
          (SysExit 2, add_event w (Error (DeleteFailed PermissionError)))
      | f, _ =>
          let w1 := match f with File _ => set_file w NoFile | NoFile => w end in
          match consume_messages_from_file fuel interval_secs 0
                  (snd (init_keyword_db w1)) with
          | (Ok _, w') => (Ok tt, w')
          | (Raise e, w') => (Ok tt, add_event w' (Error (Unexpected e)))
          | (SysExit c, w') => (SysExit c, w')
          | (OutOfFuel, w') => (OutOfFuel, w')
          end
      end
  end.
Proof.
  unfold main. unfold bind at 1, try_except at 1, read_config.
  destruct (config w) as [interval_secs|]; [|reflexivity].
  unfold bind at 1, db_exists.
  assert (T : forall w1,
             (try_except init_keyword_db
                (fun e => log_error (CreateFailed e);; sys_exit 3);;
              try_except
                (consume_messages_from_file fuel interval_secs 0;; ret tt)
                (fun e => log_error (Unexpected e))) w1 =
             match consume_messages_from_file fuel interval_secs 0
                     (snd (init_keyword_db w1)) with
             | (Ok _, w') => (Ok tt, w')
             | (Raise e, w') => (Ok tt, add_event w' (Error (Unexpected e)))
             | (SysExit c, w') => (SysExit c, w')
             | (OutOfFuel, w') => (OutOfFuel, w')
             end).
  { intros w1. unfold bind at 1, try_except at 1.
    rewrite init_keyword_db_returns.
    unfold try_except, bind. cbn [snd].
    destruct (consume_messages_from_file fuel interval_secs 0 (snd (init_keyword_db w1)))
      as [[v|e|c|] w']; reflexivity. }
  destruct (file (db w)) as [|t].
  - unfold bind at 1, ret. apply T.
  - unfold bind at 1, try_except at 1, unlink.
    destruct (unlink_ok (db w)); [apply T|reflexivity].
Qed.

(** C8.  When the live data file does not exist the cycle ends the
    process with exit code 10; any other failure of the read ends it
    with exit code 11; the two codes differ and neither is 0. *)
Theorem missing_file_exit_code
        (fuel : nat) (interval_secs : Z) (last_position : nat) (w : World) :
  (live w = LiveMissing ->
   fst (consume_messages_from_file (S fuel) interval_secs last_position w)
   = SysExit 10) /\
  (live w = LiveMissing -> config w <> None ->
   file (db w) = NoFile \/ unlink_ok (db w) = true ->
   exit_status (fst (main (S fuel) w)) = Some 10) /\
  (live w = LiveUnreadable ->
   fst (consume_messages_from_file (S fuel) interval_secs last_position w)
   = SysExit 11) /\
  (live w <> LiveMissing ->
   forall code,
     fst (consume_messages_from_file (S fuel) interval_secs last_position w)
     = SysExit code -> code = 11) /\
  10 <> 11 /\ 10 <> 0 /\ 11 <> 0.
Proof.
  split; [|split; [|split; [|split]]].
  - intros H. rewrite consume_messages_from_file_run, H. reflexivity.
  - intros H Hc Hd. rewrite main_run.
    destruct (config w) as [i|]; [|congruence].
    assert (L : forall w1, live w1 = LiveMissing ->
                fst (consume_messages_from_file (S fuel) i 0 w1) = SysExit 10)
      by (intros w1 H1; rewrite consume_messages_from_file_run, H1; reflexivity).
    assert (Li : forall w1, live w1 = LiveMissing ->
                 live (snd (init_keyword_db w1)) = LiveMissing).
    { intros w1 H1. destruct (Steady_init_keyword_db w1) as [_ [Hl _]]. congruence. }
    destruct (file (db w)) as [|t].
    + cbv zeta. specialize (L _ (Li w H)).
      destruct (unlink_ok (db w));
        destruct (consume_messages_from_file (S fuel) i 0 (snd (init_keyword_db w)))
        as [r w']; cbn in L; subst r; reflexivity.
    + destruct Hd as [Hd|Hd]; [discriminate|]. rewrite Hd. cbv zeta.
      specialize (L _ (Li (set_file w NoFile) H)).
      destruct (consume_messages_from_file (S fuel) i 0 _) as [r w'].
      cbn in L. subst r. reflexivity.
  - intros H. rewrite consume_messages_from_file_run, H. reflexivity.
  - intros H code E.
    pose proof (consume_outcome (S fuel) interval_secs last_position w) as O.
    rewrite E in O. destruct O as [[_ O]|[O _]]; [contradiction|exact O].
  - repeat split; discriminate.
Qed.

Lemma missing_file_exit_code_witness :
  (live Sample.missing_world = LiveMissing /\
   config Sample.missing_world <> None /\
   file (db Sample.missing_world) = NoFile) /\
  fst (consume_messages_from_file 1 5 0 Sample.missing_world) = SysExit 10 /\
  exit_status (fst (main 1 Sample.missing_world)) = Some 10.
Proof.
  assert (Hc : config Sample.missing_world <> None) by discriminate.
  split; [repeat split; try reflexivity; exact Hc|]. split.
  - exact (proj1 (missing_file_exit_code 0 5 0 Sample.missing_world) eq_refl).
  - exact (proj1 (proj2 (missing_file_exit_code 0 5 0 Sample.missing_world))
                 eq_refl Hc (or_introl eq_refl)).
Defined.

(** C9, on the code.  No run of [main] ends with exit code 3: a
    failure to initialize the table is logged inside
    [init_keyword_db] and [main] goes on to consume.  In a world whose
    database location cannot be written the initialization fails
    twice, the line of the file is consumed, its update fails, and the
    process ends with status 0. *)
Theorem init_failure_is_not_fatal :
  (forall fuel w, fst (main fuel w) <> SysExit 3) /\
  main 1 Sample.unwritable_world =
  (Ok tt,
   mkWorld (Some 5) (LiveText (Sample.meme ++ Sample.LF))
           (mkDb NoFile true false false) Sample.time 1
           [Error (InitFailed PermissionError);
            Error (InitFailed PermissionError);
            Error (UpdateFailed OperationalError)]) /\
  exit_status (fst (main 1 Sample.unwritable_world)) = Some 0.
Proof.
  split; [|split; vm_compute; reflexivity].
  intros fuel w. rewrite main_run.
  destruct (config w) as [i|]; [|discriminate].
  assert (L : forall w1, fst (match consume_messages_from_file fuel i 0 w1 with
                              | (Ok _, w') => (Ok tt, w')
                              | (Raise e, w') => (Ok tt, add_event w' (Error (Unexpected e)))
                              | (SysExit c, w') => (SysExit c, w')
                              | (OutOfFuel, w') => (OutOfFuel, w')
                              end) <> SysExit 3).
  { intros w1. pose proof (consume_outcome fuel i 0 w1) as O.
    destruct (consume_messages_from_file fuel i 0 w1) as [[v|e|c|] w'];
      cbn [fst] in *; try discriminate.
    intros E. inversion E; subst. destruct O as [[O _]|[O _]]; discriminate. }
  destruct (file (db w)); [destruct (unlink_ok (db w)); apply L|].
  destruct (unlink_ok (db w)); [apply L|discriminate].
Qed.

(* ================================================================== *)
(** * A failing update                                                 *)
(* ================================================================== *)

(** C10.  When the storage block of [update_keyword_count] raises, the
    function logs the error and returns, the table is as it was, and
    the loop over the lines goes on with the next line. *)
Theorem storage_error_is_contained
        (hour : Z) (keyword : pyval) (w : World) (e : exn) :
  fst (Sql.connect (upsert hour keyword (time_at w (clock w))) (tick w)) = Raise e ->
  fst (update_keyword_count hour keyword w) = Ok tt /\
  stored (snd (update_keyword_count hour keyword w)) = stored w /\
  log (snd (update_keyword_count hour keyword w)) = log w ++ [Error (UpdateFailed e)] /\
  forall line rest message,
    Text.is_empty (Text.strip line) = false ->
    Json.loads (Text.strip line) = Some message ->
    process_message message w = (Ok (Some (mkProcessed hour keyword)), w) ->
    for_lines (line :: rest) w =
    for_lines rest (snd (update_keyword_count hour keyword w)).
Proof.
  intros H. split; [apply update_keyword_count_returns|].
  split; [|split].
  - rewrite update_keyword_count_run. unfold Sql.connect in H.
    cbn [db tick open_ok] in H. change (stored (tick w)) with (stored w) in H.
    destruct (open_ok (db w)); [|reflexivity].
    destruct (upsert hour keyword (time_at w (clock w)) (stored w));
      [discriminate|reflexivity].
  - rewrite update_keyword_count_run. unfold Sql.connect in H.
    cbn [db tick open_ok] in H. change (stored (tick w)) with (stored w) in H.
    destruct (open_ok (db w)); [|cbn in H; inversion H; reflexivity].
    destruct (upsert hour keyword (time_at w (clock w)) (stored w));
      [discriminate|cbn in H; inversion H; reflexivity].
  - intros line rest message B L P. cbn [for_lines]. unfold bind at 1.
    rewrite (consume_line_decoded line message w B L), P.
    cbn [pd_hour_of_day pd_keyword].
    rewrite update_keyword_count_eta. reflexivity.
Qed.

Lemma storage_error_is_contained_witness :
  let w := Sample.with_table [Sample.meme_row 4] in
  fst (Sql.connect (upsert 14 (PList [PStr "meme"]) (time_at w (clock w))) (tick w))
  = Raise ProgrammingError /\
  stored (snd (update_keyword_count 14 (PList [PStr "meme"]) w))
  = Some [Sample.meme_row 4] /\
  for_lines [Sample.list_keyword; Sample.meme] w =
  for_lines [Sample.meme] (snd (update_keyword_count 14 (PList [PStr "meme"]) w)).
Proof.
  intros w.
  assert (H : fst (Sql.connect (upsert 14 (PList [PStr "meme"]) (time_at w (clock w)))
                               (tick w)) = Raise ProgrammingError) by reflexivity.
  split; [exact H|]. split.
  - exact (proj1 (proj2 (storage_error_is_contained 14 (PList [PStr "meme"]) w _ H))).
  - apply (proj2 (proj2 (proj2 (storage_error_is_contained
                                  14 (PList [PStr "meme"]) w _ H)))
                 Sample.list_keyword [Sample.meme]
                 (PDict [("timestamp", PStr "2025-01-29 14:35:20");
                         ("keyword_mentioned", PList [PStr "meme"])]));
      reflexivity.
Defined.

(* ================================================================== *)
(** * Two runs of the specification                                    *)
(* ================================================================== *)

(** A file of one message line: one row, counted once. *)
Example one_line_one_row :
  main 1 (Sample.world (Sample.meme ++ Sample.LF)) =
  (Ok tt,
   mkWorld (Some 5) (LiveText (Sample.meme ++ Sample.LF))
           (mkDb (File (Some [mkRow 1 14 (Some "meme") 1 "2025-02-01 09:00:10"]))
                 true true true)
           Sample.time 1 []).
Proof. vm_compute. reflexivity. Qed.

(** The same line twice: one row, counted twice, updated at the second
    reading of the clock. *)
Example two_lines_one_row :
  stored (snd (main 1 (Sample.world
                         (Sample.meme ++ Sample.LF ++ Sample.meme ++ Sample.LF)))) =
  Some [mkRow 1 14 (Some "meme") 2 "2025-02-01 09:00:11"].
Proof. vm_compute. reflexivity. Qed.

(* ================================================================== *)
(** * What a pass counts                                               *)
(* ================================================================== *)

Lemma stored_count_null_row t z hour now hour' k' :
  Table.stored_count (t ++ [mkRow z hour None 1 now]) hour' k' =
  Table.stored_count t hour' k'.
Proof.
  unfold Table.stored_count. rewrite find_app_one.
  destruct (find (Sql.matches hour' (Some k')) t); [reflexivity|].
  unfold Sql.matches. cbn. rewrite andb_false_r. reflexivity.
Qed.

(** What one call adds to the count of a key, whatever the keyword. *)
Lemma update_keyword_count_adds (w : World) (hour : Z) (keyword : pyval) (t : table) :
  open_ok (db w) = true -> stored w = Some t -> Table.in_int64 hour ->
  exists t',
    stored (snd (update_keyword_count hour keyword w)) = Some t' /\
    forall hour' k',
      Table.stored_count t' hour' k' =
      Table.stored_count t hour' k'
      + match Sql.bind_text keyword with
        | Sql.Done (Some k) => if (hour =? hour') && String.eqb k k' then 1 else 0
        | _ => 0
        end.
Proof.
  intros Ho Hs Hh. rewrite update_keyword_count_run, Ho, Hs.
  destruct (Sql.bind_text keyword) as [[k|]|e] eqn:B.
  - rewrite (upsert_bound_text _ _ _ k t Hh B). cbn [snd].
    eexists. split; [reflexivity|]. intros. apply stored_count_upserted.
  - rewrite (upsert_bound_null _ _ _ t Hh B). cbn [snd].
    eexists. split; [reflexivity|]. intros.
    rewrite stored_count_null_row. lia.
  - destruct (upsert_unbound (time_at w (clock w)) hour keyword e (Some t) B) as [e' E].
    rewrite E. cbn [snd]. exists t. split; [reflexivity|]. intros. lia.
Qed.

Lemma consume_line_adds (line : string) (w : World) (t : table) :
  open_ok (db w) = true -> stored w = Some t ->
  fst (consume_line line w) = Ok tt ->
  open_ok (db (snd (consume_line line w))) = true /\
  exists t',
    stored (snd (consume_line line w)) = Some t' /\
    forall hour k,
      Table.stored_count t' hour k =
      Table.stored_count t hour k + (if observes hour k line then 1 else 0).
Proof.
  intros Ho Hs Hr.
  split.
  { destruct (Steady_consume_line line w) as [_ [_ [_ [_ [_ [H _]]]]]]. congruence. }
  unfold observes, line_key.
  destruct (Text.is_empty (Text.strip line)) eqn:B.
  { rewrite consume_line_blank by assumption. exists t. split; [exact Hs|]. intros; lia. }
  destruct (Json.loads (Text.strip line)) as [message|] eqn:L.
  2:{ rewrite consume_line_undecodable in Hr by assumption. discriminate. }
  rewrite (consume_line_decoded line message w B L).
  destruct (process_message_run message w) as [es [R _]]. rewrite R.
  destruct (result_of message) as [pd|] eqn:P.
  - destruct (result_of_valid message pd P) as [Hh _].
    assert (Hi : Table.in_int64 (pd_hour_of_day pd))
      by (unfold Table.in_int64, Sql.min_int64, Sql.max_int64; lia).
    destruct (update_keyword_count_adds (logging w es) (pd_hour_of_day pd)
                (pd_keyword pd) t Ho Hs Hi) as [t' [S C]].
    exists t'. split; [exact S|]. intros hour k. rewrite C.
    destruct (Sql.bind_text (pd_keyword pd)) as [[k0|]|e]; reflexivity.
  - exists t. split; [exact Hs|]. intros; lia.
Qed.

Lemma for_lines_adds (lines : list string) :
  forall (w : World) (t : table),
    open_ok (db w) = true -> stored w = Some t ->
    fst (for_lines lines w) = Ok tt ->
    exists t',
      stored (snd (for_lines lines w)) = Some t' /\
      forall hour k,
        Table.stored_count t' hour k =
        Table.stored_count t hour k
        + Z.of_nat (length (filter (observes hour k) lines)).
Proof.
  induction lines as [|line rest IH]; intros w t Ho Hs Hr.
  - exists t. split; [exact Hs|]. intros; cbn; lia.
  - cbn [for_lines] in *. unfold bind in *.
    destruct (consume_line_outcome line w) as [[O _]|[R _]].
    2:{ rewrite R in Hr. discriminate. }
    destruct (consume_line_adds line w t Ho Hs O) as [Ho' [t1 [S1 C1]]].
    destruct (consume_line line w) as [r w1]. cbn [fst snd] in *. subst r.
    destruct (IH w1 t1 Ho' S1 Hr) as [t' [S' C']].
    exists t'. split; [exact S'|]. intros hour k.
    rewrite C', C1. cbn [filter].
    destruct (observes hour k line); cbn [length]; lia.
Qed.

(** X1.  After a cycle that returns, in a database location that can
    be used, over a file without float keywords, the count stored for
    an hour and a keyword text is the number of lines of the file
    whose message gives that hour and a keyword bound to that text. *)
Theorem cycle_counts_lines
        (fuel : nat) (interval_secs : Z) (last_position : nat) (w : World)
        (content : string) (v : nat) :
  mkdir_ok (db w) = true -> open_ok (db w) = true ->
  live w = LiveText content ->
  Forall (fun line => float_keyword line = false) (Text.readlines content) ->
  fst (consume_messages_from_file (S fuel) interval_secs last_position w) = Ok v ->
  exists t,
    stored (snd (consume_messages_from_file (S fuel) interval_secs last_position w))
    = Some t /\
    forall hour k,
      Table.stored_count t hour k =
      Z.of_nat (length (filter (observes hour k) (Text.readlines content))).
Proof.
  intros Hm Ho Hl _ Hv.
  destruct (consume_returned fuel interval_secs last_position w v Hv)
    as [content' [Hc [_ F]]].
  rewrite Hl in Hc. inversion Hc; subst content'. clear Hc.
  rewrite (init_fresh w Hm Ho) in F. cbn [snd] in F.
  destruct (for_lines_adds (Text.readlines content) (set_file w (File (Some []))) []
              Ho eq_refl) as [t [S C]].
  { rewrite F. reflexivity. }
  rewrite F in S. cbn [snd] in S.
  exists t. split; [exact S|]. intros hour k. rewrite C. reflexivity.
Qed.

Lemma cycle_counts_lines_witness :
  (mkdir_ok (db (Sample.world Sample.mixed_file)) = true /\
   open_ok (db (Sample.world Sample.mixed_file)) = true /\
   Forall (fun line => float_keyword line = false)
          (Text.readlines Sample.mixed_file) /\
   fst (consume_messages_from_file 1 5 0 (Sample.world Sample.mixed_file))
   = Ok 135%nat) /\
  (exists t,
     stored (snd (consume_messages_from_file
                    1 5 0 (Sample.world Sample.mixed_file))) = Some t /\
     forall hour k,
       Table.stored_count t hour k =
       Z.of_nat (length (filter (observes hour k)
                                (Text.readlines Sample.mixed_file)))) /\
  length (filter (observes 14 "meme") (Text.readlines Sample.mixed_file)) = 2%nat.
Proof.
  assert (Hf : Forall (fun line => float_keyword line = false)
                      (Text.readlines Sample.mixed_file))
    by (repeat constructor).
  split; [repeat split; try reflexivity; exact Hf|]. split.
  - exact (cycle_counts_lines 0 5 0 (Sample.world Sample.mixed_file)
             Sample.mixed_file 135 eq_refl eq_refl eq_refl Hf eq_refl).
  - vm_compute. reflexivity.
Defined.

(* ================================================================== *)
(** * What a cycle depends on                                          *)
(* ================================================================== *)

Lemma counted_matches hour kw r r' :
  counted r = counted r' -> Sql.matches hour kw r = Sql.matches hour kw r'.
Proof.
  unfold counted, Sql.matches. intros H. inversion H as [[H1 H2 H3 H4]].
  rewrite H2, H3. reflexivity.
Qed.

Lemma cons_eq_inv {A} (a b : A) (l l' : list A) :
  a :: l = b :: l' -> a = b /\ l = l'.
Proof. intros H. inversion H. auto. Qed.

Lemma counted_rowcount hour kw t :
  forall t', map counted t = map counted t' ->
             Sql.rowcount hour kw t = Sql.rowcount hour kw t'.
Proof.
  unfold Sql.rowcount.
  induction t as [|r t IH]; intros [|r' t'] H; try discriminate; [reflexivity|].
  cbn [map] in H. apply cons_eq_inv in H. destruct H as [Hr Ht]. cbn [filter].
  rewrite (counted_matches hour kw r r' Hr).
  destruct (Sql.matches hour kw r'); cbn [length]; rewrite (IH t' Ht); reflexivity.
Qed.

Lemma counted_update_rows now now' hour kw t :
  forall t', map counted t = map counted t' ->
             map counted (Sql.update_rows now hour kw t) =
             map counted (Sql.update_rows now' hour kw t').
Proof.
  unfold Sql.update_rows.
  induction t as [|r t IH]; intros [|r' t'] H; try discriminate; [reflexivity|].
  cbn [map] in H. apply cons_eq_inv in H. destruct H as [Hr Ht]. cbn [map].
  rewrite (IH t' Ht), (counted_matches hour kw r r' Hr).
  f_equal. unfold counted in *. inversion Hr as [[H1 H2 H3 H4]].
  destruct (Sql.matches hour kw r'); cbn; congruence.
Qed.

Lemma counted_next_rowid t :
  forall t', map counted t = map counted t' -> Sql.next_rowid t = Sql.next_rowid t'.
Proof.
  unfold Sql.next_rowid.
  induction t as [|r t IH]; intros [|r' t'] H; try discriminate; [reflexivity|].
  cbn [map] in H. apply cons_eq_inv in H. destruct H as [Hr Ht]. cbn [fold_right].
  specialize (IH t' Ht). unfold counted in Hr. inversion Hr as [[H1 H2 H3 H4]].
  rewrite H1. lia.
Qed.

(** The statements of [update_keyword_count] see the times of the
    rows nowhere. *)
Lemma upsert_same_counts hour keyword now now' (c c' : option table) :
  option_map (map counted) c = option_map (map counted) c' ->
  match upsert hour keyword now c, upsert hour keyword now' c' with
  | Sql.Done d, Sql.Done d' => option_map (map counted) d = option_map (map counted) d'
  | Sql.Failed e, Sql.Failed e' => e = e'
  | _, _ => False
  end.
Proof.
  intros H. unfold upsert, Sql.execute_update, Sql.execute_insert.
  destruct c as [t|], c' as [t'|]; try discriminate; [|reflexivity].
  cbn in H. inversion H as [Ht].
  destruct (Sql.bind_int hour) as [h|e]; [|reflexivity].
  destruct (Sql.bind_text keyword) as [k|e]; [|reflexivity].
  rewrite (counted_rowcount h k t t' Ht).
  pose proof (counted_update_rows now now' h k t t' Ht) as Hu.
  destruct (Sql.rowcount h k t' =? 0)%nat; cbn [option_map].
  - rewrite !map_app, Hu. cbn [map]. do 3 f_equal.
    rewrite (counted_next_rowid _ _ Hu). reflexivity.
  - rewrite Hu. reflexivity.
Qed.

Lemma update_keyword_count_same_counts (hour : Z) (keyword : pyval) (w w' : World) :
  same_counts w w' ->
  same_counts (snd (update_keyword_count hour keyword w))
              (snd (update_keyword_count hour keyword w')).
Proof.
  unfold same_counts. intros [Ho Hs].
  rewrite !update_keyword_count_run, Ho.
  destruct (open_ok (db w)) eqn:E; [|split; [cbn; congruence|exact Hs]].
  pose proof (upsert_same_counts hour keyword (time_at w' (clock w'))
                (time_at w (clock w)) _ _ Hs) as U.
  destruct (upsert hour keyword (time_at w (clock w)) (stored w)) as [d|e],
           (upsert hour keyword (time_at w' (clock w')) (stored w')) as [d'|e'];
    try contradiction; cbn [snd].
  - split; [cbn; congruence|exact U].
  - split; [cbn; congruence|exact Hs].
Qed.

Lemma consume_line_same_counts (line : string) (w w' : World) :
  same_counts w w' ->
  fst (consume_line line w') = fst (consume_line line w) /\
  same_counts (snd (consume_line line w)) (snd (consume_line line w')).
Proof.
  intros H.
  destruct (Text.is_empty (Text.strip line)) eqn:B.
  { rewrite !consume_line_blank by assumption. auto. }
  destruct (Json.loads (Text.strip line)) as [message|] eqn:L.
  2:{ rewrite !consume_line_undecodable by assumption. auto. }
  rewrite !(consume_line_decoded line message _ B L).
  destruct (process_message_run message w) as [es [R _]].
  destruct (process_message_run message w') as [es' [R' _]].
  rewrite R, R'.
  destruct (result_of message) as [pd|]; [|auto].
  rewrite !update_keyword_count_returns. split; [reflexivity|].
  apply update_keyword_count_same_counts. exact H.
Qed.

Lemma for_lines_same_counts (lines : list string) :
  forall w w',
    same_counts w w' ->
    fst (for_lines lines w') = fst (for_lines lines w) /\
    same_counts (snd (for_lines lines w)) (snd (for_lines lines w')).
Proof.
  induction lines as [|line rest IH]; intros w w' H; [auto|].
  cbn [for_lines]. unfold bind.
  destruct (consume_line_same_counts line w w' H) as [F S].
  destruct (consume_line line w) as [r w1], (consume_line line w') as [r' w1'].
  cbn [fst snd] in *. subst r'.
  destruct r as [[]|e|c|]; auto.
Qed.

(** X2.  In database locations that can be used, how a cycle ends and
    the ids, keys and counts it leaves depend on the live data file
    alone: not on what the database held before, nor on the clock, the
    interval, [last_position] or the bound on iterations. *)
Theorem cycle_depends_on_file_only
        (fuel fuel' : nat) (interval_secs interval_secs' : Z)
        (last_position last_position' : nat) (w w' : World) :
  mkdir_ok (db w) = true -> open_ok (db w) = true ->
  mkdir_ok (db w') = true -> open_ok (db w') = true ->
  live w' = live w ->
  fst (consume_messages_from_file (S fuel') interval_secs' last_position' w') =
  fst (consume_messages_from_file (S fuel) interval_secs last_position w) /\
  option_map (map counted)
    (stored (snd (consume_messages_from_file
                    (S fuel') interval_secs' last_position' w'))) =
  option_map (map counted)
    (stored (snd (consume_messages_from_file
                    (S fuel) interval_secs last_position w))).
Proof.
  intros Hm Ho Hm' Ho' Hl.
  rewrite !consume_messages_from_file_run, Hl.
  rewrite (init_fresh w Hm Ho), (init_fresh w' Hm' Ho'). cbn [snd].
  destruct (live w) as [| |content]; [auto|auto|].
  assert (S0 : same_counts (set_file w (File (Some []))) (set_file w' (File (Some [])))).
  { split; [cbn; congruence|reflexivity]. }
  destruct (for_lines_same_counts (Text.readlines content) _ _ S0) as [F [_ S]].
  destruct (for_lines (Text.readlines content) (set_file w (File (Some []))))
    as [r w1],
    (for_lines (Text.readlines content) (set_file w' (File (Some []))))
    as [r' w1'].
  cbn [fst snd] in *. subst r'.
  destruct r as [[]|e|c|]; cbn [fst snd]; auto.
Qed.

Lemma cycle_depends_on_file_only_witness :
  (mkdir_ok (db (Sample.world Sample.unterminated_file)) = true /\
   open_ok (db (Sample.world Sample.unterminated_file)) = true /\
   mkdir_ok (db (snd (consume_messages_from_file
                        1 5 0 (Sample.world Sample.unterminated_file)))) = true /\
   open_ok (db (snd (consume_messages_from_file
                       1 5 0 (Sample.world Sample.unterminated_file)))) = true /\
   live (snd (consume_messages_from_file
                1 5 0 (Sample.world Sample.unterminated_file))) =
   live (Sample.world Sample.unterminated_file)) /\
  option_map (map counted)
    (stored (snd (consume_messages_from_file
                    3 9 131
                    (snd (consume_messages_from_file
                            1 5 0 (Sample.world Sample.unterminated_file)))))) =
  option_map (map counted)
    (stored (snd (consume_messages_from_file
                    1 5 0 (Sample.world Sample.unterminated_file)))).
Proof.
  split; [repeat split; reflexivity|].
  exact (proj2 (cycle_depends_on_file_only
                  0 2 5 9 0 131
                  (Sample.world Sample.unterminated_file)
                  (snd (consume_messages_from_file
                          1 5 0 (Sample.world Sample.unterminated_file)))
                  eq_refl eq_refl eq_refl eq_refl eq_refl)).
Defined.

(* ================================================================== *)
(** * How [main] ends                                                  *)
(* ================================================================== *)

(** A pass ends normally exactly when every line is blank or JSON. *)
Lemma for_lines_fst (lines : list string) :
  forall w,
    fst (for_lines lines w) =
    if forallb decodable lines then Ok tt else Raise JSONDecodeError.
Proof.
  induction lines as [|line rest IH]; intros w; [reflexivity|].
  cbn [for_lines forallb]. unfold bind, decodable at 1.
  destruct (consume_line_outcome line w) as [[O D]|[R [B L]]].
  - destruct (consume_line line w) as [r w1]. cbn [fst] in O. subst r.
    rewrite IH.
    destruct D as [D|D]; [rewrite D; reflexivity|].
    destruct (Json.loads (Text.strip line)); [|congruence].
    rewrite orb_true_r. reflexivity.
  - rewrite R, B, L. reflexivity.
Qed.

Lemma set_file_same (w : World) : file (db w) = NoFile -> set_file w NoFile = w.
Proof.
  destruct w as [c l [f u m o] ti cl lg]. cbn. intros ->. reflexivity.
Qed.

(** X3.  The two early exits of [main] touch nothing.  When the
    configuration cannot be read the process ends with status 1, and
    when the previous database file is there and cannot be deleted it
    ends with status 2; in both cases one error is logged and that is
    all: the database file keeps what it held, the clock is not read
    and the live data file is not consumed. *)
Theorem main_early_exits (fuel : nat) (w : World) :
  (config w = None ->
   exists e,
     main fuel w = (SysExit 1, add_event w (Error (EnvFailed e)))) /\
  (config w <> None ->
   (exists c, file (db w) = File c) ->
   unlink_ok (db w) = false ->
   exists e,
     main fuel w = (SysExit 2, add_event w (Error (DeleteFailed e)))).
Proof.
  split.
  - intros Hc. exists ValueError.
    unfold main, bind, try_except, read_config, log_error, sys_exit.
    rewrite Hc. reflexivity.
  - intros Hc [c Hf] Hu. exists PermissionError.
    unfold main, bind, try_except, read_config, db_exists, unlink, log_error, sys_exit.
    destruct (config w) as [i|]; [|congruence].
    rewrite Hf, Hu. reflexivity.
Qed.

Lemma main_early_exits_witness :
  let no_config :=
    mkWorld None (LiveText Sample.meme) Sample.empty_db Sample.time 0 [] in
  let kept :=
    mkWorld (Some 5) (LiveText Sample.meme)
            (mkDb (File (Some [Sample.meme_row 4])) false true true)
            Sample.time 0 [] in
  (config no_config = None /\ config kept <> None /\
   (exists c, file (db kept) = File c) /\ unlink_ok (db kept) = false) /\
  (exists e, main 1 no_config = (SysExit 1, add_event no_config (Error (EnvFailed e)))) /\
  (exists e, main 1 kept = (SysExit 2, add_event kept (Error (DeleteFailed e)))) /\
  stored (snd (main 1 kept)) = Some [Sample.meme_row 4].
Proof.
  intros no_config kept.
  assert (Hc : config kept <> None) by discriminate.
  assert (Hf : exists c, file (db kept) = File c) by (eexists; reflexivity).
  split; [repeat split; try reflexivity; assumption|].
  split; [exact (proj1 (main_early_exits 1 no_config) eq_refl)|].
  split; [exact (proj2 (main_early_exits 1 kept) Hc Hf eq_refl)|].
  reflexivity.
Defined.

(** X4.  Once the configuration is read, a database file that can be
    deleted has no part in a run: [main] does in a world that holds
    one what it does in the same world without it. *)
Theorem main_starts_afresh (fuel : nat) (w : World) :
  config w <> None ->
  unlink_ok (db w) = true ->
  main fuel w = main fuel (set_file w NoFile).
Proof.
  intros Hc Hu. rewrite !main_run. cbn [config set_file db file unlink_ok].
  rewrite Hu. destruct (config w) as [i|]; [|congruence].
  destruct (file (db w)) as [|t] eqn:F; [|reflexivity].
  cbv zeta. rewrite (set_file_same w F). reflexivity.
Qed.

Lemma main_starts_afresh_witness :
  (config (Sample.with_table [Sample.meme_row 4]) <> None /\
   unlink_ok (db (Sample.with_table [Sample.meme_row 4])) = true) /\
  main 1 (Sample.with_table [Sample.meme_row 4]) =
  main 1 (set_file (Sample.with_table [Sample.meme_row 4]) NoFile).
Proof.
  assert (Hc : config (Sample.with_table [Sample.meme_row 4]) <> None)
    by discriminate.
  split; [split; [exact Hc|reflexivity]|].
  exact (main_starts_afresh 1 (Sample.with_table [Sample.meme_row 4]) Hc eq_refl).
Defined.

(* ================================================================== *)
(** * A run without a table                                            *)
(* ================================================================== *)

Lemma update_keyword_count_no_table (hour : Z) (keyword : pyval) (w : World) :
  stored w = None ->
  stored (snd (update_keyword_count hour keyword w)) = None.
Proof.
  intros Hs. rewrite update_keyword_count_run, Hs.
  destruct (open_ok (db w)); [|exact Hs]. reflexivity.
Qed.

Lemma consume_line_no_table (line : string) (w : World) :
  stored w = None -> stored (snd (consume_line line w)) = None.
Proof.
  intros Hs.
  destruct (Text.is_empty (Text.strip line)) eqn:B.
  { rewrite consume_line_blank by assumption. exact Hs. }
  destruct (Json.loads (Text.strip line)) as [message|] eqn:L.
  2:{ rewrite consume_line_undecodable by assumption. exact Hs. }
  rewrite (consume_line_decoded line message w B L).
  destruct (process_message_run message w) as [es [R _]]. rewrite R.
  destruct (result_of message) as [pd|]; [|exact Hs].
  apply update_keyword_count_no_table. exact Hs.
Qed.

Lemma for_lines_no_table (lines : list string) :
  forall w, stored w = None -> stored (snd (for_lines lines w)) = None.
Proof.
  induction lines as [|line rest IH]; intros w Hs; [exact Hs|].
  cbn [for_lines]. unfold bind.
  pose proof (consume_line_no_table line w Hs) as H1.
  destruct (consume_line line w) as [[[]|e|c|] w1]; cbn [snd] in *; auto.
Qed.

Lemma consume_no_table (fuel : nat) (interval_secs : Z) (last_position : nat)
      (w : World) :
  stored w = None ->
  mkdir_ok (db w) = false \/ open_ok (db w) = false ->
  stored (snd (consume_messages_from_file fuel interval_secs last_position w)) = None.
Proof.
  intros Hs Hf.
  assert (Hi : stored (snd (init_keyword_db w)) = None).
  { rewrite init_keyword_db_run.
    destruct (mkdir_ok (db w)); [|exact Hs].
    destruct Hf as [Hf|Hf]; [discriminate|]. rewrite Hf. exact Hs. }
  destruct fuel as [|fuel].
  - unfold consume_messages_from_file.
    rewrite (bind_ok _ _ _ _ _ (init_keyword_db_returns w)). exact Hi.
  - rewrite consume_messages_from_file_run.
    destruct (live w) as [| |content]; try exact Hi.
    pose proof (for_lines_no_table (Text.readlines content) _ Hi) as H.
    destruct (for_lines (Text.readlines content) (snd (init_keyword_db w)))
      as [[[]|e|c|] w1]; exact H.
Qed.

(** X5.  When the table cannot be initialized, because the directory
    of the database cannot be made or the database cannot be opened, a
    run of [main] that gets to the file ends without a table: nothing
    of what it reads is stored. *)
Theorem main_without_table_stores_nothing (fuel : nat) (w : World) :
  config w <> None ->
  file (db w) = NoFile \/ unlink_ok (db w) = true ->
  mkdir_ok (db w) = false \/ open_ok (db w) = false ->
  stored (snd (main fuel w)) = None.
Proof.
  intros Hc Hd Hf. rewrite main_run.
  destruct (config w) as [i|]; [|congruence].
  assert (T : forall w1,
             stored w1 = None ->
             mkdir_ok (db w1) = false \/ open_ok (db w1) = false ->
             stored (snd (match consume_messages_from_file fuel i 0
                                  (snd (init_keyword_db w1)) with
                          | (Ok _, w') => (Ok tt, w')
                          | (Raise e, w') => (Ok tt, add_event w' (Error (Unexpected e)))
                          | (SysExit c, w') => (SysExit c, w')
                          | (OutOfFuel, w') => (OutOfFuel, w')
                          end)) = None).
  { intros w1 Hs Hf1.
    destruct (Steady_init_keyword_db w1) as [_ [_ [_ [_ [Hm [Ho _]]]]]].
    assert (Hi : stored (snd (init_keyword_db w1)) = None).
    { rewrite init_keyword_db_run.
      destruct (mkdir_ok (db w1)); [|exact Hs].
      destruct Hf1 as [Hf1|Hf1]; [discriminate|]. rewrite Hf1. exact Hs. }
    pose proof (consume_no_table fuel i 0 (snd (init_keyword_db w1)) Hi) as C.
    rewrite Hm, Ho in C. specialize (C Hf1).
    destruct (consume_messages_from_file fuel i 0 (snd (init_keyword_db w1)))
      as [[v|e|c|] w2]; exact C. }
  destruct (file (db w)) as [|t] eqn:F.
  - cbv zeta. destruct (unlink_ok (db w)); apply T; auto;
      unfold stored; rewrite F; reflexivity.
  - destruct Hd as [Hd|Hd]; [discriminate|]. rewrite Hd. cbv zeta.
    apply T; [reflexivity|exact Hf].
Qed.

Lemma main_without_table_stores_nothing_witness :
  (config Sample.unwritable_world <> None /\
   file (db Sample.unwritable_world) = NoFile /\
   mkdir_ok (db Sample.unwritable_world) = false) /\
  stored (snd (main 1 Sample.unwritable_world)) = None.
Proof.
  assert (Hc : config Sample.unwritable_world <> None) by discriminate.
  split; [repeat split; try reflexivity; exact Hc|].
  exact (main_without_table_stores_nothing 1 Sample.unwritable_world
           Hc (or_introl eq_refl) (or_introl eq_refl)).
Defined.

(* ================================================================== *)
(** * What [process_message] gives and logs                            *)
(* ================================================================== *)

(** X6.  A result of [process_message] carries an hour of the day,
    from 0 to 23, and a keyword that is true, and nothing was logged
    for it. *)
Theorem process_message_gives_observation
        (message : pyval) (w w' : World) (pd : processed) :
  process_message message w = (Ok (Some pd), w') ->
  w' = w /\ 0 <= pd_hour_of_day pd <= 23 /\ truthy (pd_keyword pd) = true.
Proof.
  intros H. split; [|exact (process_message_valid message w w' pd H)].
  destruct (process_message_logs message w) as [r [es [R [_ [N|N]]]]];
    rewrite R in H; inversion H; subst; [discriminate|].
  apply logging_nil.
Qed.

Lemma process_message_gives_observation_witness :
  process_message
    (PDict [("timestamp", PStr "2025-01-29 23:59:59"); ("keyword_mentioned", PInt 7)])
    (Sample.world "") =
  (Ok (Some (mkProcessed 23 (PInt 7))), Sample.world "") /\
  0 <= 23 <= 23 /\ truthy (PInt 7) = true.
Proof.
  split; [reflexivity|].
  exact (proj2 (process_message_gives_observation
                  (PDict [("timestamp", PStr "2025-01-29 23:59:59");
                          ("keyword_mentioned", PInt 7)])
                  (Sample.world "") (Sample.world "")
                  (mkProcessed 23 (PInt 7)) eq_refl)).
Defined.

(** X7.  [process_message] never raises, whatever JSON value it is
    given, and changes nothing but the log: it logs nothing with a
    result, and without one a single entry: the AttributeError of a
    value that is not a dict, the warning of a field that is absent or
    empty, the TypeError of a timestamp that is not text, or the
    ValueError of one that does not parse. *)
Theorem process_message_is_contained (message : pyval) (w : World) :
  exists r es,
    process_message message w = (Ok r, logging w es) /\
    match r with
    | Some _ => es = []
    | None =>
        match message with
        | PDict _ =>
            es = [Warning MissingField] \/
            es = [Error (ProcessingError TypeError)] \/
            es = [Error (ProcessingError ValueError)]
        | _ => es = [Error (ProcessingError AttributeError)]
        end
    end.
Proof.
  destruct message;
    try solve [exists None; eexists; rewrite process_message_not_dict by discriminate;
               rewrite <- logging_one; split; reflexivity].
  rewrite process_message_dict.
  destruct (negb (truthy (field d "timestamp"))
            || negb (truthy (field d "keyword_mentioned"))).
  { exists None; eexists; rewrite <- logging_one; split; [reflexivity|auto]. }
  destruct (field d "timestamp");
    try solve [exists None; eexists; rewrite <- logging_one; split; [reflexivity|auto]].
  destruct (Strptime.strptime s).
  - eexists; exists []. rewrite logging_nil. split; reflexivity.
  - exists None; eexists; rewrite <- logging_one; split; [reflexivity|auto].
Qed.

(* ================================================================== *)
(** * Blank lines                                                      *)
(* ================================================================== *)





(* ================================================================== *)
(** * The ids of the rows                                              *)
(* ================================================================== *)

Lemma next_rowid_map (t : table) :
  Sql.next_rowid t = 1 + fold_right Z.max 0 (map rowid t).
Proof.
  unfold Sql.next_rowid. f_equal.
  induction t as [|r t IH]; cbn; [reflexivity|rewrite IH; reflexivity].
Qed.

Lemma fold_max_seq (n : nat) :
  forall a, fold_right Z.max 0 (map Z.of_nat (seq a n)) =
            match n with O => 0 | S _ => Z.of_nat (a + n - 1) end.
Proof.
  induction n as [|n IH]; intros a; [reflexivity|].
  cbn [seq map fold_right]. rewrite IH. destruct n; lia.
Qed.

Lemma update_rows_rowids now hour kw t :
  map rowid (Sql.update_rows now hour kw t) = map rowid t.
Proof.
  unfold Sql.update_rows. induction t as [|r t IH]; cbn; [reflexivity|].
  rewrite IH. destruct (Sql.matches hour kw r); reflexivity.
Qed.

Lemma update_rows_length now hour kw t :
  length (Sql.update_rows now hour kw t) = length t.
Proof. unfold Sql.update_rows. apply length_map. Qed.

Lemma upserted_rowids now hour k t :
  map rowid t = map Z.of_nat (seq 1 (length t)) ->
  map rowid (Table.upserted now hour k t) =
  map Z.of_nat (seq 1 (length (Table.upserted now hour k t))).
Proof.
  intros H. unfold Table.upserted.
  destruct (Sql.rowcount hour (Some k) t =? 0)%nat.
  - rewrite map_app, length_app, seq_app, map_app, <- H. cbn [length map seq Nat.add].
    f_equal. f_equal. cbn [rowid].
    rewrite next_rowid_map, H, fold_max_seq. destruct (length t); lia.
  - rewrite update_rows_rowids, update_rows_length. exact H.
Qed.

(** X9.  In every state reached from the freshly initialized table by
    calls of [update_keyword_count], the ids of the rows are 1, 2, ...
    in the order of the rows, the order in which their keys were
    first seen. *)
Theorem reachable_rowids (w : World) :
  reachable w ->
  exists t,
    stored w = Some t /\ map rowid t = map Z.of_nat (seq 1 (length t)).
Proof.
  intros H.
  assert (G : open_ok (db w) = true /\
              exists t, stored w = Some t /\
                        map rowid t = map Z.of_nat (seq 1 (length t))).
  { induction H as [w Hm Ho|w hour k Hr [Ho [t [Hs Hi]]]].
    - rewrite (init_fresh w Hm Ho). cbn. split; [exact Ho|].
      exists []. split; reflexivity.
    - destruct (in_int64_dec hour) as [Hh|Hh].
      + rewrite (update_text_run w hour k t Ho Hs Hh). cbn [snd].
        split; [exact Ho|]. eexists. split; [reflexivity|].
        apply upserted_rowids. exact Hi.
      + rewrite update_keyword_count_run, Ho.
        destruct (upsert_overflow (time_at w (clock w)) hour (PStr k) (stored w) Hh)
          as [e He].
        rewrite He. cbn [snd]. split; [exact Ho|].
        exists t. split; [cbn; rewrite <- Hs; reflexivity|exact Hi]. }
  exact (proj2 G).
Qed.

Lemma reachable_rowids_witness :
  reachable (snd (update_keyword_count 9 (PStr "Python")
                    (snd (update_keyword_count 14 (PStr "meme")
                            (snd (init_keyword_db (Sample.world ""))))))) /\
  exists t,
    stored (snd (update_keyword_count 9 (PStr "Python")
                   (snd (update_keyword_count 14 (PStr "meme")
                           (snd (init_keyword_db (Sample.world ""))))))) = Some t /\
    map rowid t = map Z.of_nat (seq 1 (length t)).
Proof.
  assert (R : reachable
                (snd (update_keyword_count 9 (PStr "Python")
                        (snd (update_keyword_count 14 (PStr "meme")
                                (snd (init_keyword_db (Sample.world "")))))))).
  { apply reach_update, reach_update, reach_init; reflexivity. }
  split; [exact R|]. exact (reachable_rowids _ R).
Defined.

(* ================================================================== *)
(** * Rows are never lost                                              *)
(* ================================================================== *)

Lemma grows_refl (t : table) : grows t t.
Proof.
  exists t, []. split; [symmetry; apply app_nil_r|].
  induction t; constructor; auto. repeat split; lia.
Qed.

Lemma grows_trans (t1 t2 t3 : table) : grows t1 t2 -> grows t2 t3 -> grows t1 t3.
Proof.
  intros [k1 [a1 [E1 F1]]] [k2 [a2 [E2 F2]]]. subst t2 t3.
  apply Forall2_app_inv_l in F2. destruct F2 as [k2a [k2b [Fa [Fb E]]]]. subst k2.
  exists k2a, (k2b ++ a2). split; [symmetry; apply app_assoc|].
  clear Fb. revert k2a Fa. induction F1 as [|r r1 t k1 R1 F1 IH]; intros k2a Fa.
  - inversion Fa. constructor.
  - inversion Fa as [|r1' r2 l1 l2 R2 Fa' E1' E2']; subst.
    constructor; [|apply IH; exact Fa'].
    destruct R1 as [A1 [A2 [A3 A4]]], R2 as [B1 [B2 [B3 B4]]].
    repeat split; try congruence. lia.
Qed.

Lemma update_rows_grows now hour kw t :
  Forall2 (fun r r' =>
             rowid r' = rowid r /\ hour_of_day r' = hour_of_day r /\
             keyword r' = keyword r /\ count r <= count r')
          t (Sql.update_rows now hour kw t).
Proof.
  unfold Sql.update_rows. induction t as [|r t IH]; cbn; constructor; [|exact IH].
  destruct (Sql.matches hour kw r); cbn; repeat split; lia.
Qed.

Lemma upsert_grows hour keyword now t c' :
  upsert hour keyword now (Some t) = Sql.Done c' ->
  exists t', c' = Some t' /\ grows t t'.
Proof.
  unfold upsert, Sql.execute_update, Sql.execute_insert.
  destruct (Sql.bind_int hour) as [h|e]; [|discriminate].
  destruct (Sql.bind_text keyword) as [k|e]; [|discriminate].
  destruct (Sql.rowcount h k t =? 0)%nat; intros H; inversion H; subst;
    eexists; (split; [reflexivity|]).
  - eexists; eexists. split; [reflexivity|apply update_rows_grows].
  - exists (Sql.update_rows now h k t), []. split; [symmetry; apply app_nil_r|].
    apply update_rows_grows.
Qed.

Lemma update_keyword_count_grows (hour : Z) (keyword : pyval) (w : World) (t : table) :
  stored w = Some t ->
  exists t', stored (snd (update_keyword_count hour keyword w)) = Some t' /\ grows t t'.
Proof.
  intros Hs. rewrite update_keyword_count_run, Hs.
  destruct (open_ok (db w)).
  - destruct (upsert hour keyword (time_at w (clock w)) (Some t)) as [c'|e] eqn:U.
    + destruct (upsert_grows _ _ _ _ _ U) as [t' [E G]]. subst c'.
      exists t'. split; [reflexivity|exact G].
    + exists t. split; [reflexivity|apply grows_refl].
  - exists t. split; [exact Hs|apply grows_refl].
Qed.

Lemma consume_line_grows (line : string) (w : World) (t : table) :
  stored w = Some t ->
  exists t', stored (snd (consume_line line w)) = Some t' /\ grows t t'.
Proof.
  intros Hs.
  destruct (Text.is_empty (Text.strip line)) eqn:B.
  { rewrite consume_line_blank by assumption. exists t. split; [exact Hs|apply grows_refl]. }
  destruct (Json.loads (Text.strip line)) as [message|] eqn:L.
  2:{ rewrite consume_line_undecodable by assumption.
      exists t. split; [exact Hs|apply grows_refl]. }
  rewrite (consume_line_decoded line message w B L).
  destruct (process_message_run message w) as [es [R _]]. rewrite R.
  destruct (result_of message) as [pd|].
  - apply update_keyword_count_grows. exact Hs.
  - exists t. split; [exact Hs|apply grows_refl].
Qed.

(** X10.  A pass over lines never removes a row, never moves one,
    never changes its id or its key and never counts it down,
    whatever the lines hold and however the pass ends; it can only
    count rows up and add rows after them. *)
Theorem pass_never_shrinks (lines : list string) (w : World) (t : table) :
  stored w = Some t ->
  exists t', stored (snd (for_lines lines w)) = Some t' /\ grows t t'.
Proof.
  revert w t. induction lines as [|line rest IH]; intros w t Hs.
  - exists t. split; [exact Hs|apply grows_refl].
  - cbn [for_lines]. unfold bind.
    destruct (consume_line_grows line w t Hs) as [t1 [S1 G1]].
    destruct (consume_line line w) as [[[]|e|c|] w1]; cbn [snd] in *;
      try (exists t1; split; [exact S1|exact G1]).
    destruct (IH w1 t1 S1) as [t' [S' G']].
    exists t'. split; [exact S'|exact (grows_trans _ _ _ G1 G')].
Qed.

Lemma pass_never_shrinks_witness :
  stored (Sample.with_table [Sample.meme_row 4]) = Some [Sample.meme_row 4] /\
  exists t',
    stored (snd (for_lines [Sample.meme; "oops"; Sample.meme]
                           (Sample.with_table [Sample.meme_row 4]))) = Some t' /\
    grows [Sample.meme_row 4] t'.
Proof.
  split; [reflexivity|].
  exact (pass_never_shrinks [Sample.meme; "oops"; Sample.meme]
           (Sample.with_table [Sample.meme_row 4]) [Sample.meme_row 4] eq_refl).
Defined.

(* ================================================================== *)
(** * Times written and read                                           *)
(* ================================================================== *)

Lemma hd_rx_bind {A B} (p : Strptime.rx A) (f : A -> Strptime.rx B)
      (s : string) (a : A) (r : string) (y : B * string) :
  hd_error (p s) = Some (a, r) ->
  hd_error (f a r) = Some y ->
  hd_error (Strptime.bind p f s) = Some y.
Proof.
  unfold Strptime.bind. intros Hp Hf.
  destruct (p s) as [|[a' r'] l]; [discriminate|].
  cbn in Hp. inversion Hp; subst. cbn [flat_map].
  destruct (f a r) as [|y' l']; [discriminate|]. exact Hf.
Qed.

(** Case analysis on an integer between two bounds. *)
Ltac enum_pos p :=
  first [ lia | destruct p as [p|p|]; [enum_pos p|enum_pos p|try lia] ].

Ltac enum_range n :=
  destruct n as [|n|n]; [try lia|enum_pos n|lia].

Lemma digit_pad (d : Z) (rest : string) :
  0 <= d <= 9 ->
  hd_error (Strptime.digit (String (Strftime.digit_char d) rest)) = Some (d, rest).
Proof. intros H. enum_range d; reflexivity. Qed.

Lemma rx_m_pad2 (n : Z) (rest : string) :
  1 <= n <= 12 ->
  hd_error (Strptime.rx_m (Strftime.pad2 n ++ rest)%string) = Some (n, rest).
Proof. intros H. enum_range n; reflexivity. Qed.

Lemma rx_d_pad2 (n : Z) (rest : string) :
  1 <= n <= 31 ->
  hd_error (Strptime.rx_d (Strftime.pad2 n ++ rest)%string) = Some (n, rest).
Proof. intros H. enum_range n; reflexivity. Qed.

Lemma spaces_pad2 (n : Z) (rest : string) :
  0 <= n <= 23 ->
  hd_error (Strptime.spaces (" " ++ Strftime.pad2 n ++ rest)%string) =
  Some (tt, (Strftime.pad2 n ++ rest)%string).
Proof. intros H. enum_range n; reflexivity. Qed.

Lemma rx_H_pad2 (n : Z) (rest : string) :
  0 <= n <= 23 ->
  hd_error (Strptime.rx_H (Strftime.pad2 n ++ rest)%string) = Some (n, rest).
Proof. intros H. enum_range n; reflexivity. Qed.

Lemma rx_M_pad2 (n : Z) (rest : string) :
  0 <= n <= 59 ->
  hd_error (Strptime.rx_M (Strftime.pad2 n ++ rest)%string) = Some (n, rest).
Proof. intros H. enum_range n; reflexivity. Qed.

Lemma rx_S_pad2 (n : Z) (rest : string) :
  0 <= n <= 59 ->
  hd_error (Strptime.rx_S (Strftime.pad2 n ++ rest)%string) = Some (n, rest).
Proof. intros H. enum_range n; reflexivity. Qed.

Lemma rx_Y_pad4 (n : Z) (rest : string) :
  1000 <= n <= 9999 ->
  hd_error (Strptime.rx_Y (Strftime.pad4 n ++ rest)%string) = Some (n, rest).
Proof.
  intros H. unfold Strptime.rx_Y.
  change (Strftime.pad4 n ++ rest)%string
    with (String (Strftime.digit_char (n / 100 / 10))
            (String (Strftime.digit_char ((n / 100) mod 10))
               (String (Strftime.digit_char (n mod 100 / 10))
                  (String (Strftime.digit_char ((n mod 100) mod 10)) rest)))).
  eapply hd_rx_bind; [apply digit_pad; Z.div_mod_to_equations; lia|].
  eapply hd_rx_bind; [apply digit_pad; Z.div_mod_to_equations; lia|].
  eapply hd_rx_bind; [apply digit_pad; Z.div_mod_to_equations; lia|].
  eapply hd_rx_bind; [apply digit_pad; Z.div_mod_to_equations; lia|].
  cbn [Strptime.pure hd_error]. do 2 f_equal.
  Z.div_mod_to_equations. lia.
Qed.

Lemma days_in_month_le (y m : Z) : Strptime.days_in_month y m <= 31.
Proof.
  unfold Strptime.days_in_month.
  destruct (m =? 2); [destruct (Strptime.is_leap y); lia|].
  destruct ((m =? 4) || (m =? 6) || (m =? 9) || (m =? 11)); lia.
Qed.

(** [strptime] reads back what [strftime] writes, field for field. *)
Lemma strptime_strftime (t : Strptime.datetime) :
  Strftime.is_datetime t ->
  Strptime.strptime (Strftime.strftime t) = Some t.
Proof.
  destruct t as [Y m d H M S]. unfold Strftime.is_datetime.
  cbn [Strptime.year Strptime.month Strptime.day Strptime.hour
       Strptime.minute Strptime.second].
  intros [HY [Hm [Hd [HH [HM HS]]]]].
  pose proof (days_in_month_le Y m) as Hdm.
  assert (P : hd_error (Strptime.rx_format
                          (Strftime.strftime (Strptime.mkDatetime Y m d H M S)))
              = Some (Strptime.mkDatetime Y m d H M S, "")).
  { unfold Strptime.rx_format, Strftime.strftime.
    cbn [Strptime.year Strptime.month Strptime.day Strptime.hour
         Strptime.minute Strptime.second].
    rewrite <- (string_append_nil (Strftime.pad2 S)).
    eapply hd_rx_bind; [apply rx_Y_pad4; lia|].
    eapply hd_rx_bind; [reflexivity|].
    eapply hd_rx_bind; [apply rx_m_pad2; lia|].
    eapply hd_rx_bind; [reflexivity|].
    eapply hd_rx_bind; [apply rx_d_pad2; lia|].
    eapply hd_rx_bind; [apply spaces_pad2; lia|].
    eapply hd_rx_bind; [apply rx_H_pad2; lia|].
    eapply hd_rx_bind; [reflexivity|].
    eapply hd_rx_bind; [apply rx_M_pad2; lia|].
    eapply hd_rx_bind; [reflexivity|].
    eapply hd_rx_bind; [apply rx_S_pad2; lia|].
    reflexivity. }
  unfold Strptime.strptime.
  destruct (Strptime.rx_format (Strftime.strftime (Strptime.mkDatetime Y m d H M S)))
    as [|[t0 r] l]; [discriminate|].
  cbn in P. inversion P; subst. cbn [Text.is_empty andb].
  unfold Strptime.valid.
  cbn [Strptime.year Strptime.month Strptime.day Strptime.second].
  replace (1 <=? Y) with true by (symmetry; apply Z.leb_le; lia).
  replace (d <=? Strptime.days_in_month Y m) with true
    by (symmetry; apply Z.leb_le; lia).
  replace (S <=? 59) with true by (symmetry; apply Z.leb_le; lia).
  reflexivity.
Qed.

(** X11.  The format [update_keyword_count] writes a time in is the
    format [process_message] reads: the text [strftime] makes of a
    date and time of a four-digit year parses back to the same fields,
    and a message that carries it as its timestamp, with a keyword
    that is true, gives the hour of that time. *)
Theorem process_message_reads_written_times
        (t : Strptime.datetime) (d : pydict) (w : World) :
  Strftime.is_datetime t ->
  field d "timestamp" = PStr (Strftime.strftime t) ->
  truthy (field d "keyword_mentioned") = true ->
  Strptime.strptime (Strftime.strftime t) = Some t /\
  process_message (PDict d) w =
  (Ok (Some (mkProcessed (Strptime.hour t) (field d "keyword_mentioned"))), w).
Proof.
  intros Ht Hf Hk. pose proof (strptime_strftime t Ht) as P.
  split; [exact P|].
  rewrite process_message_dict, Hf, Hk, P.
  destruct (Strftime.strftime t) eqn:E; [rewrite strptime_empty in P; discriminate|].
  reflexivity.
Qed.

Lemma process_message_reads_written_times_witness :
  (Strftime.is_datetime (Strptime.mkDatetime 2024 2 29 0 5 59) /\
   Strftime.strftime (Strptime.mkDatetime 2024 2 29 0 5 59) = "2024-02-29 00:05:59") /\
  process_message
    (PDict [("keyword_mentioned", PStr "meme"); ("timestamp", PStr "2024-02-29 00:05:59")])
    (Sample.world "") =
  (Ok (Some (mkProcessed 0 (PStr "meme"))), Sample.world "").
Proof.
  assert (H : Strftime.is_datetime (Strptime.mkDatetime 2024 2 29 0 5 59))
    by (unfold Strftime.is_datetime; cbn; lia).
  split; [split; [exact H|reflexivity]|].
  exact (proj2 (process_message_reads_written_times
                  (Strptime.mkDatetime 2024 2 29 0 5 59)
                  [("keyword_mentioned", PStr "meme");
                   ("timestamp", PStr "2024-02-29 00:05:59")]
                  (Sample.world "") H eq_refl eq_refl)).
Defined.

(* ================================================================== *)
(** * The order of the lines                                           *)
(* ================================================================== *)

Lemma filter_length_permutation {A} (f : A -> bool) (l l' : list A) :
  Permutation l l' -> length (filter f l) = length (filter f l').
Proof.
  induction 1 as [|x l l' H IH|x y l|l1 l2 l3 H1 IH1 H2 IH2]; cbn.
  - reflexivity.
  - destruct (f x); cbn; congruence.
  - destruct (f x), (f y); reflexivity.
  - congruence.
Qed.

(** X12.  The counts a pass leaves do not depend on the order of the
    lines: two passes that end normally over the same lines in two
    orders, from the same table, store the same count for every hour
    and keyword text. *)
Theorem line_order_does_not_matter
        (lines lines' : list string) (w : World) (t : table) :
  open_ok (db w) = true -> stored w = Some t ->
  Permutation lines lines' ->
  fst (for_lines lines w) = Ok tt ->
  fst (for_lines lines' w) = Ok tt /\
  exists t1 t2,
    stored (snd (for_lines lines w)) = Some t1 /\
    stored (snd (for_lines lines' w)) = Some t2 /\
    forall hour k, Table.stored_count t2 hour k = Table.stored_count t1 hour k.
Proof.
  intros Ho Hs Hp Hr.
  assert (Hr' : fst (for_lines lines' w) = Ok tt).
  { rewrite for_lines_fst in *.
    destruct (forallb decodable lines) eqn:D; [|discriminate].
    replace (forallb decodable lines') with true; [reflexivity|].
    symmetry. apply forallb_forall. intros l Hin.
    apply (proj1 (forallb_forall _ _) D). apply (Permutation_in l (Permutation_sym Hp) Hin). }
  split; [exact Hr'|].
  destruct (for_lines_adds lines w t Ho Hs Hr) as [t1 [S1 C1]].
  destruct (for_lines_adds lines' w t Ho Hs Hr') as [t2 [S2 C2]].
  exists t1, t2. split; [exact S1|]. split; [exact S2|].
  intros hour k. rewrite C1, C2.
  rewrite (filter_length_permutation (observes hour k) lines lines' Hp). reflexivity.
Qed.

Lemma line_order_does_not_matter_witness :
  (open_ok (db (Sample.with_table [])) = true /\
   stored (Sample.with_table []) = Some [] /\
   Permutation [Sample.meme; ""; Sample.list_keyword]
               [Sample.list_keyword; Sample.meme; ""] /\
   fst (for_lines [Sample.meme; ""; Sample.list_keyword] (Sample.with_table []))
   = Ok tt) /\
  fst (for_lines [Sample.list_keyword; Sample.meme; ""] (Sample.with_table []))
  = Ok tt.
Proof.
  assert (Hp : Permutation [Sample.meme; ""; Sample.list_keyword]
                           [Sample.list_keyword; Sample.meme; ""])
    by (apply Permutation_sym;
        exact (Permutation_cons_append [Sample.meme; ""] Sample.list_keyword)).
  split; [repeat split; try reflexivity; exact Hp|].
  exact (proj1 (line_order_does_not_matter
                  [Sample.meme; ""; Sample.list_keyword]
                  [Sample.list_keyword; Sample.meme; ""]
                  (Sample.with_table []) [] eq_refl eq_refl Hp eq_refl)).
Defined.

(* ================================================================== *)
(** * The result of a message                                          *)
(* ================================================================== *)

(** The test [not x] of [process_message] is true of the fields that
    are absent or empty, and of no other. *)
Lemma missing_not_truthy (d : pydict) (key : string) :
  missing d key <-> truthy (field d key) = false.
Proof.
  unfold missing, field. destruct (dict_lookup d key) as [v|].
  - split.
    + intros [H|[v' [E Hv]]]; [discriminate|]. inversion E; subst v'.
      destruct v as [|[]|[]|f|[]|s|[]|[]]; cbn in *; try reflexivity;
        try contradiction. exact Hv.
    + intros H. right. exists v. split; [reflexivity|].
      destruct v as [|[]|[]|f|[]|s|[]|[]]; cbn in *; try discriminate;
        try exact I. exact H.
  - split; [reflexivity|]. intros _. left. reflexivity.
Qed.

(** C5.  [process_message] on a message dict.  No result, and the
    warning, when the timestamp or the keyword is absent or empty (the
    key is not there, or its value is null, false, a zero, or the
    empty text, list or dict).  No result when the timestamp does not
    parse with the format.  Otherwise the hour of the timestamp with
    the keyword, and nothing logged.  The format reads every date and
    time written as YYYY-MM-DD HH:MM:SS, the three timestamps of the
    specification among them, and refuses other separators, fields out
    of range and text before or after.  A line without a result
    changes nothing in the database and the clock is not read for
    it. *)
Theorem process_message_result (d : pydict) (w : World) :
  (missing d "timestamp" \/ missing d "keyword_mentioned" ->
   process_message (PDict d) w = (Ok None, add_event w (Warning MissingField))) /\
  ((forall s t, dict_lookup d "timestamp" = Some (PStr s) ->
                Strptime.strptime s <> Some t) ->
   fst (process_message (PDict d) w) = Ok None) /\
  (forall s t,
     dict_lookup d "timestamp" = Some (PStr s) -> Strptime.strptime s = Some t ->
     ~ missing d "keyword_mentioned" ->
     process_message (PDict d) w =
     (Ok (Some (mkProcessed (Strptime.hour t) (field d "keyword_mentioned"))), w)) /\
  (forall t, Strftime.is_datetime t ->
             Strptime.strptime (Strftime.strftime t) = Some t) /\
  (option_map Strptime.hour (Strptime.strptime "2025-01-29 14:35:20") = Some 14 /\
   option_map Strptime.hour (Strptime.strptime "2025-01-29 00:05:00") = Some 0 /\
   option_map Strptime.hour (Strptime.strptime "2025-01-29 23:59:59") = Some 23) /\
  (Strptime.strptime "29/01/2025 14:35:20" = None /\
   Strptime.strptime "2025-01-29T14:35:20" = None /\
   Strptime.strptime "2025-01-29 14:35" = None /\
   Strptime.strptime "2025-01-29 24:00:00" = None /\
   Strptime.strptime "2025-01-29 14:60:00" = None /\
   Strptime.strptime "2025-01-29 14:35:60" = None /\
   Strptime.strptime "0000-01-29 14:35:20" = None /\
   Strptime.strptime "2025-02-30 10:00:00" = None /\
   Strptime.strptime "2025-13-01 10:00:00" = None /\
   Strptime.strptime " 2025-01-29 14:35:20" = None /\
   Strptime.strptime "2025-01-29 14:35:20Z" = None) /\
  (forall line message,
     Json.loads (Text.strip line) = Some message ->
     fst (process_message message w) = Ok None ->
     fst (consume_line line w) = Ok tt /\
     db (snd (consume_line line w)) = db w /\
     clock (snd (consume_line line w)) = clock w).
Proof.
  split; [|split; [|split; [|split; [|split; [|split]]]]].
  - intros H. rewrite process_message_dict.
    destruct H as [H|H]; apply missing_not_truthy in H; rewrite H; cbn;
      [reflexivity|]. rewrite orb_true_r. reflexivity.
  - intros H. rewrite process_message_dict.
    destruct (negb _ || negb _); [reflexivity|].
    destruct (field d "timestamp") eqn:E; try reflexivity.
    destruct (Strptime.strptime s) eqn:P; [|reflexivity].
    exfalso. refine (H s d0 _ P). unfold field in E.
    destruct (dict_lookup d "timestamp"); congruence.
  - intros s t E P K. rewrite process_message_dict. unfold field at 1 3.
    rewrite E, P.
    destruct (truthy (field d "keyword_mentioned")) eqn:T.
    + destruct s; [rewrite strptime_empty in P; discriminate|]. reflexivity.
    + exfalso. apply K, missing_not_truthy. exact T.
  - exact strptime_strftime.
  - repeat split; vm_compute; reflexivity.
  - repeat split; vm_compute; reflexivity.
  - intros line message L N.
    destruct (Text.is_empty (Text.strip line)) eqn:B.
    + rewrite consume_line_blank by assumption. repeat split; reflexivity.
    + rewrite (consume_line_decoded line message w B L).
      destruct (process_message_logs message w) as [r [es [R _]]].
      rewrite R in N |- *. cbn in N. inversion N; subst.
      repeat split; reflexivity.
Qed.

Lemma process_message_result_witness :
  let time := PStr "2025-01-29 14:35:20" in
  let good := [("timestamp", time); ("keyword_mentioned", PStr "meme")] in
  let no_keyword := [("timestamp", time)] in
  let empty_keyword := [("timestamp", time); ("keyword_mentioned", PStr "")] in
  let null_time := [("timestamp", PNone); ("keyword_mentioned", PStr "meme")] in
  let bad_time := [("timestamp", PStr "29/01/2025 14:35"); ("keyword_mentioned", PStr "meme")] in
  let w := Sample.world "" in
  (missing no_keyword "keyword_mentioned" /\
   missing empty_keyword "keyword_mentioned" /\
   missing null_time "timestamp" /\
   ~ missing good "keyword_mentioned") /\
  process_message (PDict no_keyword) w = (Ok None, add_event w (Warning MissingField)) /\
  process_message (PDict empty_keyword) w = (Ok None, add_event w (Warning MissingField)) /\
  process_message (PDict null_time) w = (Ok None, add_event w (Warning MissingField)) /\
  fst (process_message (PDict bad_time) w) = Ok None /\
  process_message (PDict good) w = (Ok (Some (mkProcessed 14 (PStr "meme"))), w) /\
  db (snd (consume_line "{}" w)) = db w.
Proof.
  intros time good no_keyword empty_keyword null_time bad_time w.
  assert (M1 : missing no_keyword "keyword_mentioned") by (left; reflexivity).
  assert (M2 : missing empty_keyword "keyword_mentioned")
    by (right; exists (PStr ""); split; [reflexivity|exact I]).
  assert (M3 : missing null_time "timestamp")
    by (right; exists PNone; split; [reflexivity|exact I]).
  assert (M4 : ~ missing good "keyword_mentioned").
  { intros [H|[v [E Hv]]]; [discriminate|]. inversion E; subst v. exact Hv. }
  split; [repeat split; assumption|].
  split; [apply (proj1 (process_message_result no_keyword w)); right; exact M1|].
  split; [apply (proj1 (process_message_result empty_keyword w)); right; exact M2|].
  split; [apply (proj1 (process_message_result null_time w)); left; exact M3|].
  split.
  { apply (proj1 (proj2 (process_message_result bad_time w))).
    intros s t E. inversion E; subst. vm_compute. discriminate. }
  split.
  { apply (proj1 (proj2 (proj2 (process_message_result good w)))
             "2025-01-29 14:35:20"
             (Strptime.mkDatetime 2025 1 29 14 35 20));
      [reflexivity|reflexivity|exact M4]. }
  apply (proj2 (proj2 (proj2 (proj2 (proj2 (proj2 (process_message_result good w))))))
           "{}" (PDict [])); reflexivity.
Defined.
